(** * keras_notebooks: the MNIST_cnn and Reuters_MLP notebooks

    The repository holds two Jupyter notebooks, [notebooks/MNIST_cnn.ipynb]
    and [notebooks/Reuters_MLP.ipynb]; the file of the first one also carries
    two earlier revisions (one of each notebook).  The code cells are embedded
    here as programs over the calls they delegate to Keras, NumPy, matplotlib
    and the [output_model] helper, and the array glue the cells perform
    themselves (reshape, astype, in-place division, one-hot encoding, argmax)
    is embedded as functions. *)

From Stdlib Require Import ZArith List String Bool Lia.
From Stdlib Require Import Floats.SpecFloat.
From stdpp Require Import gmap strings list.
Import ListNotations.
Local Open Scope Z_scope.

(** ** Python exceptions and fallible results *)

Inductive exn : Type :=
| IndexError
| ValueError
| ImportError
| FrameworkError (what : string).

Inductive result (A : Type) : Type :=
| Ok (a : A)
| Err (e : exn).
Arguments Ok {A} a.
Arguments Err {A} e.

Definition is_ok {A} (r : result A) : bool :=
  match r with Ok _ => true | Err _ => false end.

(** ** IEEE 754 binary floating point

    Python floats are binary64, the arrays the MNIST notebook trains on are
    binary32.  Both are [spec_float] values with the operations of
    [SpecFloat] at the format's precision. *)

Module Float.

Record format : Type := { prec : Z; emax : Z }.

Definition binary32 : format := {| prec := 24; emax := 128 |}.
Definition binary64 : format := {| prec := 53; emax := 1024 |}.

Definition of_Z (f : format) (z : Z) : spec_float :=
  binary_normalize (prec f) (emax f) z 0 false.

Definition div (f : format) (x y : spec_float) : spec_float :=
  SFdiv (prec f) (emax f) x y.

Definition sub (f : format) (x y : spec_float) : spec_float :=
  SFsub (prec f) (emax f) x y.

(** The literal [m * 10^-d], correctly rounded: [dec binary64 25 2] is
    Python's [0.25]. *)
Definition dec (f : format) (m : Z) (d : nat) : spec_float :=
  div f (of_Z f m) (of_Z f (10 ^ Z.of_nat d)).

Definition is_nan (x : spec_float) : bool :=
  match x with S754_nan => true | _ => false end.

Definition zero : spec_float := S754_zero false.
Definition one (f : format) : spec_float := of_Z f 1.

End Float.

Definition float32 : Float.format := Float.binary32.
Definition float64 : Float.format := Float.binary64.

(** ** Python sequences *)

(** [l[i]]: negative indices count from the end, anything outside raises
    [IndexError]. *)
Definition py_getitem {A} (l : list A) (i : Z) : result A :=
  let n := Z.of_nat (length l) in
  let j := if i <? 0 then i + n else i in
  if (0 <=? j) && (j <? n) then
    match nth_error l (Z.to_nat j) with
    | Some a => Ok a
    | None => Err IndexError
    end
  else Err IndexError.

(** [range(n)]: empty when [n <= 0]. *)
Definition py_range (n : Z) : list Z :=
  map Z.of_nat (seq 0 (Z.to_nat n)).

(** The bounds of the slice [a:b] of a sequence of length [n]. *)
Definition py_slice_clamp (n i : Z) : Z :=
  if i <? 0 then Z.max (i + n) 0 else Z.min i n.

Definition py_slice_bounds (n a b : Z) : Z * Z :=
  let lo := py_slice_clamp n a in
  let hi := py_slice_clamp n b in
  (lo, Z.max (hi - lo) 0).

(** ** NumPy arrays

    A C-contiguous array: its shape and its buffer, addressed by the
    row-major offset. *)

Record ndarray (A : Type) : Type := { shape : list Z; buf : Z -> A }.
Arguments shape {A} _.
Arguments buf {A} _.

Definition prod_shape (s : list Z) : Z := fold_right Z.mul 1 s.

Definition size {A} (a : ndarray A) : Z := prod_shape (shape a).

(** Row-major offset of a multi-index. *)
Fixpoint ravel (s idx : list Z) : Z :=
  match s, idx with
  | _ :: s', i :: idx' => i * prod_shape s' + ravel s' idx'
  | _, _ => 0
  end.

Fixpoint in_bounds (s idx : list Z) : bool :=
  match s, idx with
  | [], [] => true
  | d :: s', i :: idx' => (0 <=? i) && (i <? d) && in_bounds s' idx'
  | _, _ => false
  end.

(** [a[i0, i1, ...]] with one non-negative index per axis. *)
Definition item {A} (a : ndarray A) (idx : list Z) : result A :=
  if in_bounds (shape a) idx then Ok (buf a (ravel (shape a) idx))
  else Err IndexError.

(** [a.shape[0]]. *)
Definition shape0 {A} (a : ndarray A) : result Z :=
  py_getitem (shape a) 0.

(** [a.reshape(d0, d1, ...)]: the same buffer under a new shape of the same
    size.  One dimension may be negative: it is the unknown one, inferred
    from the size of the array and the other dimensions.  [ValueError] when
    two dimensions are negative, when the unknown one cannot be inferred or
    when the sizes differ. *)
Definition reshape {A} (a : ndarray A) (new : list Z) : result (ndarray A) :=
  let known := prod_shape (List.filter (Z.leb 0) new) in
  match List.filter (fun d => d <? 0) new with
  | [] =>
      if known =? size a then Ok {| shape := new; buf := buf a |}
      else Err ValueError
  | [_] =>
      if (known =? 0) || negb (size a mod known =? 0) then Err ValueError
      else Ok {| shape := map (fun d => if d <? 0 then size a / known else d) new;
                 buf := buf a |}
  | _ => Err ValueError
  end.

Definition amap {A B} (f : A -> B) (a : ndarray A) : ndarray B :=
  {| shape := shape a; buf := fun o => f (buf a o) |}.

Definition uint8_to_Z (b : Byte.byte) : Z := Z.of_N (Byte.to_N b).

(** [a.astype('float32')] on a uint8 array: every value is exact. *)
Definition astype_float32 (a : ndarray Byte.byte) : ndarray spec_float :=
  amap (fun b => Float.of_Z float32 (uint8_to_Z b)) a.

(** [a /= c] on a float32 array and a Python int: the scalar is taken to
    float32 and the division is done in float32. *)
Definition idiv_float32 (a : ndarray spec_float) (c : Z) : ndarray spec_float :=
  amap (fun x => Float.div float32 x (Float.of_Z float32 c)) a.

(** A uint8 pixel taken to float32 and divided by 255 in float32. *)
Definition scaled_pixel (b : Byte.byte) : spec_float :=
  Float.div float32 (Float.of_Z float32 (uint8_to_Z b)) (Float.of_Z float32 255).

(** [0 <= x <= 1] in float32. *)
Definition in_unit_interval (x : spec_float) : bool :=
  SFleb Float.zero x && SFleb x (Float.one float32).

(** [x] is the float32 number nearest to the quotient [num / den] of two
    integers, [0 <= num] and [0 < den]: zero when [num] is 0, otherwise a
    normal number [m * 2^e], [2^23 <= m < 2^24], that differs from the
    quotient by at most half a unit in the last place. *)
Definition nearest_float32 (num den : Z) (x : spec_float) : bool :=
  match x with
  | S754_zero false => num =? 0
  | S754_finite false m e =>
      (2 ^ 23 <=? Z.pos m) && (Z.pos m <? 2 ^ 24) && (e <? 0)
      && (2 * Z.abs (den * Z.pos m - num * 2 ^ (- e)) <=? den)
  | _ => false
  end.

(** [X[i:i+1, :1]] on a 4-d array. *)
Definition slice_sample {A} (X : ndarray A) (i : Z) : result (ndarray A) :=
  match shape X with
  | [n; c; h; w] =>
      let '(lo, rows) := py_slice_bounds n i (i + 1) in
      let c' := Z.min 1 (Z.max c 0) in
      Ok {| shape := [rows; c'; h; w];
            buf := fun o => buf X ((lo + o / (c' * h * w)) * (c * h * w)
                                   + o mod (c' * h * w)) |}
  | _ => Err IndexError
  end.

(** [X[0, 0]] on a 4-d array: the first image plane. *)
Definition first_plane {A} (X : ndarray A) : result (ndarray A) :=
  match shape X with
  | [n; c; h; w] =>
      if (0 <? n) && (0 <? c) then Ok {| shape := [h; w]; buf := buf X |}
      else Err IndexError
  | _ => Err IndexError
  end.

(** [np.max(y)] of an integer vector; [ValueError] on an empty one. *)
Definition np_max (y : list Z) : result Z :=
  match y with
  | [] => Err ValueError
  | x :: y' => Ok (fold_left Z.max y' x)
  end.

(** NumPy's int64 arithmetic wraps around. *)
Definition wrap64 (z : Z) : Z :=
  (z + 2 ^ 63) mod 2 ^ 64 - 2 ^ 63.

(** [np.argmax(v)]: the first index of the maximum, a NaN counting as the
    maximum; [ValueError] on an empty vector. *)
Definition float_gt (x best : spec_float) : bool :=
  if Float.is_nan best then false
  else if Float.is_nan x then true
  else SFltb best x.

Fixpoint argmax_from (best : spec_float) (besti i : Z) (v : list spec_float) : Z :=
  match v with
  | [] => besti
  | x :: v' =>
      if float_gt x best then argmax_from x i (i + 1) v'
      else argmax_from best besti (i + 1) v'
  end.

Definition np_argmax (v : list spec_float) : result Z :=
  match v with
  | [] => Err ValueError
  | x :: v' => Ok (argmax_from x 0 1 v')
  end.

(** ** keras.utils.np_utils

    [to_categorical(y, nb_classes)] of Keras 1.x: a matrix of zeros with
    [Y[i, y[i]] = 1.] written for every [i]; a falsy [nb_classes] is
    replaced by [np.max(y)+1]. *)

Record matrix : Type := { ncols : Z; rows : list (list spec_float) }.

(** [Y.shape]. *)
Definition matrix_shape (Y : matrix) : list Z :=
  [Z.of_nat (length (rows Y)); ncols Y].

Definition one_hot_row (nb_classes c : Z) : result (list spec_float) :=
  let j := if c <? 0 then c + nb_classes else c in
  if (0 <=? j) && (j <? nb_classes) then
    Ok (<[Z.to_nat j := Float.one float64]>
          (replicate (Z.to_nat nb_classes) Float.zero))
  else Err IndexError.

Fixpoint one_hot_rows (nb_classes : Z) (y : list Z) : result (list (list spec_float)) :=
  match y with
  | [] => Ok []
  | c :: y' =>
      match one_hot_row nb_classes c with
      | Err e => Err e
      | Ok r =>
          match one_hot_rows nb_classes y' with
          | Err e => Err e
          | Ok rs => Ok (r :: rs)
          end
      end
  end.

Definition to_categorical (y : list Z) (nb_classes : Z) : result matrix :=
  let classes :=
    if nb_classes =? 0 then
      match np_max y with Ok m => Ok (wrap64 (m + 1)) | Err e => Err e end
    else Ok nb_classes in
  match classes with
  | Err e => Err e
  | Ok n =>
      if n <? 0 then Err ValueError
      else match one_hot_rows n y with
           | Err e => Err e
           | Ok rs => Ok {| ncols := n; rows := rs |}
           end
  end.

(** ** The delegated calls

    Everything below is provided by Keras, NumPy, matplotlib, seaborn, the
    Python runtime or the [output_model] helper; a notebook only issues the
    call and uses what comes back. *)

Inductive layer : Type :=
| Convolution2D (nb_filter nb_row nb_col : Z) (border_mode : option string)
                (input_shape : option (list Z))
| Activation (activation : string)
| MaxPooling2D (pool_size : Z * Z)
| Dropout (p : spec_float)
| Flatten
| Dense (output_dim : Z) (input_shape : option (list Z)).

Inductive model : Type := Model (id : nat).
Inductive tokenizer : Type := TokenizerObj (id : nat).
Inductive history : Type := History (id : nat).
Inductive axes : Type := Axes (id : nat).

(** [(X_train, y_train), (X_test, y_test)] as a dataset loader returns it. *)
Record dataset (X : Type) : Type :=
  { train_X : X; train_y : list Z; test_X : X; test_y : list Z }.
Arguments train_X {X} _.
Arguments train_y {X} _.
Arguments test_X {X} _.
Arguments test_y {X} _.

Inductive validation : Type :=
| validation_data (X : ndarray spec_float) (Y : matrix)
| validation_split (fraction : spec_float).

(** What a cell prints or puts in a title. *)
Inductive pyval : Type :=
| PStr (s : string)
| PInt (z : Z)
| PFloat (x : spec_float)
| PTuple (t : list Z)
| PFormatFloat (fmt : string) (x : spec_float)
| PFormatInts (fmt : string) (args : list Z).

Inductive callE : Type -> Type :=
| import_ (module : string) (names : list string) : callE unit
| magic (line : string) : callE unit
| print (args : list pyval) : callE unit
| time_time : callE spec_float
| np_random_seed (seed : Z) : callE unit
| np_random_randint (high : Z) : callE Z
| mnist_load_data : callE (dataset (ndarray Byte.byte))
| reuters_load_data (nb_words : Z) (test_split : spec_float)
    : callE (dataset (list (list Z)))
| Tokenizer (nb_words : Z) : callE tokenizer
| sequences_to_matrix (t : tokenizer) (sequences : list (list Z)) (mode : string)
    : callE (ndarray spec_float)
| Sequential : callE model
| model_add (m : model) (l : layer) : callE unit
| model_compile (m : model) (loss optimizer : string) (metrics : list string)
    : callE unit
| model_fit (m : model) (X : ndarray spec_float) (Y : matrix)
            (batch_size nb_epoch verbose : Z) (v : validation) : callE history
| model_evaluate (m : model) (X : ndarray spec_float) (Y : matrix)
                 (batch_size : option Z) (verbose : Z) : callE (list spec_float)
| model_predict_proba (m : model) (X : ndarray spec_float)
    : callE (list (list spec_float))
| sns_set_style (style : string) : callE unit
| plt_subplots (nrows ncols : Z) : callE axes
| ax_imshow (ax : axes) (img : ndarray spec_float) : callE unit
| ax_set_title (ax : axes) (title : pyval) : callE unit
| save_model (m : model) (path : string) : callE unit.

(** ** Notebook programs

    A cell is a tree of delegated calls: [Call c k] issues [c] and continues
    with what it returns, [Store x k] binds the global [x], [Raise e] is an
    exception raised by the cell's own glue. *)

Inductive nb (R : Type) : Type :=
| Ret (r : R)
| Raise (e : exn)
| Store (x : string) (k : nb R)
| Call {X : Type} (c : callE X) (k : X -> nb R).
Arguments Ret {R} r.
Arguments Raise {R} e.
Arguments Store {R} x k.
Arguments Call {R X} c k.

Fixpoint bind {A B} (p : nb A) (f : A -> nb B) : nb B :=
  match p with
  | Ret a => f a
  | Raise e => Raise e
  | Store x k => Store x (bind k f)
  | Call c k => Call c (fun x => bind (k x) f)
  end.

Declare Scope nb_scope.
Delimit Scope nb_scope with nb.
Bind Scope nb_scope with nb.
Notation "x <- p ;; q" := (bind p (fun x => q))
  (at level 100, p at next level, right associativity) : nb_scope.
Notation "p ;; q" := (bind p (fun _ => q))
  (at level 100, right associativity) : nb_scope.

Definition call {X} (c : callE X) : nb X := Call c Ret.

Definition lift {A} (r : result A) : nb A :=
  match r with Ok a => Ret a | Err e => Raise e end.

(** [x = a]. *)
Definition assign {A} (x : string) (a : A) : nb A := Store x (Ret a).

(** [for x in xs: body]. *)
Fixpoint for_each {A} (x : string) (xs : list A) (body : A -> nb unit) : nb unit :=
  match xs with
  | [] => Ret tt
  | a :: xs' => bind (Store x (body a)) (fun _ => for_each x xs' body)
  end.

(** ** Running a notebook

    The delegated side is a [framework]: it answers each call with a value
    and a new state, or raises.  A run stops at the first exception and
    records what happened. *)

Inductive ev : Type :=
| Stored (x : string)
| Returned {X : Type} (c : callE X) (x : X)
| Raised {X : Type} (c : callE X) (e : exn).

Definition framework (W : Type) : Type :=
  forall X, callE X -> W -> result (X * W).

Fixpoint run {W R} (fw : framework W) (p : nb R) (w : W)
  : list ev * result (R * W) :=
  match p with
  | Ret r => ([], Ok (r, w))
  | Raise e => ([], Err e)
  | Store x k =>
      let '(tr, out) := run fw k w in (Stored x :: tr, out)
  | Call c k =>
      match fw _ c w with
      | Err e => ([Raised c e], Err e)
      | Ok (x, w') =>
          let '(tr, out) := run fw (k x) w' in (Returned c x :: tr, out)
      end
  end.

Definition trace {W R} (fw : framework W) (p : nb R) (w : W) : list ev :=
  fst (run fw p w).

Definition outcome {W R} (fw : framework W) (p : nb R) (w : W) : result (R * W) :=
  snd (run fw p w).

Definition completes {W R} (fw : framework W) (p : nb R) (w : W) : bool :=
  is_ok (outcome fw p w).

(** [p] runs to the end from [w]: it leaves the trace [tr], returns [r] and
    ends in [w']. *)
Definition runs_to {W R} (fw : framework W) (p : nb R) (w : W)
           (tr : list ev) (r : R) (w' : W) : Prop :=
  run fw p w = (tr, Ok (r, w')).

(** ** Observations on a run *)

(** The names an event binds in the notebook's namespace. *)
Definition bound_names (e : ev) : list string :=
  match e with
  | Stored x => [x]
  | Returned c _ =>
      match c with
      | import_ _ names => names
      | _ => []
      end
  | Raised _ _ => []
  end.

Definition bindings (tr : list ev) : list string :=
  concat (map bound_names tr).

Fixpoint count_string (x : string) (l : list string) : nat :=
  match l with
  | [] => 0%nat
  | x' :: l' => ((if String.eqb x x' then 1 else 0) + count_string x l')%nat
  end.

(** The exceptions delegated calls raised during a run. *)
Definition failures (tr : list ev) : list exn :=
  concat (map (fun e => match e with Raised _ x => [x] | _ => [] end) tr).

(** The steps a notebook goes through. *)
Inductive phase : Type :=
| LoadData
| Hyperparameters
| BuildModel
| Fit
| Evaluate
| Visualize
| SaveModel.

Definition phase_eqb (a b : phase) : bool :=
  match a, b with
  | LoadData, LoadData | Hyperparameters, Hyperparameters
  | BuildModel, BuildModel | Fit, Fit | Evaluate, Evaluate
  | Visualize, Visualize | SaveModel, SaveModel => true
  | _, _ => false
  end.

Definition call_phase {X} (c : callE X) : option phase :=
  match c with
  | mnist_load_data | reuters_load_data _ _ => Some LoadData
  | Sequential | model_add _ _ | model_compile _ _ _ _ => Some BuildModel
  | model_fit _ _ _ _ _ _ _ => Some Fit
  | model_evaluate _ _ _ _ _ => Some Evaluate
  | model_predict_proba _ _ | plt_subplots _ _
  | ax_imshow _ _ | ax_set_title _ _ => Some Visualize
  | save_model _ _ => Some SaveModel
  | _ => None
  end.

(** [constants] are the names the notebook's settings cell binds. *)
Definition phase_of (constants : list string) (e : ev) : option phase :=
  match e with
  | Stored x =>
      if existsb (String.eqb x) constants then Some Hyperparameters else None
  | Returned c _ => call_phase c
  | Raised c _ => call_phase c
  end.

Fixpoint squash (ps : list phase) : list phase :=
  match ps with
  | [] => []
  | p :: ps' =>
      match squash ps' with
      | [] => [p]
      | q :: qs => if phase_eqb p q then q :: qs else p :: q :: qs
      end
  end.

(** The phases of a run in the order they are entered. *)
Definition phases (constants : list string) (tr : list ev) : list phase :=
  squash (omap (phase_of constants) tr).

(** What happens to model [m] during a run. *)
Inductive model_op : Type :=
| OpAdd (l : layer)
| OpCompile
| OpFit
| OpEvaluate
| OpPredict
| OpSave.

Definition model_eqb (a b : model) : bool :=
  match a, b with Model i, Model j => Nat.eqb i j end.

Definition call_model_op {X} (m : model) (c : callE X) : option model_op :=
  match c with
  | model_add m' l => if model_eqb m m' then Some (OpAdd l) else None
  | model_compile m' _ _ _ => if model_eqb m m' then Some OpCompile else None
  | model_fit m' _ _ _ _ _ _ => if model_eqb m m' then Some OpFit else None
  | model_evaluate m' _ _ _ _ => if model_eqb m m' then Some OpEvaluate else None
  | model_predict_proba m' _ => if model_eqb m m' then Some OpPredict else None
  | save_model m' _ => if model_eqb m m' then Some OpSave else None
  | _ => None
  end.

Definition model_ops (m : model) (tr : list ev) : list model_op :=
  omap (fun e => match e with
                 | Returned c _ => call_model_op m c
                 | _ => None
                 end) tr.

(** The models a run constructs. *)
Definition models_created (tr : list ev) : list model :=
  concat (map (fun e =>
                 match e with
                 | Returned c x =>
                     match c in callE X return X -> list model with
                     | Sequential => fun m => [m]
                     | _ => fun _ => []
                     end x
                 | _ => []
                 end) tr).

(** The layers added to any model, in order. *)
Definition layers_added (tr : list ev) : list layer :=
  concat (map (fun e =>
                 match e with
                 | Returned c _ =>
                     match c with
                     | model_add _ l => [l]
                     | _ => []
                     end
                 | _ => []
                 end) tr).

Definition layer_class (l : layer) : string :=
  match l with
  | Convolution2D _ _ _ _ _ => "Convolution2D"
  | Activation _ => "Activation"
  | MaxPooling2D _ => "MaxPooling2D"
  | Dropout _ => "Dropout"
  | Flatten => "Flatten"
  | Dense _ _ => "Dense"
  end.

(** The data each [evaluate] call is given and the scores it returns. *)
Definition evaluations (tr : list ev)
  : list (ndarray spec_float * matrix * list spec_float) :=
  concat (map (fun e =>
                 match e with
                 | Returned c x =>
                     match c in callE X
                           return X -> list (ndarray spec_float * matrix
                                             * list spec_float) with
                     | model_evaluate _ X Y _ _ => fun score => [(X, Y, score)]
                     | _ => fun _ => []
                     end x
                 | _ => []
                 end) tr).

(** The labelled numbers a run prints with [print(label, x)]. *)
Definition reported (tr : list ev) : list (string * spec_float) :=
  concat (map (fun e =>
                 match e with
                 | Returned c _ =>
                     match c with
                     | print [PStr label; PFloat x] => [(label, x)]
                     | _ => []
                     end
                 | _ => []
                 end) tr).

(** The layer classes Keras provides that the notebooks use. *)
Definition framework_layers : list string :=
  ["Convolution2D"; "MaxPooling2D"; "Dense"; "Dropout"; "Activation"; "Flatten"].

(** One model is constructed, by [Sequential()]; it receives [add] calls of
    framework layers only, then one [compile], then [after_compile]. *)
Definition sequential_model (tr : list ev) (after_compile : list model_op) : Prop :=
  exists m ls,
    models_created tr = [m] /\
    model_ops m tr = map OpAdd ls ++ OpCompile :: after_compile /\
    Forall (fun l => In (layer_class l) framework_layers) ls.

(** Leading [Dense -> relu -> Dropout] blocks of a layer stack. *)
Fixpoint hidden_blocks (ls : list layer) : nat :=
  match ls with
  | Dense _ _ :: Activation a :: Dropout _ :: ls' =>
      if String.eqb a "relu" then S (hidden_blocks ls') else 0%nat
  | _ => 0%nat
  end.

(** The numbers a call is given, those of a layer constructor included. *)
Inductive number : Type :=
| Int (z : Z)
| Flt (x : spec_float).

Definition spec_float_eqb (a b : spec_float) : bool :=
  match a, b with
  | S754_zero s, S754_zero t => Bool.eqb s t
  | S754_infinity s, S754_infinity t => Bool.eqb s t
  | S754_nan, S754_nan => true
  | S754_finite s m e, S754_finite t m' e' =>
      Bool.eqb s t && Pos.eqb m m' && Z.eqb e e'
  | _, _ => false
  end.

Definition number_eqb (a b : number) : bool :=
  match a, b with
  | Int x, Int y => Z.eqb x y
  | Flt x, Flt y => spec_float_eqb x y
  | _, _ => false
  end.

Definition shape_numbers (s : option (list Z)) : list number :=
  match s with
  | Some dims => map Int dims
  | None => []
  end.

Definition layer_numbers (l : layer) : list number :=
  match l with
  | Convolution2D f r c _ s => Int f :: Int r :: Int c :: shape_numbers s
  | MaxPooling2D (a, b) => [Int a; Int b]
  | Dropout p => [Flt p]
  | Dense d s => Int d :: shape_numbers s
  | Activation _ | Flatten => []
  end.

Definition call_numbers {X} (c : callE X) : list number :=
  match c with
  | np_random_seed z => [Int z]
  | np_random_randint h => [Int h]
  | reuters_load_data w t => [Int w; Flt t]
  | Tokenizer w => [Int w]
  | model_add _ l => layer_numbers l
  | model_fit _ _ _ b e v val =>
      Int b :: Int e :: Int v ::
      match val with
      | validation_split f => [Flt f]
      | validation_data _ _ => []
      end
  | model_evaluate _ _ _ b v =>
      match b with Some b' => [Int b'] | None => [] end ++ [Int v]
  | plt_subplots r c => [Int r; Int c]
  | _ => []
  end.

Definition ev_numbers (e : ev) : list number :=
  match e with
  | Stored _ => []
  | Returned c _ => call_numbers c
  | Raised c _ => call_numbers c
  end.

(** Some call of the run is given the number [v]. *)
Definition passed (v : number) (tr : list ev) : bool :=
  existsb (fun e => existsb (number_eqb v) (ev_numbers e)) tr.

(** ** notebooks/MNIST_cnn.ipynb *)

Module MNIST_cnn.

(** The names bound by the "Set some constants" cell. *)
Record settings : Type :=
  { batch_size : Z;
    nb_classes : Z;
    nb_epoch : Z;
    img_rows : Z;
    img_cols : Z;
    nb_filters : Z;
    nb_pool : Z;
    nb_conv : Z;
    conv_dropout : spec_float;
    dens_dropout : spec_float;
    nb_hidden : Z }.

Definition constants : list string :=
  ["batch_size"; "nb_classes"; "nb_epoch"; "img_rows"; "img_cols";
   "nb_filters"; "nb_pool"; "nb_conv"; "conv_dropout"; "dens_dropout";
   "nb_hidden"].

(** The value a setting holds, by name. *)
Definition setting (s : settings) (x : string) : option number :=
  if String.eqb x "batch_size" then Some (Int (batch_size s))
  else if String.eqb x "nb_classes" then Some (Int (nb_classes s))
  else if String.eqb x "nb_epoch" then Some (Int (nb_epoch s))
  else if String.eqb x "img_rows" then Some (Int (img_rows s))
  else if String.eqb x "img_cols" then Some (Int (img_cols s))
  else if String.eqb x "nb_filters" then Some (Int (nb_filters s))
  else if String.eqb x "nb_pool" then Some (Int (nb_pool s))
  else if String.eqb x "nb_conv" then Some (Int (nb_conv s))
  else if String.eqb x "conv_dropout" then Some (Flt (conv_dropout s))
  else if String.eqb x "dens_dropout" then Some (Flt (dens_dropout s))
  else if String.eqb x "nb_hidden" then Some (Int (nb_hidden s))
  else None.

(** The arrays bound by the "Get the training data" cell. *)
Record data : Type :=
  { X_train : ndarray spec_float;
    y_train : list Z;
    X_test : ndarray spec_float;
    y_test : list Z;
    Y_train : matrix;
    Y_test : matrix }.

Definition cell_imports : nb unit :=
  (call (import_ "__future__" ["print_function"; "absolute_import"; "division"]);;
   call (import_ "numpy" ["np"]);;
   call (np_random_seed 1337);;
   call (import_ "keras.datasets" ["mnist"]);;
   call (import_ "keras.models" ["Sequential"]);;
   call (import_ "keras.layers" ["Dense"; "Dropout"; "Activation"; "Flatten"]);;
   call (import_ "keras.layers" ["Convolution2D"; "MaxPooling2D"]);;
   call (import_ "keras.utils" ["np_utils"]))%nb.

Definition import_events : list ev :=
  [ Returned (import_ "__future__" ["print_function"; "absolute_import"; "division"]) tt;
    Returned (import_ "numpy" ["np"]) tt;
    Returned (np_random_seed 1337) tt;
    Returned (import_ "keras.datasets" ["mnist"]) tt;
    Returned (import_ "keras.models" ["Sequential"]) tt;
    Returned (import_ "keras.layers" ["Dense"; "Dropout"; "Activation"; "Flatten"]) tt;
    Returned (import_ "keras.layers" ["Convolution2D"; "MaxPooling2D"]) tt;
    Returned (import_ "keras.utils" ["np_utils"]) tt ].

Definition cell_constants : nb settings :=
  (batch_size <- assign "batch_size" 128;;
   nb_classes <- assign "nb_classes" 10;;
   nb_epoch <- assign "nb_epoch" 12;;
   img_rows <- assign "img_rows" 28;;
   img_cols <- assign "img_cols" 28;;
   nb_filters <- assign "nb_filters" 32;;
   nb_pool <- assign "nb_pool" 2;;
   nb_conv <- assign "nb_conv" 3;;
   conv_dropout <- assign "conv_dropout" (Float.dec float64 25 2);;
   dens_dropout <- assign "dens_dropout" (Float.dec float64 5 1);;
   nb_hidden <- assign "nb_hidden" 128;;
   Ret {| batch_size := batch_size; nb_classes := nb_classes;
          nb_epoch := nb_epoch; img_rows := img_rows; img_cols := img_cols;
          nb_filters := nb_filters; nb_pool := nb_pool; nb_conv := nb_conv;
          conv_dropout := conv_dropout; dens_dropout := dens_dropout;
          nb_hidden := nb_hidden |})%nb.

(** The values the cell binds. *)
Definition recorded : settings :=
  {| batch_size := 128; nb_classes := 10; nb_epoch := 12;
     img_rows := 28; img_cols := 28; nb_filters := 32; nb_pool := 2;
     nb_conv := 3; conv_dropout := Float.dec float64 25 2;
     dens_dropout := Float.dec float64 5 1; nb_hidden := 128 |}.

(** [X.reshape(X.shape[0], 1, img_rows, img_cols)], [astype('float32')]
    and [/= 255], the three steps the data cell applies to both image
    arrays. *)
Definition reshape_images (s : settings) (X : ndarray Byte.byte)
  : result (ndarray Byte.byte) :=
  match shape0 X with
  | Err e => Err e
  | Ok n => reshape X [n; 1; img_rows s; img_cols s]
  end.

Definition preprocess (s : settings) (X : ndarray Byte.byte)
  : result (ndarray spec_float) :=
  match reshape_images s X with
  | Err e => Err e
  | Ok X1 => Ok (idiv_float32 (astype_float32 X1) 255)
  end.

Definition cell_data (s : settings) : nb data :=
  (d <- call mnist_load_data;;
   X_train <- assign "X_train" (train_X d);;
   y_train <- assign "y_train" (train_y d);;
   X_test <- assign "X_test" (test_X d);;
   y_test <- assign "y_test" (test_y d);;
   X_train <- lift (reshape_images s X_train);;
   X_train <- assign "X_train" X_train;;
   X_test <- lift (reshape_images s X_test);;
   X_test <- assign "X_test" X_test;;
   X_train <- assign "X_train" (astype_float32 X_train);;
   X_test <- assign "X_test" (astype_float32 X_test);;
   X_train <- assign "X_train" (idiv_float32 X_train 255);;
   X_test <- assign "X_test" (idiv_float32 X_test 255);;
   call (print [PStr "X_train shape:"; PTuple (shape X_train)]);;
   n_train <- lift (shape0 X_train);;
   call (print [PInt n_train; PStr "train samples"]);;
   n_test <- lift (shape0 X_test);;
   call (print [PInt n_test; PStr "test samples"]);;
   Y_train <- lift (to_categorical y_train (nb_classes s));;
   Y_train <- assign "Y_train" Y_train;;
   Y_test <- lift (to_categorical y_test (nb_classes s));;
   Y_test <- assign "Y_test" Y_test;;
   Ret {| X_train := X_train; y_train := y_train;
          X_test := X_test; y_test := y_test;
          Y_train := Y_train; Y_test := Y_test |})%nb.

(** What a completed run of the cell leaves in the trace, [raw] being
    what the loader returned and [d] what the cell bound; likewise for the
    cells below. *)
Definition data_events (raw : dataset (ndarray Byte.byte)) (d : data)
           (n_train n_test : Z) : list ev :=
  [ Returned mnist_load_data raw;
    Stored "X_train"; Stored "y_train"; Stored "X_test"; Stored "y_test";
    Stored "X_train"; Stored "X_test";
    Stored "X_train"; Stored "X_test";
    Stored "X_train"; Stored "X_test";
    Returned (print [PStr "X_train shape:"; PTuple (shape (X_train d))]) tt;
    Returned (print [PInt n_train; PStr "train samples"]) tt;
    Returned (print [PInt n_test; PStr "test samples"]) tt;
    Stored "Y_train"; Stored "Y_test" ].

Definition cell_model (s : settings) : nb model :=
  (model <- call Sequential;;
   model <- assign "model" model;;
   call (model_add model
           (Convolution2D (nb_filters s) (nb_conv s) (nb_conv s) (Some "valid")
                          (Some [1; img_rows s; img_cols s])));;
   call (model_add model (Activation "relu"));;
   call (model_add model
           (Convolution2D (nb_filters s) (nb_conv s) (nb_conv s) None None));;
   call (model_add model (Activation "relu"));;
   call (model_add model (MaxPooling2D (nb_pool s, nb_pool s)));;
   call (model_add model (Dropout (conv_dropout s)));;
   call (model_add model Flatten);;
   call (model_add model (Dense (nb_hidden s) None));;
   call (model_add model (Activation "relu"));;
   call (model_add model (Dropout (dens_dropout s)));;
   call (model_add model (Dense (nb_classes s) None));;
   call (model_add model (Activation "softmax"));;
   call (model_compile model "categorical_crossentropy" "adadelta" ["accuracy"]);;
   Ret model)%nb.

(** The layers the cell adds, in order. *)
Definition stack (s : settings) : list layer :=
  [ Convolution2D (nb_filters s) (nb_conv s) (nb_conv s) (Some "valid")
                  (Some [1; img_rows s; img_cols s]);
    Activation "relu";
    Convolution2D (nb_filters s) (nb_conv s) (nb_conv s) None None;
    Activation "relu";
    MaxPooling2D (nb_pool s, nb_pool s);
    Dropout (conv_dropout s);
    Flatten;
    Dense (nb_hidden s) None;
    Activation "relu";
    Dropout (dens_dropout s);
    Dense (nb_classes s) None;
    Activation "softmax" ].

Definition model_events (s : settings) (model : model) : list ev :=
  [ Returned Sequential model;
    Stored "model";
    Returned (model_add model
                (Convolution2D (nb_filters s) (nb_conv s) (nb_conv s) (Some "valid")
                               (Some [1; img_rows s; img_cols s]))) tt;
    Returned (model_add model (Activation "relu")) tt;
    Returned (model_add model
                (Convolution2D (nb_filters s) (nb_conv s) (nb_conv s) None None)) tt;
    Returned (model_add model (Activation "relu")) tt;
    Returned (model_add model (MaxPooling2D (nb_pool s, nb_pool s))) tt;
    Returned (model_add model (Dropout (conv_dropout s))) tt;
    Returned (model_add model Flatten) tt;
    Returned (model_add model (Dense (nb_hidden s) None)) tt;
    Returned (model_add model (Activation "relu")) tt;
    Returned (model_add model (Dropout (dens_dropout s))) tt;
    Returned (model_add model (Dense (nb_classes s) None)) tt;
    Returned (model_add model (Activation "softmax")) tt;
    Returned (model_compile model "categorical_crossentropy" "adadelta"
                ["accuracy"]) tt ].

(** [(t2-t1)/60]. *)
Definition minutes (t1 t2 : spec_float) : spec_float :=
  Float.div float64 (Float.sub float64 t2 t1) (Float.of_Z float64 60).

Definition cell_fit (s : settings) (d : data) (model : model) : nb unit :=
  (call (import_ "time" ["time"]);;
   t1 <- call time_time;;
   t1 <- assign "t1" t1;;
   call (model_fit model (X_train d) (Y_train d) (batch_size s) (nb_epoch s) 1
           (validation_data (X_test d) (Y_test d)));;
   t2 <- call time_time;;
   t2 <- assign "t2" t2;;
   call (print [PFormatFloat "Training Finished in {} minutes." (minutes t1 t2)]))%nb.

Definition fit_events (s : settings) (d : data) (model : model)
           (t1 : spec_float) (h : history) (t2 : spec_float) : list ev :=
  [ Returned (import_ "time" ["time"]) tt;
    Returned time_time t1;
    Stored "t1";
    Returned (model_fit model (X_train d) (Y_train d) (batch_size s) (nb_epoch s) 1
                (validation_data (X_test d) (Y_test d))) h;
    Returned time_time t2;
    Stored "t2";
    Returned (print [PFormatFloat "Training Finished in {} minutes."
                       (minutes t1 t2)]) tt ].

Definition cell_evaluate (d : data) (model : model) : nb (list spec_float) :=
  (score <- call (model_evaluate model (X_test d) (Y_test d) None 0);;
   score <- assign "score" score;;
   loss <- lift (py_getitem score 0);;
   call (print [PStr "Test score:"; PFloat loss]);;
   acc <- lift (py_getitem score 1);;
   call (print [PStr "Test accuracy:"; PFloat acc]);;
   Ret score)%nb.

Definition evaluate_events (d : data) (model : model)
           (score : list spec_float) (loss acc : spec_float) : list ev :=
  [ Returned (model_evaluate model (X_test d) (Y_test d) None 0) score;
    Stored "score";
    Returned (print [PStr "Test score:"; PFloat loss]) tt;
    Returned (print [PStr "Test accuracy:"; PFloat acc]) tt ].

Definition cell_plot_imports : nb unit :=
  (call (import_ "matplotlib.pyplot" ["plt"]);;
   call (import_ "seaborn" ["sns"]);;
   call (sns_set_style "white");;
   call (magic "matplotlib inline"))%nb.

Definition plot_import_events : list ev :=
  [ Returned (import_ "matplotlib.pyplot" ["plt"]) tt;
    Returned (import_ "seaborn" ["sns"]) tt;
    Returned (sns_set_style "white") tt;
    Returned (magic "matplotlib inline") tt ].

Definition title_format : string :=
  String.append "Predicted Digit = {}"
    (String (Ascii.ascii_of_nat 10) "Actual digit = {}").

(** [def show_predictions(i)]; the globals it reads are parameters. *)
Definition show_predictions (d : data) (model : model) (i : Z) : nb unit :=
  (X <- lift (slice_sample (X_test d) i);;
   probs <- call (model_predict_proba model X);;
   digit_probs <- lift (py_getitem probs 0);;
   idx <- lift (np_argmax digit_probs);;
   row <- lift (py_getitem (rows (Y_test d)) i);;
   actual <- lift (np_argmax row);;
   ax <- call (plt_subplots 1 1);;
   img <- lift (first_plane X);;
   call (ax_imshow ax img);;
   call (ax_set_title ax (PFormatInts title_format [idx; actual])))%nb.

Definition show_predictions_events (model : model) (X : ndarray spec_float)
           (probs : list (list spec_float)) (idx actual : Z) (ax : axes)
           (img : ndarray spec_float) : list ev :=
  [ Returned (model_predict_proba model X) probs;
    Returned (plt_subplots 1 1) ax;
    Returned (ax_imshow ax img) tt;
    Returned (ax_set_title ax (PFormatInts title_format [idx; actual])) tt ].

Definition cell_show_predictions_def : nb unit :=
  Store "show_predictions" (Ret tt).

Definition cell_show (d : data) (model : model) : nb unit :=
  (n <- lift (shape0 (X_test d));;
   i <- call (np_random_randint n);;
   show_predictions d model i)%nb.

Definition cell_save (model : model) : nb unit :=
  (call (import_ "output_model" ["output_model"]);;
   call (save_model model "models/MNIST_cnn_model"))%nb.

Definition save_events (model : model) : list ev :=
  [ Returned (import_ "output_model" ["output_model"]) tt;
    Returned (save_model model "models/MNIST_cnn_model") tt ].

(** The cells below the constants, for any values of the constants. *)
Definition train_and_show (s : settings) : nb (data * model) :=
  (d <- cell_data s;;
   model <- cell_model s;;
   cell_fit s d model;;
   cell_evaluate d model;;
   cell_plot_imports;;
   cell_show_predictions_def;;
   cell_show d model;;
   Ret (d, model))%nb.

(** What the framework returned and what the cells computed from it
    during a completed run. *)
Record answers : Type :=
  { a_raw : dataset (ndarray Byte.byte);
    a_data : data;
    a_model : model;
    a_n_train : Z;
    a_n_test : Z;
    a_t1 : spec_float;
    a_history : history;
    a_t2 : spec_float;
    a_score : list spec_float;
    a_loss : spec_float;
    a_acc : spec_float;
    a_sample : Z;
    a_X : ndarray spec_float;
    a_probs : list (list spec_float);
    a_idx : Z;
    a_actual : Z;
    a_ax : axes;
    a_img : ndarray spec_float }.

(** The glue of the data cell: how [d] is computed from [raw]. *)
Definition prepared (s : settings) (raw : dataset (ndarray Byte.byte))
           (d : data) (n_train n_test : Z) : Prop :=
  (exists X1, reshape_images s (train_X raw) = Ok X1 /\
              X_train d = idiv_float32 (astype_float32 X1) 255) /\
  (exists X2, reshape_images s (test_X raw) = Ok X2 /\
              X_test d = idiv_float32 (astype_float32 X2) 255) /\
  y_train d = train_y raw /\
  y_test d = test_y raw /\
  to_categorical (train_y raw) (nb_classes s) = Ok (Y_train d) /\
  to_categorical (test_y raw) (nb_classes s) = Ok (Y_test d) /\
  shape0 (X_train d) = Ok n_train /\
  shape0 (X_test d) = Ok n_test.

(** The glue of [show_predictions(i)]. *)
Definition shown (d : data) (i : Z) (X : ndarray spec_float)
           (probs : list (list spec_float)) (idx actual : Z)
           (img : ndarray spec_float) : Prop :=
  slice_sample (X_test d) i = Ok X /\
  (exists digit_probs, py_getitem probs 0 = Ok digit_probs /\
                       np_argmax digit_probs = Ok idx) /\
  (exists row, py_getitem (rows (Y_test d)) i = Ok row /\
               np_argmax row = Ok actual) /\
  first_plane X = Ok img.

Definition glue (s : settings) (a : answers) : Prop :=
  prepared s (a_raw a) (a_data a) (a_n_train a) (a_n_test a) /\
  py_getitem (a_score a) 0 = Ok (a_loss a) /\
  py_getitem (a_score a) 1 = Ok (a_acc a) /\
  shown (a_data a) (a_sample a) (a_X a) (a_probs a) (a_idx a) (a_actual a)
        (a_img a).

Definition train_and_show_events (s : settings) (a : answers) : list ev :=
  data_events (a_raw a) (a_data a) (a_n_train a) (a_n_test a)
  ++ model_events s (a_model a)
  ++ fit_events s (a_data a) (a_model a) (a_t1 a) (a_history a) (a_t2 a)
  ++ evaluate_events (a_data a) (a_model a) (a_score a) (a_loss a) (a_acc a)
  ++ plot_import_events
  ++ [Stored "show_predictions";
      Returned (np_random_randint (a_n_test a)) (a_sample a)]
  ++ show_predictions_events (a_model a) (a_X a) (a_probs a) (a_idx a)
       (a_actual a) (a_ax a) (a_img a).

Definition with_settings_events (s : settings) (a : answers) : list ev :=
  train_and_show_events s a ++ save_events (a_model a).

Definition notebook_events (a : answers) : list ev :=
  import_events ++ map Stored constants ++ with_settings_events recorded a.

Definition earlier_revision_events (a : answers) : list ev :=
  import_events ++ map Stored constants ++ train_and_show_events recorded a
  ++ [Returned (magic "model.fit?") tt].

Definition with_settings (s : settings) : nb unit :=
  (dm <- train_and_show s;;
   cell_save (snd dm))%nb.

(** A top-to-bottom run of the notebook. *)
Definition notebook : nb unit :=
  (cell_imports;;
   s <- cell_constants;;
   with_settings s)%nb.

(** The earlier revision kept in the same file: the same cells, then
    [model.fit?] and no save. *)
Definition earlier_revision : nb unit :=
  (cell_imports;;
   s <- cell_constants;;
   train_and_show s;;
   call (magic "model.fit?"))%nb.

End MNIST_cnn.

(** ** notebooks/Reuters_MLP.ipynb *)

Module Reuters_MLP.

(** The names bound by the settings cell. *)
Record settings : Type :=
  { max_words : Z;
    batch_size : Z;
    nb_epoch : Z;
    nb_dense : Z;
    nb_hidden : Z;
    p_dropout : spec_float }.

Definition constants : list string :=
  ["max_words"; "batch_size"; "nb_epoch"; "nb_dense"; "nb_hidden";
   "p_dropout"].

(** The value a setting holds, by name. *)
Definition setting (s : settings) (x : string) : option number :=
  if String.eqb x "max_words" then Some (Int (max_words s))
  else if String.eqb x "batch_size" then Some (Int (batch_size s))
  else if String.eqb x "nb_epoch" then Some (Int (nb_epoch s))
  else if String.eqb x "nb_dense" then Some (Int (nb_dense s))
  else if String.eqb x "nb_hidden" then Some (Int (nb_hidden s))
  else if String.eqb x "p_dropout" then Some (Flt (p_dropout s))
  else None.

(** The names bound by the "Get the data" cell. *)
Record data : Type :=
  { y_train : list Z;
    y_test : list Z;
    nb_classes : Z;
    tokenizer_ : tokenizer;
    X_train : ndarray spec_float;
    X_test : ndarray spec_float;
    Y_train : matrix;
    Y_test : matrix }.

Definition cell_imports : nb unit :=
  (call (import_ "__future__" ["print_function"]);;
   call (import_ "numpy" ["np"]);;
   call (np_random_seed 1337);;
   call (import_ "keras.datasets" ["reuters"]);;
   call (import_ "keras.models" ["Sequential"]);;
   call (import_ "keras.layers" ["Dense"; "Dropout"; "Activation"]);;
   call (import_ "keras.utils" ["np_utils"]);;
   call (import_ "keras.preprocessing.text" ["Tokenizer"]))%nb.

Definition import_events : list ev :=
  [ Returned (import_ "__future__" ["print_function"]) tt;
    Returned (import_ "numpy" ["np"]) tt;
    Returned (np_random_seed 1337) tt;
    Returned (import_ "keras.datasets" ["reuters"]) tt;
    Returned (import_ "keras.models" ["Sequential"]) tt;
    Returned (import_ "keras.layers" ["Dense"; "Dropout"; "Activation"]) tt;
    Returned (import_ "keras.utils" ["np_utils"]) tt;
    Returned (import_ "keras.preprocessing.text" ["Tokenizer"]) tt ].

Definition cell_constants : nb settings :=
  (max_words <- assign "max_words" 1000;;
   batch_size <- assign "batch_size" 32;;
   nb_epoch <- assign "nb_epoch" 15;;
   nb_dense <- assign "nb_dense" 512;;
   nb_hidden <- assign "nb_hidden" 1;;
   p_dropout <- assign "p_dropout" (Float.dec float64 5 1);;
   Ret {| max_words := max_words; batch_size := batch_size;
          nb_epoch := nb_epoch; nb_dense := nb_dense;
          nb_hidden := nb_hidden; p_dropout := p_dropout |})%nb.

(** The values the cell binds. *)
Definition recorded : settings :=
  {| max_words := 1000; batch_size := 32; nb_epoch := 15; nb_dense := 512;
     nb_hidden := 1; p_dropout := Float.dec float64 5 1 |}.

(** [np.max(y_train)+1]: the labels the loader returns are int64, and so
    is the sum. *)
Definition count_classes (y_train : list Z) : result Z :=
  match np_max y_train with
  | Err e => Err e
  | Ok m => Ok (wrap64 (m + 1))
  end.

Definition cell_data (s : settings) : nb data :=
  (call (print [PStr "Loading data..."]);;
   d <- call (reuters_load_data (max_words s) (Float.dec float64 2 1));;
   X_train <- assign "X_train" (train_X d);;
   y_train <- assign "y_train" (train_y d);;
   X_test <- assign "X_test" (test_X d);;
   y_test <- assign "y_test" (test_y d);;
   call (print [PInt (Z.of_nat (length X_train)); PStr "train sequences"]);;
   call (print [PInt (Z.of_nat (length X_test)); PStr "test sequences"]);;
   nb_classes <- lift (count_classes y_train);;
   nb_classes <- assign "nb_classes" nb_classes;;
   call (print [PInt nb_classes; PStr "classes"]);;
   call (print [PStr "Vectorizing sequence data..."]);;
   tokenizer <- call (Tokenizer (max_words s));;
   tokenizer <- assign "tokenizer" tokenizer;;
   X_train <- call (sequences_to_matrix tokenizer X_train "binary");;
   X_train <- assign "X_train" X_train;;
   X_test <- call (sequences_to_matrix tokenizer X_test "binary");;
   X_test <- assign "X_test" X_test;;
   call (print [PStr "X_train shape:"; PTuple (shape X_train)]);;
   call (print [PStr "X_test shape:"; PTuple (shape X_test)]);;
   call (print [PStr "Convert class vector to binary class matrix (for use with categorical_crossentropy)"]);;
   Y_train <- lift (to_categorical y_train nb_classes);;
   Y_train <- assign "Y_train" Y_train;;
   Y_test <- lift (to_categorical y_test nb_classes);;
   Y_test <- assign "Y_test" Y_test;;
   call (print [PStr "Y_train shape:"; PTuple (matrix_shape Y_train)]);;
   call (print [PStr "Y_test shape:"; PTuple (matrix_shape Y_test)]);;
   Ret {| y_train := y_train; y_test := y_test; nb_classes := nb_classes;
          tokenizer_ := tokenizer; X_train := X_train; X_test := X_test;
          Y_train := Y_train; Y_test := Y_test |})%nb.

(** What a completed run of the cell leaves in the trace, [raw] being
    what the loader returned and [d] what the cell bound; likewise for the
    cells below. *)
Definition data_events (s : settings) (raw : dataset (list (list Z)))
           (d : data) : list ev :=
  [ Returned (print [PStr "Loading data..."]) tt;
    Returned (reuters_load_data (max_words s) (Float.dec float64 2 1)) raw;
    Stored "X_train"; Stored "y_train"; Stored "X_test"; Stored "y_test";
    Returned (print [PInt (Z.of_nat (length (train_X raw))); PStr "train sequences"]) tt;
    Returned (print [PInt (Z.of_nat (length (test_X raw))); PStr "test sequences"]) tt;
    Stored "nb_classes";
    Returned (print [PInt (nb_classes d); PStr "classes"]) tt;
    Returned (print [PStr "Vectorizing sequence data..."]) tt;
    Returned (Tokenizer (max_words s)) (tokenizer_ d);
    Stored "tokenizer";
    Returned (sequences_to_matrix (tokenizer_ d) (train_X raw) "binary") (X_train d);
    Stored "X_train";
    Returned (sequences_to_matrix (tokenizer_ d) (test_X raw) "binary") (X_test d);
    Stored "X_test";
    Returned (print [PStr "X_train shape:"; PTuple (shape (X_train d))]) tt;
    Returned (print [PStr "X_test shape:"; PTuple (shape (X_test d))]) tt;
    Returned (print [PStr "Convert class vector to binary class matrix (for use with categorical_crossentropy)"]) tt;
    Stored "Y_train"; Stored "Y_test";
    Returned (print [PStr "Y_train shape:"; PTuple (matrix_shape (Y_train d))]) tt;
    Returned (print [PStr "Y_test shape:"; PTuple (matrix_shape (Y_test d))]) tt ].

(** The body of [for _ in range(nb_hidden-1)]. *)
Definition hidden_block (s : settings) (model : model) : nb unit :=
  (call (model_add model (Dense (nb_dense s) None));;
   call (model_add model (Activation "relu"));;
   call (model_add model (Dropout (p_dropout s))))%nb.

(** What one pass of the loop leaves in the trace. *)
Definition hidden_block_events (s : settings) (model : model) : list ev :=
  [ Stored "_";
    Returned (model_add model (Dense (nb_dense s) None)) tt;
    Returned (model_add model (Activation "relu")) tt;
    Returned (model_add model (Dropout (p_dropout s))) tt ].

Definition cell_model (s : settings) (d : data) : nb model :=
  (call (print [PStr "Building model..."]);;
   model <- call Sequential;;
   model <- assign "model" model;;
   call (model_add model (Dense (nb_dense s) (Some [max_words s])));;
   call (model_add model (Activation "relu"));;
   call (model_add model (Dropout (p_dropout s)));;
   for_each "_" (py_range (nb_hidden s - 1)) (fun _ => hidden_block s model);;
   call (model_add model (Dense (nb_classes d) None));;
   call (model_add model (Activation "softmax"));;
   call (model_compile model "categorical_crossentropy" "adam" ["accuracy"]);;
   Ret model)%nb.

(** The layers the cell adds, in order. *)
Definition stack (s : settings) (d : data) : list layer :=
  [ Dense (nb_dense s) (Some [max_words s]);
    Activation "relu";
    Dropout (p_dropout s) ]
  ++ concat (replicate (Z.to_nat (nb_hidden s - 1))
               [ Dense (nb_dense s) None;
                 Activation "relu";
                 Dropout (p_dropout s) ])
  ++ [ Dense (nb_classes d) None;
       Activation "softmax" ].

Definition model_events (s : settings) (d : data) (model : model) : list ev :=
  [ Returned (print [PStr "Building model..."]) tt;
    Returned Sequential model;
    Stored "model";
    Returned (model_add model (Dense (nb_dense s) (Some [max_words s]))) tt;
    Returned (model_add model (Activation "relu")) tt;
    Returned (model_add model (Dropout (p_dropout s))) tt ]
  ++ concat (replicate (Z.to_nat (nb_hidden s - 1)) (hidden_block_events s model))
  ++ [ Returned (model_add model (Dense (nb_classes d) None)) tt;
       Returned (model_add model (Activation "softmax")) tt;
       Returned (model_compile model "categorical_crossentropy" "adam"
                   ["accuracy"]) tt ].

(** [(t2-t1)/60]. *)
Definition minutes (t1 t2 : spec_float) : spec_float :=
  Float.div float64 (Float.sub float64 t2 t1) (Float.of_Z float64 60).

Definition cell_fit (s : settings) (d : data) (model : model) : nb history :=
  (call (import_ "time" ["time"]);;
   t1 <- call time_time;;
   t1 <- assign "t1" t1;;
   history <- call (model_fit model (X_train d) (Y_train d)
                      (batch_size s) (nb_epoch s) 1
                      (validation_split (Float.dec float64 1 1)));;
   history <- assign "history" history;;
   t2 <- call time_time;;
   t2 <- assign "t2" t2;;
   call (print [PFormatFloat "Model training took {:.2g} minutes" (minutes t1 t2)]);;
   Ret history)%nb.

Definition fit_events (s : settings) (d : data) (model : model)
           (t1 : spec_float) (h : history) (t2 : spec_float) : list ev :=
  [ Returned (import_ "time" ["time"]) tt;
    Returned time_time t1;
    Stored "t1";
    Returned (model_fit model (X_train d) (Y_train d) (batch_size s) (nb_epoch s) 1
                (validation_split (Float.dec float64 1 1))) h;
    Stored "history";
    Returned time_time t2;
    Stored "t2";
    Returned (print [PFormatFloat "Model training took {:.2g} minutes"
                       (minutes t1 t2)]) tt ].

Definition test_score_label : string :=
  String (Ascii.ascii_of_nat 10) "Test score:".

Definition cell_evaluate (s : settings) (d : data) (model : model)
  : nb (list spec_float) :=
  (score <- call (model_evaluate model (X_test d) (Y_test d)
                    (Some (batch_size s)) 1);;
   score <- assign "score" score;;
   loss <- lift (py_getitem score 0);;
   call (print [PStr test_score_label; PFloat loss]);;
   acc <- lift (py_getitem score 1);;
   call (print [PStr "Test accuracy:"; PFloat acc]);;
   Ret score)%nb.

Definition evaluate_events (s : settings) (d : data) (model : model)
           (score : list spec_float) (loss acc : spec_float) : list ev :=
  [ Returned (model_evaluate model (X_test d) (Y_test d)
                (Some (batch_size s)) 1) score;
    Stored "score";
    Returned (print [PStr test_score_label; PFloat loss]) tt;
    Returned (print [PStr "Test accuracy:"; PFloat acc]) tt ].

Definition cell_import_output_model : nb unit :=
  call (import_ "output_model" ["output_model"]).

Definition cell_save (model : model) : nb unit :=
  call (save_model model "models/Reuters_MLP_model").

Definition save_events (model : model) : list ev :=
  [ Returned (import_ "output_model" ["output_model"]) tt;
    Returned (save_model model "models/Reuters_MLP_model") tt ].

(** The cells below the settings, for any values of the settings. *)
Definition train (s : settings) : nb (data * model) :=
  (d <- cell_data s;;
   model <- cell_model s d;;
   cell_fit s d model;;
   cell_evaluate s d model;;
   Ret (d, model))%nb.

(** What the framework returned and what the cells computed from it
    during a completed run. *)
Record answers : Type :=
  { a_raw : dataset (list (list Z));
    a_data : data;
    a_model : model;
    a_t1 : spec_float;
    a_history : history;
    a_t2 : spec_float;
    a_score : list spec_float;
    a_loss : spec_float;
    a_acc : spec_float }.

Definition glue (a : answers) : Prop :=
  y_train (a_data a) = train_y (a_raw a) /\
  y_test (a_data a) = test_y (a_raw a) /\
  count_classes (train_y (a_raw a)) = Ok (nb_classes (a_data a)) /\
  to_categorical (train_y (a_raw a)) (nb_classes (a_data a))
    = Ok (Y_train (a_data a)) /\
  to_categorical (test_y (a_raw a)) (nb_classes (a_data a))
    = Ok (Y_test (a_data a)) /\
  py_getitem (a_score a) 0 = Ok (a_loss a) /\
  py_getitem (a_score a) 1 = Ok (a_acc a).

Definition train_events (s : settings) (a : answers) : list ev :=
  data_events s (a_raw a) (a_data a)
  ++ model_events s (a_data a) (a_model a)
  ++ fit_events s (a_data a) (a_model a) (a_t1 a) (a_history a) (a_t2 a)
  ++ evaluate_events s (a_data a) (a_model a) (a_score a) (a_loss a) (a_acc a).

Definition with_settings_events (s : settings) (a : answers) : list ev :=
  train_events s a ++ save_events (a_model a).

Definition notebook_events (a : answers) : list ev :=
  import_events ++ map Stored constants ++ with_settings_events recorded a.

Definition earlier_revision_events (a : answers) : list ev :=
  import_events ++ map Stored constants ++ train_events recorded a.

Definition with_settings (s : settings) : nb unit :=
  (dm <- train s;;
   cell_import_output_model;;
   cell_save (snd dm))%nb.

(** A top-to-bottom run of the notebook. *)
Definition notebook : nb unit :=
  (cell_imports;;
   s <- cell_constants;;
   with_settings s)%nb.

(** The earlier revision kept in the file of the MNIST notebook: the same
    cells without the two save cells. *)
Definition earlier_revision : nb unit :=
  (cell_imports;;
   s <- cell_constants;;
   train s;;
   Ret tt)%nb.

End Reuters_MLP.


(** ** output_model.save_model *)

Module output_model.

(** The two answers the prompt offers. *)
Inductive answer : Type := y | n.

Definition overwrite_prompt (target : string) : string :=
  String.append "[WARNING] "
    (String.append target " already exists - overwrite? [y/n]").

Section SaveModel.

(** What the framework's serialization routine writes for a model. *)
Variable serialized : Type.
Variable serialize : model -> serialized.

(** Modelled from the spec: [output_model.py] is not among the sources;
    the notebooks only import it and call [save_model(model, path)].
    The helper does no more than call the framework's own serialization
    routine with the target path and an overwrite confirmation prompt:
    an existing target is overwritten only after the prompt is answered
    with [y].  The result is the text shown and the files afterwards. *)
Definition save_model (m : model) (path : string) (reply : answer)
           (files : gmap string serialized)
  : list string * gmap string serialized :=
  match files !! path with
  | None => ([], <[path := serialize m]> files)
  | Some _ =>
      ([overwrite_prompt path],
       match reply with
       | y => <[path := serialize m]> files
       | n => files
       end)
  end.

End SaveModel.

End output_model.

(** ** Frameworks to run the notebooks against

    The state is a counter: it names the next object created and serves as
    the clock. *)

Module Demo.

Definition pixel (o : Z) : Byte.byte :=
  if o mod 3 =? 0 then Byte.xff else if o mod 3 =? 1 then Byte.x80 else Byte.x00.

(** Arrays of the sizes of the MNIST files. *)
Definition mnist_full : dataset (ndarray Byte.byte) :=
  {| train_X := {| shape := [60000; 28; 28]; buf := pixel |};
     train_y := replicate (Z.to_nat 60000) 5;
     test_X := {| shape := [10000; 28; 28]; buf := pixel |};
     test_y := replicate (Z.to_nat 10000) 7 |}.

(** A few images. *)
Definition mnist_small : dataset (ndarray Byte.byte) :=
  {| train_X := {| shape := [5; 28; 28]; buf := pixel |};
     train_y := [5; 0; 4; 1; 9];
     test_X := {| shape := [3; 28; 28]; buf := pixel |};
     test_y := [7; 2; 1] |}.

(** A few newswires; the largest label is 45 as in the Reuters data. *)
Definition reuters_small : dataset (list (list Z)) :=
  {| train_X := [[1; 2; 3]; [1; 4]; [1; 5; 6; 7]];
     train_y := [3; 45; 4];
     test_X := [[1; 2]; [1; 9; 3]];
     test_y := [3; 19] |}.

Definition probabilities : list spec_float :=
  <[7%nat := Float.one float64]> (replicate 10 Float.zero).

(** The recorded MNIST scores, 0.0387651254472 and 0.9877. *)
Definition score : list spec_float :=
  [Float.dec float64 387651254472 13; Float.dec float64 9877 4].

Definition answer (mnist : dataset (ndarray Byte.byte)) (X : Type) (c : callE X)
           (w : nat) : result (X * nat) :=
  match c in callE X return result (X * nat) with
  | import_ _ _ => Ok (tt, w)
  | magic _ => Ok (tt, w)
  | print _ => Ok (tt, w)
  | time_time => Ok (Float.of_Z float64 (Z.of_nat w), S w)
  | np_random_seed _ => Ok (tt, w)
  | np_random_randint high =>
      if 0 <? high then Ok (high - 1, w) else Err ValueError
  | mnist_load_data => Ok (mnist, w)
  | reuters_load_data _ _ => Ok (reuters_small, w)
  | Tokenizer nb_words => Ok (TokenizerObj (Z.to_nat nb_words), w)
  | sequences_to_matrix (TokenizerObj nb_words) sequences _ =>
      Ok ({| shape := [Z.of_nat (length sequences); Z.of_nat nb_words];
             buf := fun _ => Float.zero |}, w)
  | Sequential => Ok (Model w, S w)
  | model_add _ _ => Ok (tt, w)
  | model_compile _ _ _ _ => Ok (tt, w)
  | model_fit _ _ _ _ _ _ _ => Ok (History w, S w)
  | model_evaluate _ _ _ _ _ => Ok (score, w)
  | model_predict_proba _ _ => Ok ([probabilities], w)
  | sns_set_style _ => Ok (tt, w)
  | plt_subplots _ _ => Ok (Axes w, S w)
  | ax_imshow _ _ => Ok (tt, w)
  | ax_set_title _ _ => Ok (tt, w)
  | save_model _ _ => Ok (tt, w)
  end.

Definition framework_small : framework nat := answer mnist_small.
Definition framework_full : framework nat := answer mnist_full.

(** The same, with training running out of memory. *)
Definition fit_fails : framework nat :=
  fun X c w =>
    match c in callE X return result (X * nat) with
    | model_fit _ _ _ _ _ _ _ => Err (FrameworkError "MemoryError")
    | c' => framework_small _ c' w
    end.

(** The Reuters settings with other numbers of hidden layers. *)
Definition reuters_hidden (nb_hidden : Z) : Reuters_MLP.settings :=
  {| Reuters_MLP.max_words := 1000; Reuters_MLP.batch_size := 32;
     Reuters_MLP.nb_epoch := 15; Reuters_MLP.nb_dense := 512;
     Reuters_MLP.nb_hidden := nb_hidden;
     Reuters_MLP.p_dropout := Float.dec float64 5 1 |}.

(** The same as [framework_small], with a Reuters loader that returns no
    newswires. *)
Definition no_newswires : framework nat :=
  fun X c w =>
    match c in callE X return result (X * nat) with
    | reuters_load_data _ _ =>
        Ok ({| train_X := []; train_y := []; test_X := []; test_y := [] |}, w)
    | c' => framework_small _ c' w
    end.

End Demo.

(** ** Calls a program can or cannot issue *)

(** The data each [fit] call is told to validate on. *)
Definition fit_validations (tr : list ev) : list validation :=
  concat (map (fun e =>
                 match e with
                 | Returned c _ =>
                     match c with
                     | model_fit _ _ _ _ _ _ v => [v]
                     | _ => []
                     end
                 | _ => []
                 end) tr).

(** The batches [predict_proba] is given and the images [imshow] draws. *)
Definition predicted_batches (tr : list ev) : list (ndarray spec_float) :=
  concat (map (fun e =>
                 match e with
                 | Returned c _ =>
                     match c with
                     | model_predict_proba _ X => [X]
                     | _ => []
                     end
                 | _ => []
                 end) tr).

Definition images_shown (tr : list ev) : list (ndarray spec_float) :=
  concat (map (fun e =>
                 match e with
                 | Returned c _ =>
                     match c with
                     | ax_imshow _ img => [img]
                     | _ => []
                     end
                 | _ => []
                 end) tr).

(** What a run prints. *)
Definition printed (tr : list ev) : list (list pyval) :=
  concat (map (fun e =>
                 match e with
                 | Returned c _ =>
                     match c with
                     | print args => [args]
                     | _ => []
                     end
                 | _ => []
                 end) tr).

Definition is_save_model (X : Type) (c : callE X) : bool :=
  match c with save_model _ _ => true | _ => false end.

Definition is_Tokenizer (X : Type) (c : callE X) : bool :=
  match c with Tokenizer _ => true | _ => false end.

Definition is_imshow (X : Type) (c : callE X) : bool :=
  match c with ax_imshow _ _ => true | _ => false end.

(** The event is a call selected by [P], whether it returned or raised. *)
Definition attempts (P : forall X, callE X -> bool) (e : ev) : bool :=
  match e with
  | Stored _ => false
  | Returned c _ => P _ c
  | Raised c _ => P _ c
  end.

(** [p] issues no call selected by [P], whatever the calls it issues
    return. *)
Inductive never (P : forall X, callE X -> bool) {R : Type} : nb R -> Prop :=
| never_Ret (r : R) : never P (Ret r)
| never_Raise (e : exn) : never P (Raise e)
| never_Store (x : string) (k : nb R) : never P k -> never P (Store x k)
| never_Call (X : Type) (c : callE X) (k : X -> nb R) :
    P X c = false -> (forall x, never P (k x)) -> never P (Call c k).

(** ** Steps and exceptions of a program *)







(** * Properties *)

(** ** Runs *)

Section Runs.

Context {W : Type} (fw : framework W).

Lemma run_bind {A B} (p : nb A) (f : A -> nb B) (w : W) :
  run fw (bind p f) w =
  match run fw p w with
  | (tr, Err e) => (tr, Err e)
  | (tr, Ok (a, w')) =>
      let '(tr', out) := run fw (f a) w' in (tr ++ tr', out)
  end.
Proof.
  revert w. induction p as [a | e | x k IH | X c k IH]; intros w; simpl.
  - destruct (run fw (f a) w); reflexivity.
  - reflexivity.
  - rewrite IH. destruct (run fw k w) as [tr [[a w'] | e]]; simpl.
    + destruct (run fw (f a) w'); reflexivity.
    + reflexivity.
  - destruct (fw X c w) as [[x w'] | e]; [| reflexivity].
    rewrite IH. destruct (run fw (k x) w') as [tr [[a w''] | e]]; simpl.
    + destruct (run fw (f a) w''); reflexivity.
    + reflexivity.
Qed.

Lemma runs_bind_inv {A B} (p : nb A) (f : A -> nb B) w tr b w'' :
  runs_to fw (bind p f) w tr b w'' ->
  exists tr1 a w' tr2,
    runs_to fw p w tr1 a w' /\ runs_to fw (f a) w' tr2 b w'' /\
    tr = tr1 ++ tr2.
Proof.
  unfold runs_to. rewrite run_bind.
  destruct (run fw p w) as [tr1 [[a w'] | e]]; [| discriminate].
  destruct (run fw (f a) w') as [tr2 out] eqn:E2. intros H.
  injection H as <- ->. exists tr1, a, w', tr2. auto.
Qed.

Lemma runs_Ret_inv {A} (a : A) w tr r w' :
  runs_to fw (Ret a) w tr r w' -> tr = [] /\ r = a /\ w' = w.
Proof. unfold runs_to; simpl. intros H; injection H as <- <- <-. auto. Qed.

Lemma runs_Store_inv {A} x (k : nb A) w tr r w' :
  runs_to fw (Store x k) w tr r w' ->
  exists tr', tr = Stored x :: tr' /\ runs_to fw k w tr' r w'.
Proof.
  unfold runs_to; simpl. destruct (run fw k w) as [tr' out].
  intros H; injection H as <- ->. eauto.
Qed.

Lemma runs_assign_inv {A} x (a : A) w tr r w' :
  runs_to fw (assign x a) w tr r w' -> tr = [Stored x] /\ r = a /\ w' = w.
Proof. unfold runs_to; simpl. intros H; injection H as <- <- <-. auto. Qed.

Lemma runs_call_inv {X} (c : callE X) w tr x w' :
  runs_to fw (call c) w tr x w' ->
  fw X c w = Ok (x, w') /\ tr = [Returned c x].
Proof.
  unfold runs_to; simpl. destruct (fw X c w) as [[x0 w0] | e]; [| discriminate].
  intros H; injection H as <- <- <-. auto.
Qed.

Lemma runs_lift_inv {A} (r : result A) w tr a w' :
  runs_to fw (lift r) w tr a w' -> r = Ok a /\ tr = [] /\ w' = w.
Proof.
  unfold runs_to. destruct r as [a0 | e]; simpl; [| discriminate].
  intros H; injection H as <- <- <-. auto.
Qed.

Lemma runs_for_each_inv {A} x (xs : list A) (body : A -> nb unit)
      (events : list ev) w tr r w' :
  (forall a w0 tr0 r0 w1,
      runs_to fw (body a) w0 tr0 r0 w1 -> Stored x :: tr0 = events) ->
  runs_to fw (for_each x xs body) w tr r w' ->
  tr = concat (replicate (length xs) events).
Proof.
  intros Hbody. revert w tr r w'.
  induction xs as [| a xs IH]; intros w tr r w' H.
  - apply runs_Ret_inv in H. destruct H as (-> & _). reflexivity.
  - simpl in H. apply runs_Store_inv in H. destruct H as (tr0 & -> & H).
    apply runs_bind_inv in H.
    destruct H as (tr1 & u & w1 & tr2 & H1 & H2 & ->).
    apply Hbody in H1. apply IH in H2. subst tr2.
    simpl. rewrite <- H1. reflexivity.
Qed.

Lemma completes_runs {R} (p : nb R) w :
  completes fw p w = true ->
  exists r w', runs_to fw p w (trace fw p w) r w'.
Proof.
  unfold completes, outcome, trace, runs_to.
  destruct (run fw p w) as [tr [[r w'] | e]]; simpl; [| discriminate].
  eauto.
Qed.

Lemma runs_trace {R} (p : nb R) w tr r w' :
  runs_to fw p w tr r w' ->
  trace fw p w = tr /\ outcome fw p w = Ok (r, w').
Proof. unfold runs_to, trace, outcome. intros ->. auto. Qed.

End Runs.

(** Inversion of a completed run, one statement at a time. *)
Ltac invert_run_step :=
  match goal with
  | H : runs_to _ (bind _ _) _ _ _ _ |- _ =>
      apply runs_bind_inv in H;
      let H1 := fresh "Hrun" in
      let H2 := fresh "Hrun" in
      destruct H as (? & ? & ? & ? & H1 & H2 & ->)
  | H : runs_to _ (call _) _ _ _ _ |- _ =>
      apply runs_call_inv in H;
      let Hc := fresh "Hcall" in destruct H as (Hc & ->)
  | H : runs_to _ (assign _ _) _ _ _ _ |- _ =>
      apply runs_assign_inv in H; destruct H as (-> & -> & ->)
  | H : runs_to _ (lift _) _ _ _ _ |- _ =>
      apply runs_lift_inv in H;
      let Hl := fresh "Hlift" in destruct H as (Hl & -> & ->)
  | H : runs_to _ (Ret _) _ _ _ _ |- _ =>
      apply runs_Ret_inv in H; destruct H as (-> & -> & ->)
  | H : runs_to _ (Store _ _) _ _ _ _ |- _ =>
      apply runs_Store_inv in H;
      let H1 := fresh "Hrun" in destruct H as (? & -> & H1)
  end.

Ltac invert_run := repeat invert_run_step.

Ltac destruct_units :=
  repeat match goal with x : unit |- _ => destruct x end.

(** ** Completed runs of the MNIST notebook *)

Section MNIST_runs.

Context {W : Type} (fw : framework W).
Import MNIST_cnn.

Lemma mnist_runs_imports w tr r w' :
  runs_to fw cell_imports w tr r w' -> tr = import_events.
Proof.
  unfold cell_imports. intros H. invert_run. destruct_units. reflexivity.
Qed.

Lemma mnist_runs_constants w tr s w' :
  runs_to fw cell_constants w tr s w' ->
  tr = map Stored constants /\ s = recorded /\ w' = w.
Proof.
  unfold cell_constants. intros H. invert_run. auto.
Qed.

Lemma mnist_runs_data s w tr d w' :
  runs_to fw (cell_data s) w tr d w' ->
  exists raw n_train n_test,
    prepared s raw d n_train n_test /\ tr = data_events raw d n_train n_test.
Proof.
  unfold cell_data. intros H. invert_run. destruct_units.
  eexists _, _, _. split; [| reflexivity].
  unfold prepared; simpl. eauto 12.
Qed.

Lemma mnist_runs_model s w tr m w' :
  runs_to fw (cell_model s) w tr m w' -> tr = model_events s m.
Proof.
  unfold cell_model. intros H. invert_run. destruct_units. reflexivity.
Qed.

Lemma mnist_runs_fit s d m w tr r w' :
  runs_to fw (cell_fit s d m) w tr r w' ->
  exists t1 h t2, tr = fit_events s d m t1 h t2.
Proof.
  unfold cell_fit. intros H. invert_run. destruct_units.
  eexists _, _, _. reflexivity.
Qed.

Lemma mnist_runs_evaluate d m w tr score w' :
  runs_to fw (cell_evaluate d m) w tr score w' ->
  exists loss acc,
    py_getitem score 0 = Ok loss /\ py_getitem score 1 = Ok acc /\
    tr = evaluate_events d m score loss acc.
Proof.
  unfold cell_evaluate. intros H. invert_run. destruct_units.
  eexists _, _. eauto.
Qed.

Lemma mnist_runs_plot_imports w tr r w' :
  runs_to fw cell_plot_imports w tr r w' -> tr = plot_import_events.
Proof.
  unfold cell_plot_imports. intros H. invert_run. destruct_units. reflexivity.
Qed.

Lemma mnist_runs_show_predictions d m i w tr r w' :
  runs_to fw (show_predictions d m i) w tr r w' ->
  exists X probs idx actual ax img,
    shown d i X probs idx actual img /\
    tr = show_predictions_events m X probs idx actual ax img.
Proof.
  unfold show_predictions. intros H. invert_run. destruct_units.
  eexists _, _, _, _, _, _. split; [| reflexivity].
  unfold shown. eauto 10.
Qed.

Lemma mnist_runs_save m w tr r w' :
  runs_to fw (cell_save m) w tr r w' -> tr = save_events m.
Proof.
  unfold cell_save. intros H. invert_run. destruct_units. reflexivity.
Qed.

Lemma mnist_runs_train_and_show s w tr d m w' :
  runs_to fw (train_and_show s) w tr (d, m) w' ->
  exists a,
    a_data a = d /\ a_model a = m /\ glue s a /\
    tr = train_and_show_events s a.
Proof.
  unfold train_and_show, cell_show, cell_show_predictions_def. intros H.
  repeat match goal with
         | H : runs_to _ (bind _ _) _ _ _ _ |- _ =>
             apply runs_bind_inv in H;
             destruct H as (? & ? & ? & ? & ? & ? & ->)
         end.
  repeat match goal with
         | H : runs_to _ (Ret _) _ _ _ _ |- _ =>
             apply runs_Ret_inv in H; destruct H as (-> & ? & ->)
         | H : runs_to _ (Store _ _) _ _ _ _ |- _ =>
             apply runs_Store_inv in H; destruct H as (? & -> & ?)
         | H : runs_to _ (lift _) _ _ _ _ |- _ =>
             apply runs_lift_inv in H; destruct H as (? & -> & ->)
         | H : runs_to _ (call _) _ _ _ _ |- _ =>
             apply runs_call_inv in H; destruct H as (? & ->)
         | H : runs_to _ (cell_data _) _ _ _ _ |- _ =>
             apply mnist_runs_data in H; destruct H as (? & ? & ? & ? & ->)
         | H : runs_to _ (cell_model _) _ _ _ _ |- _ =>
             apply mnist_runs_model in H; subst
         | H : runs_to _ (cell_fit _ _ _) _ _ _ _ |- _ =>
             apply mnist_runs_fit in H; destruct H as (? & ? & ? & ->)
         | H : runs_to _ (cell_evaluate _ _) _ _ _ _ |- _ =>
             apply mnist_runs_evaluate in H; destruct H as (? & ? & ? & ? & ->)
         | H : runs_to _ cell_plot_imports _ _ _ _ |- _ =>
             apply mnist_runs_plot_imports in H; subst
         | H : runs_to _ (show_predictions _ _ _) _ _ _ _ |- _ =>
             apply mnist_runs_show_predictions in H;
             destruct H as (? & ? & ? & ? & ? & ? & ? & ->)
         end.
  match goal with H : (_, _) = (_, _) |- _ => injection H as -> -> end.
  match goal with
  | Hp : prepared _ _ ?d _ ?n, Hs : shape0 (X_test ?d) = Ok ?n' |- _ =>
      assert (n' = n)
        by (destruct Hp as (_ & _ & _ & _ & _ & _ & _ & Hn); congruence);
      subst n'
  end.
  eexists (Build_answers _ _ _ _ _ _ _ _ _ _ _ _ _ _ _ _ _ _).
  split; [| split; [| split]]; cycle 3.
  - unfold train_and_show_events; simpl. reflexivity.
  - reflexivity.
  - reflexivity.
  - unfold glue; simpl. auto.
Qed.

Lemma mnist_runs_with_settings s w tr r w' :
  runs_to fw (with_settings s) w tr r w' ->
  exists a, glue s a /\ tr = with_settings_events s a.
Proof.
  unfold with_settings. intros H.
  apply runs_bind_inv in H. destruct H as (tr1 & [d m] & w1 & tr2 & H1 & H2 & ->).
  apply mnist_runs_train_and_show in H1. destruct H1 as (a & <- & <- & Hg & ->).
  apply mnist_runs_save in H2. subst tr2.
  exists a. auto.
Qed.

Lemma mnist_runs_notebook w tr r w' :
  runs_to fw notebook w tr r w' ->
  exists a, glue recorded a /\ tr = notebook_events a.
Proof.
  unfold notebook. intros H.
  apply runs_bind_inv in H. destruct H as (tr1 & u & w1 & tr2 & H1 & H2 & ->).
  apply runs_bind_inv in H2. destruct H2 as (tr3 & s & w2 & tr4 & H3 & H4 & ->).
  apply mnist_runs_imports in H1. apply mnist_runs_constants in H3.
  destruct H3 as (-> & -> & ->).
  apply mnist_runs_with_settings in H4. destruct H4 as (a & Hg & ->).
  subst tr1. exists a. auto.
Qed.

Lemma mnist_runs_earlier_revision w tr r w' :
  runs_to fw earlier_revision w tr r w' ->
  exists a, glue recorded a /\ tr = earlier_revision_events a.
Proof.
  unfold earlier_revision. intros H.
  apply runs_bind_inv in H. destruct H as (tr1 & u & w1 & tr2 & H1 & H2 & ->).
  apply runs_bind_inv in H2. destruct H2 as (tr3 & s & w2 & tr4 & H3 & H4 & ->).
  apply runs_bind_inv in H4. destruct H4 as (tr5 & [d m] & w3 & tr6 & H5 & H6 & ->).
  apply mnist_runs_imports in H1. apply mnist_runs_constants in H3.
  destruct H3 as (-> & -> & ->).
  apply mnist_runs_train_and_show in H5. destruct H5 as (a & <- & <- & Hg & ->).
  apply runs_call_inv in H6. destruct H6 as (_ & ->). destruct r.
  subst tr1. exists a. auto.
Qed.

End MNIST_runs.

(** ** Completed runs of the Reuters notebook *)

Section Reuters_runs.

Context {W : Type} (fw : framework W).
Import Reuters_MLP.

Lemma py_range_length n : length (py_range n) = Z.to_nat n.
Proof. unfold py_range. rewrite length_map, length_seq. reflexivity. Qed.

Lemma reuters_runs_imports w tr r w' :
  runs_to fw cell_imports w tr r w' -> tr = import_events.
Proof.
  unfold cell_imports. intros H. invert_run. destruct_units. reflexivity.
Qed.

Lemma reuters_runs_constants w tr s w' :
  runs_to fw cell_constants w tr s w' ->
  tr = map Stored constants /\ s = recorded /\ w' = w.
Proof.
  unfold cell_constants. intros H. invert_run. auto.
Qed.

Lemma reuters_runs_data s w tr d w' :
  runs_to fw (cell_data s) w tr d w' ->
  exists raw,
    y_train d = train_y raw /\ y_test d = test_y raw /\
    count_classes (train_y raw) = Ok (nb_classes d) /\
    to_categorical (train_y raw) (nb_classes d) = Ok (Y_train d) /\
    to_categorical (test_y raw) (nb_classes d) = Ok (Y_test d) /\
    tr = data_events s raw d.
Proof.
  unfold cell_data. intros H. invert_run. destruct_units.
  eexists. simpl. repeat split; eauto.
Qed.

Lemma reuters_runs_hidden_block s m w tr r w' :
  runs_to fw (hidden_block s m) w tr r w' ->
  Stored "_" :: tr = hidden_block_events s m.
Proof.
  unfold hidden_block. intros H. invert_run. destruct_units. reflexivity.
Qed.

Lemma reuters_runs_model s d w tr m w' :
  runs_to fw (cell_model s d) w tr m w' -> tr = model_events s d m.
Proof.
  unfold cell_model. intros H. invert_run. destruct_units.
  match goal with
  | H : runs_to _ (for_each _ _ _) _ _ _ _ |- _ =>
      eapply runs_for_each_inv in H;
      [| intros; eapply reuters_runs_hidden_block; eassumption ]
  end.
  subst. rewrite py_range_length. reflexivity.
Qed.

Lemma reuters_runs_fit s d m w tr h w' :
  runs_to fw (cell_fit s d m) w tr h w' ->
  exists t1 t2, tr = fit_events s d m t1 h t2.
Proof.
  unfold cell_fit. intros H. invert_run. destruct_units.
  eexists _, _. reflexivity.
Qed.

Lemma reuters_runs_evaluate s d m w tr score w' :
  runs_to fw (cell_evaluate s d m) w tr score w' ->
  exists loss acc,
    py_getitem score 0 = Ok loss /\ py_getitem score 1 = Ok acc /\
    tr = evaluate_events s d m score loss acc.
Proof.
  unfold cell_evaluate. intros H. invert_run. destruct_units.
  eexists _, _. eauto.
Qed.

Lemma reuters_runs_save m w tr r w' :
  runs_to fw (bind cell_import_output_model (fun _ => cell_save m)) w tr r w' ->
  tr = save_events m.
Proof.
  unfold cell_import_output_model, cell_save. intros H.
  apply runs_bind_inv in H. destruct H as (? & ? & ? & ? & H1 & H2 & ->).
  apply runs_call_inv in H1. destruct H1 as (_ & ->).
  apply runs_call_inv in H2. destruct H2 as (_ & ->).
  destruct_units. reflexivity.
Qed.

Lemma reuters_runs_train s w tr d m w' :
  runs_to fw (train s) w tr (d, m) w' ->
  exists a,
    a_data a = d /\ a_model a = m /\ glue a /\ tr = train_events s a.
Proof.
  unfold train. intros H.
  apply runs_bind_inv in H. destruct H as (tr1 & d0 & w1 & tr2 & H1 & H & ->).
  apply runs_bind_inv in H. destruct H as (tr3 & m0 & w2 & tr4 & H2 & H & ->).
  apply runs_bind_inv in H. destruct H as (tr5 & h & w3 & tr6 & H3 & H & ->).
  apply runs_bind_inv in H. destruct H as (tr7 & sc & w4 & tr8 & H4 & H & ->).
  apply runs_Ret_inv in H. destruct H as (-> & H & ->).
  injection H as <- <-.
  apply reuters_runs_data in H1.
  destruct H1 as (raw & Hy1 & Hy2 & Hc & HY1 & HY2 & ->).
  apply reuters_runs_model in H2. subst tr3.
  apply reuters_runs_fit in H3. destruct H3 as (t1 & t2 & ->).
  apply reuters_runs_evaluate in H4. destruct H4 as (loss & acc & Hl & Ha & ->).
  exists (Build_answers raw d m t1 h t2 sc loss acc).
  unfold glue, train_events; simpl a_data; simpl a_model; simpl a_raw;
    simpl a_t1; simpl a_t2; simpl a_history; simpl a_score; simpl a_loss;
    simpl a_acc.
  rewrite app_nil_r. repeat split; assumption.
Qed.

Lemma reuters_runs_with_settings s w tr r w' :
  runs_to fw (with_settings s) w tr r w' ->
  exists a, glue a /\ tr = with_settings_events s a.
Proof.
  unfold with_settings. intros H.
  apply runs_bind_inv in H. destruct H as (tr1 & [d m] & w1 & tr2 & H1 & H2 & ->).
  apply reuters_runs_train in H1. destruct H1 as (a & <- & <- & Hg & ->).
  apply reuters_runs_save in H2. subst tr2.
  exists a. auto.
Qed.

Lemma reuters_runs_notebook w tr r w' :
  runs_to fw notebook w tr r w' ->
  exists a, glue a /\ tr = notebook_events a.
Proof.
  unfold notebook. intros H.
  apply runs_bind_inv in H. destruct H as (tr1 & u & w1 & tr2 & H1 & H2 & ->).
  apply runs_bind_inv in H2. destruct H2 as (tr3 & s & w2 & tr4 & H3 & H4 & ->).
  apply reuters_runs_imports in H1. apply reuters_runs_constants in H3.
  destruct H3 as (-> & -> & ->).
  apply reuters_runs_with_settings in H4. destruct H4 as (a & Hg & ->).
  subst tr1. exists a. auto.
Qed.

Lemma reuters_runs_earlier_revision w tr r w' :
  runs_to fw earlier_revision w tr r w' ->
  exists a, glue a /\ tr = earlier_revision_events a.
Proof.
  unfold earlier_revision. intros H.
  apply runs_bind_inv in H. destruct H as (tr1 & u & w1 & tr2 & H1 & H2 & ->).
  apply runs_bind_inv in H2. destruct H2 as (tr3 & s & w2 & tr4 & H3 & H4 & ->).
  apply runs_bind_inv in H4. destruct H4 as (tr5 & [d m] & w3 & tr6 & H5 & H6 & ->).
  apply reuters_runs_imports in H1. apply reuters_runs_constants in H3.
  destruct H3 as (-> & -> & ->).
  apply reuters_runs_train in H5. destruct H5 as (a & <- & <- & Hg & ->).
  apply runs_Ret_inv in H6. destruct H6 as (-> & _ & _).
  subst tr1. exists a. rewrite app_nil_r. auto.
Qed.

End Reuters_runs.

(** ** The order of the steps *)

(** C1, as stated, fails: in a completed run of either notebook the
    hyperparameter constants are bound before the dataset is loaded, not
    after. *)
Lemma load_does_not_precede_constants_C1 :
  (completes Demo.framework_small MNIST_cnn.notebook 0%nat = true /\
   phases MNIST_cnn.constants (trace Demo.framework_small MNIST_cnn.notebook 0%nat)
   <> [LoadData; Hyperparameters; BuildModel; Fit; Evaluate; Visualize; SaveModel]) /\
  (completes Demo.framework_small Reuters_MLP.notebook 0%nat = true /\
   phases Reuters_MLP.constants (trace Demo.framework_small Reuters_MLP.notebook 0%nat)
   <> [LoadData; Hyperparameters; BuildModel; Fit; Evaluate; SaveModel]).
Proof.
  split; (split; [vm_compute; reflexivity | vm_compute; discriminate]).
Qed.

(** C1, amended: a completed top-to-bottom run of the MNIST notebook binds
    the hyperparameter constants, loads the dataset, builds the model, fits
    it, evaluates it, visualizes a prediction and saves the model, in this
    order; a completed run of the Reuters notebook does the same without the
    visualization; in both the call of [save_model] on the one model built
    is the last operation. *)
Theorem notebook_steps_in_order_C1 :
  forall (W1 W2 : Type) (fw1 : framework W1) (fw2 : framework W2) w1 w2,
    completes fw1 MNIST_cnn.notebook w1 = true ->
    completes fw2 Reuters_MLP.notebook w2 = true ->
    (phases MNIST_cnn.constants (trace fw1 MNIST_cnn.notebook w1)
     = [Hyperparameters; LoadData; BuildModel; Fit; Evaluate; Visualize; SaveModel]
     /\ exists m,
         models_created (trace fw1 MNIST_cnn.notebook w1) = [m] /\
         last (trace fw1 MNIST_cnn.notebook w1)
         = Some (Returned (save_model m "models/MNIST_cnn_model") tt)) /\
    (phases Reuters_MLP.constants (trace fw2 Reuters_MLP.notebook w2)
     = [Hyperparameters; LoadData; BuildModel; Fit; Evaluate; SaveModel]
     /\ exists m,
         models_created (trace fw2 Reuters_MLP.notebook w2) = [m] /\
         last (trace fw2 Reuters_MLP.notebook w2)
         = Some (Returned (save_model m "models/Reuters_MLP_model") tt)).
Proof.
  intros W1 W2 fw1 fw2 w1 w2 H1 H2.
  apply completes_runs in H1. destruct H1 as (r1 & w1' & H1).
  apply completes_runs in H2. destruct H2 as (r2 & w2' & H2).
  apply mnist_runs_notebook in H1. destruct H1 as (a1 & _ & ->).
  apply reuters_runs_notebook in H2. destruct H2 as (a2 & _ & ->).
  split; (split; [reflexivity | eexists; split; reflexivity]).
Qed.

Lemma notebook_steps_in_order_C1_witness :
  (phases MNIST_cnn.constants (trace Demo.framework_small MNIST_cnn.notebook 0%nat)
   = [Hyperparameters; LoadData; BuildModel; Fit; Evaluate; Visualize; SaveModel]
   /\ exists m,
       models_created (trace Demo.framework_small MNIST_cnn.notebook 0%nat) = [m] /\
       last (trace Demo.framework_small MNIST_cnn.notebook 0%nat)
       = Some (Returned (save_model m "models/MNIST_cnn_model") tt)) /\
  (phases Reuters_MLP.constants (trace Demo.framework_small Reuters_MLP.notebook 0%nat)
   = [Hyperparameters; LoadData; BuildModel; Fit; Evaluate; SaveModel]
   /\ exists m,
       models_created (trace Demo.framework_small Reuters_MLP.notebook 0%nat) = [m] /\
       last (trace Demo.framework_small Reuters_MLP.notebook 0%nat)
       = Some (Returned (save_model m "models/Reuters_MLP_model") tt)).
Proof.
  apply (notebook_steps_in_order_C1 nat nat Demo.framework_small Demo.framework_small
           0%nat 0%nat); vm_compute; reflexivity.
Defined.

(** ** Failures of delegated calls *)

Section Failures.

Context {W : Type} (fw : framework W).



End Failures.

(** ** Saving the model *)

Lemma string_append_assoc (a b c : string) :
  String.append (String.append a b) c = String.append a (String.append b c).
Proof.
  induction a as [| ch a IH]; [reflexivity |].
  change (String ch (String.append (String.append a b) c)
          = String ch (String.append a (String.append b c))).
  f_equal. exact IH.
Qed.

Lemma overwrite_prompt_asks target :
  exists text, output_model.overwrite_prompt target = String.append text "[y/n]".
Proof.
  exists (String.append "[WARNING] " (String.append target " already exists - overwrite? ")).
  unfold output_model.overwrite_prompt.
  rewrite !string_append_assoc. reflexivity.
Qed.

(** C2: [save_model(model, path)] writes what the framework's serialization
    routine produces for the model to the target path, and asks before
    overwriting: when the target exists the [y/n] prompt is shown whatever
    the answer, on [n] the files are left as they were, on [y] only the
    target changes; when the target does not exist it is written without a
    prompt. *)
Theorem save_model_asks_before_overwriting_C2 :
  forall (serialized : Type) (serialize : model -> serialized)
         (m : model) (path : string) (files : gmap string serialized)
         (old : serialized),
    files !! path = Some old ->
    (exists text,
        output_model.overwrite_prompt path = String.append text "[y/n]") /\
    output_model.save_model serialized serialize m path output_model.n files
      = ([output_model.overwrite_prompt path], files) /\
    output_model.save_model serialized serialize m path output_model.y files
      = ([output_model.overwrite_prompt path], <[path := serialize m]> files) /\
    (forall reply other,
        other <> path ->
        snd (output_model.save_model serialized serialize m path reply files) !! other
        = files !! other).
Proof.
  intros serialized serialize m path files old Hold.
  unfold output_model.save_model. rewrite Hold.
  split; [apply overwrite_prompt_asks |].
  split; [reflexivity |]. split; [reflexivity |].
  intros reply other Hne. destruct reply; simpl; [| reflexivity].
  apply lookup_insert_ne. congruence.
Qed.

Lemma save_model_asks_before_overwriting_C2_witness :
  (exists text,
      output_model.overwrite_prompt "models/MNIST_cnn_model"
      = String.append text "[y/n]") /\
  output_model.save_model nat (fun '(Model id) => id) (Model 1)
    "models/MNIST_cnn_model" output_model.n
    {[ "models/MNIST_cnn_model" := 0%nat ]}
  = ([output_model.overwrite_prompt "models/MNIST_cnn_model"],
     {[ "models/MNIST_cnn_model" := 0%nat ]}) /\
  output_model.save_model nat (fun '(Model id) => id) (Model 1)
    "models/MNIST_cnn_model" output_model.y
    {[ "models/MNIST_cnn_model" := 0%nat ]}
  = ([output_model.overwrite_prompt "models/MNIST_cnn_model"],
     <["models/MNIST_cnn_model" := 1%nat]> {[ "models/MNIST_cnn_model" := 0%nat ]}) /\
  (forall reply other,
      other <> "models/MNIST_cnn_model" ->
      snd (output_model.save_model nat (fun '(Model id) => id) (Model 1)
             "models/MNIST_cnn_model" reply
             {[ "models/MNIST_cnn_model" := 0%nat ]}) !! other
      = ({[ "models/MNIST_cnn_model" := 0%nat ]} : gmap string nat) !! other).
Proof.
  apply (save_model_asks_before_overwriting_C2 nat (fun '(Model id) => id)
           (Model 1) "models/MNIST_cnn_model"
           {[ "models/MNIST_cnn_model" := 0%nat ]} 0%nat).
  vm_compute. reflexivity.
Defined.

(** ** Observations of the recorded traces *)

Lemma model_eqb_refl m : model_eqb m m = true.
Proof. destruct m as [id]. apply Nat.eqb_refl. Qed.

Lemma model_ops_app m tr1 tr2 :
  model_ops m (tr1 ++ tr2) = model_ops m tr1 ++ model_ops m tr2.
Proof. unfold model_ops. apply omap_app. Qed.

Lemma layers_added_app tr1 tr2 :
  layers_added (tr1 ++ tr2) = layers_added tr1 ++ layers_added tr2.
Proof. unfold layers_added. rewrite map_app, concat_app. reflexivity. Qed.

Lemma models_created_app tr1 tr2 :
  models_created (tr1 ++ tr2) = models_created tr1 ++ models_created tr2.
Proof. unfold models_created. rewrite map_app, concat_app. reflexivity. Qed.

Lemma bindings_app tr1 tr2 :
  bindings (tr1 ++ tr2) = bindings tr1 ++ bindings tr2.
Proof. unfold bindings. rewrite map_app, concat_app. reflexivity. Qed.

(** An observation that distributes over [++] distributes over a repeated
    block. *)
Lemma observe_repeated {A B} (f : list A -> list B) (k : nat) (block : list A) :
  f [] = [] ->
  (forall l1 l2, f (l1 ++ l2) = f l1 ++ f l2) ->
  f (concat (replicate k block)) = concat (replicate k (f block)).
Proof.
  intros Hnil Happ. induction k as [| k IH]; simpl; [exact Hnil |].
  rewrite Happ, IH. reflexivity.
Qed.

Ltac model_ops_of_cell :=
  unfold model_ops; cbn [omap list_omap call_model_op];
  rewrite ?model_eqb_refl; reflexivity.

Section MNIST_observations.

Import MNIST_cnn.
Variables (s : settings) (a : answers).

Lemma mnist_model_ops_train_and_show :
  model_ops (a_model a) (train_and_show_events s a)
  = map OpAdd (stack s) ++ [OpCompile; OpFit; OpEvaluate; OpPredict].
Proof.
  unfold train_and_show_events. rewrite !model_ops_app.
  replace (model_ops (a_model a)
             (data_events (a_raw a) (a_data a) (a_n_train a) (a_n_test a)))
    with (@nil model_op) by reflexivity.
  replace (model_ops (a_model a) (model_events s (a_model a)))
    with (map OpAdd (stack s) ++ [OpCompile])
    by (unfold model_events; model_ops_of_cell).
  replace (model_ops (a_model a)
             (fit_events s (a_data a) (a_model a) (a_t1 a) (a_history a) (a_t2 a)))
    with [OpFit] by (unfold fit_events; model_ops_of_cell).
  replace (model_ops (a_model a)
             (evaluate_events (a_data a) (a_model a) (a_score a) (a_loss a) (a_acc a)))
    with [OpEvaluate] by (unfold evaluate_events; model_ops_of_cell).
  replace (model_ops (a_model a) plot_import_events)
    with (@nil model_op) by reflexivity.
  replace (model_ops (a_model a)
             (show_predictions_events (a_model a) (a_X a) (a_probs a) (a_idx a)
                (a_actual a) (a_ax a) (a_img a)))
    with [OpPredict] by (unfold show_predictions_events; model_ops_of_cell).
  reflexivity.
Qed.

Lemma mnist_model_ops_with_settings :
  model_ops (a_model a) (with_settings_events s a)
  = map OpAdd (stack s) ++ [OpCompile; OpFit; OpEvaluate; OpPredict; OpSave].
Proof.
  unfold with_settings_events.
  rewrite model_ops_app, mnist_model_ops_train_and_show.
  replace (model_ops (a_model a) (save_events (a_model a)))
    with [OpSave] by (unfold save_events; model_ops_of_cell).
  reflexivity.
Qed.

Lemma mnist_layers_added_train_and_show :
  layers_added (train_and_show_events s a) = stack s.
Proof. reflexivity. Qed.

Lemma mnist_models_created_train_and_show :
  models_created (train_and_show_events s a) = [a_model a].
Proof. reflexivity. Qed.

End MNIST_observations.

Section Reuters_observations.

Import Reuters_MLP.
Variables (s : settings) (a : answers).

Lemma reuters_model_ops_model_events d m :
  model_ops m (model_events s d m) = map OpAdd (stack s d) ++ [OpCompile].
Proof.
  unfold model_events, stack.
  rewrite !model_ops_app, !map_app.
  rewrite (observe_repeated (model_ops m)) by (reflexivity || apply model_ops_app).
  rewrite (observe_repeated (map OpAdd)) by (reflexivity || apply map_app).
  replace (model_ops m (hidden_block_events s m))
    with (map OpAdd [Dense (nb_dense s) None; Activation "relu"; Dropout (p_dropout s)])
    by (unfold hidden_block_events; model_ops_of_cell).
  unfold model_ops; cbn [omap list_omap call_model_op map].
  rewrite !model_eqb_refl. rewrite <- !app_assoc. reflexivity.
Qed.

Lemma reuters_layers_added_model_events d m :
  layers_added (model_events s d m) = stack s d.
Proof.
  unfold model_events, stack. rewrite !layers_added_app.
  rewrite (observe_repeated layers_added) by (reflexivity || apply layers_added_app).
  reflexivity.
Qed.

Lemma reuters_models_created_model_events d m :
  models_created (model_events s d m) = [m].
Proof.
  unfold model_events. rewrite !models_created_app.
  rewrite (observe_repeated models_created)
    by (reflexivity || apply models_created_app).
  replace (models_created (hidden_block_events s m)) with (@nil model)
    by reflexivity.
  replace (concat (replicate (Z.to_nat (nb_hidden s - 1)) (@nil model)))
    with (@nil model); [reflexivity |].
  induction (Z.to_nat (nb_hidden s - 1)); simpl; auto.
Qed.

Lemma reuters_model_ops_train :
  model_ops (a_model a) (train_events s a)
  = map OpAdd (stack s (a_data a)) ++ [OpCompile; OpFit; OpEvaluate].
Proof.
  unfold train_events. rewrite !model_ops_app, reuters_model_ops_model_events.
  replace (model_ops (a_model a) (data_events s (a_raw a) (a_data a)))
    with (@nil model_op) by reflexivity.
  replace (model_ops (a_model a)
             (fit_events s (a_data a) (a_model a) (a_t1 a) (a_history a) (a_t2 a)))
    with [OpFit] by (unfold fit_events; model_ops_of_cell).
  replace (model_ops (a_model a)
             (evaluate_events s (a_data a) (a_model a) (a_score a) (a_loss a) (a_acc a)))
    with [OpEvaluate] by (unfold evaluate_events; model_ops_of_cell).
  simpl. rewrite <- app_assoc. reflexivity.
Qed.

Lemma reuters_model_ops_with_settings :
  model_ops (a_model a) (with_settings_events s a)
  = map OpAdd (stack s (a_data a)) ++ [OpCompile; OpFit; OpEvaluate; OpSave].
Proof.
  unfold with_settings_events.
  rewrite model_ops_app, reuters_model_ops_train.
  replace (model_ops (a_model a) (save_events (a_model a)))
    with [OpSave] by (unfold save_events; model_ops_of_cell).
  rewrite <- app_assoc. reflexivity.
Qed.

Lemma reuters_layers_added_train :
  layers_added (train_events s a) = stack s (a_data a).
Proof.
  unfold train_events.
  rewrite !layers_added_app, reuters_layers_added_model_events.
  replace (layers_added (data_events s (a_raw a) (a_data a)))
    with (@nil layer) by reflexivity.
  replace (layers_added
             (fit_events s (a_data a) (a_model a) (a_t1 a) (a_history a) (a_t2 a)))
    with (@nil layer) by reflexivity.
  replace (layers_added
             (evaluate_events s (a_data a) (a_model a) (a_score a) (a_loss a) (a_acc a)))
    with (@nil layer) by reflexivity.
  rewrite !app_nil_r. reflexivity.
Qed.

Lemma reuters_models_created_train :
  models_created (train_events s a) = [a_model a].
Proof.
  unfold train_events.
  rewrite !models_created_app, reuters_models_created_model_events.
  reflexivity.
Qed.

End Reuters_observations.

(** ** The models *)

Lemma framework_layer_classes (l : layer) : In (layer_class l) framework_layers.
Proof. destruct l; simpl; tauto. Qed.

(** C3: in a completed run of any notebook of the repository exactly one
    model is constructed, by [Sequential()]; what happens to it is a
    succession of [add] calls, each of a layer of one of the six Keras
    classes, then exactly one [compile], and only then [fit] and what
    follows it. *)
Theorem models_are_sequential_C3 :
  forall (p : nb unit) (after_compile : list model_op),
    In (p, after_compile)
       [ (MNIST_cnn.notebook, [OpFit; OpEvaluate; OpPredict; OpSave]);
         (MNIST_cnn.earlier_revision, [OpFit; OpEvaluate; OpPredict]);
         (Reuters_MLP.notebook, [OpFit; OpEvaluate; OpSave]);
         (Reuters_MLP.earlier_revision, [OpFit; OpEvaluate]) ] ->
    forall (W : Type) (fw : framework W) (w : W),
      completes fw p w = true ->
      sequential_model (trace fw p w) after_compile.
Proof.
  intros p tail Hin W fw w H.
  apply completes_runs in H. destruct H as (r & w' & H).
  unfold sequential_model.
  unfold In in Hin.
  destruct Hin as [E | [E | [E | [E | []]]]]; injection E as <- <-.
  - apply mnist_runs_notebook in H. destruct H as (a & _ & ->).
    exists (MNIST_cnn.a_model a), (MNIST_cnn.stack MNIST_cnn.recorded).
    split; [reflexivity |]. split.
    + unfold MNIST_cnn.notebook_events.
      rewrite !model_ops_app, mnist_model_ops_with_settings. reflexivity.
    + apply Forall_forall. intros l _. apply framework_layer_classes.
  - apply mnist_runs_earlier_revision in H. destruct H as (a & _ & ->).
    exists (MNIST_cnn.a_model a), (MNIST_cnn.stack MNIST_cnn.recorded).
    split; [reflexivity |]. split.
    + unfold MNIST_cnn.earlier_revision_events.
      rewrite !model_ops_app, mnist_model_ops_train_and_show.
      rewrite <- app_assoc. reflexivity.
    + apply Forall_forall. intros l _. apply framework_layer_classes.
  - apply reuters_runs_notebook in H. destruct H as (a & _ & ->).
    exists (Reuters_MLP.a_model a),
      (Reuters_MLP.stack Reuters_MLP.recorded (Reuters_MLP.a_data a)).
    split; [reflexivity |]. split.
    + unfold Reuters_MLP.notebook_events.
      rewrite !model_ops_app, reuters_model_ops_with_settings. reflexivity.
    + apply Forall_forall. intros l _. apply framework_layer_classes.
  - apply reuters_runs_earlier_revision in H. destruct H as (a & _ & ->).
    exists (Reuters_MLP.a_model a),
      (Reuters_MLP.stack Reuters_MLP.recorded (Reuters_MLP.a_data a)).
    split; [reflexivity |]. split.
    + unfold Reuters_MLP.earlier_revision_events.
      rewrite !model_ops_app, reuters_model_ops_train. reflexivity.
    + apply Forall_forall. intros l _. apply framework_layer_classes.
Qed.

Lemma models_are_sequential_C3_witness :
  sequential_model (trace Demo.framework_small MNIST_cnn.notebook 0%nat)
    [OpFit; OpEvaluate; OpPredict; OpSave].
Proof.
  apply (models_are_sequential_C3 MNIST_cnn.notebook
           [OpFit; OpEvaluate; OpPredict; OpSave]).
  - unfold In. left. reflexivity.
  - vm_compute. reflexivity.
Defined.

(** ** Evaluation *)

Lemma py_getitem_nonneg {A} (l : list A) (i : Z) :
  0 <= i ->
  py_getitem l i = match nth_error l (Z.to_nat i) with
                   | Some a => Ok a
                   | None => Err IndexError
                   end.
Proof.
  intros Hi. unfold py_getitem. cbv zeta.
  destruct (Z.ltb_spec i 0) as [Hneg | _]; [lia |].
  destruct (Z.leb_spec 0 i) as [_ | Hneg]; [| lia].
  destruct (Z.ltb_spec i (Z.of_nat (length l))) as [Hlt | Hge]; simpl.
  - reflexivity.
  - destruct (nth_error l (Z.to_nat i)) eqn:E; [| reflexivity].
    assert (Z.to_nat i < length l)%nat
      by (apply nth_error_Some; congruence).
    lia.
Qed.

Lemma py_getitem_pair {A} (l : list A) (x y : A) :
  py_getitem l 0 = Ok x -> py_getitem l 1 = Ok y ->
  exists rest, l = x :: y :: rest.
Proof.
  rewrite !py_getitem_nonneg by lia.
  change (Z.to_nat 0) with 0%nat. change (Z.to_nat 1) with 1%nat.
  destruct l as [| a [| b rest]]; simpl; try discriminate.
  intros E1 E2. injection E1 as <-. injection E2 as <-.
  exists rest. reflexivity.
Qed.

(** Membership in a recorded trace, found by search. *)
Ltac in_events :=
  first [ left; reflexivity
        | right; in_events
        | apply in_or_app; first [ left; in_events | right; in_events ] ].

(** C4: in a completed run of either notebook the model is evaluated once,
    after it was fitted, on the test part of the loaded dataset (the test
    images reshaped and scaled, resp. the test newswires vectorized, with
    the one-hot test labels); what [evaluate] returns starts with two
    numbers, and the run prints the first as the test score and the second
    as the test accuracy. *)
Theorem evaluation_reported_C4 :
  forall (W1 W2 : Type) (fw1 : framework W1) (fw2 : framework W2) w1 w2,
    completes fw1 MNIST_cnn.notebook w1 = true ->
    completes fw2 Reuters_MLP.notebook w2 = true ->
    (exists raw X2 Y m score loss acc rest pre post,
        In (Returned mnist_load_data raw) (trace fw1 MNIST_cnn.notebook w1) /\
        MNIST_cnn.reshape_images MNIST_cnn.recorded (test_X raw) = Ok X2 /\
        to_categorical (test_y raw) 10 = Ok Y /\
        evaluations (trace fw1 MNIST_cnn.notebook w1)
        = [(idiv_float32 (astype_float32 X2) 255, Y, score)] /\
        score = loss :: acc :: rest /\
        reported (trace fw1 MNIST_cnn.notebook w1)
        = [("Test score:"%string, loss); ("Test accuracy:"%string, acc)] /\
        model_ops m (trace fw1 MNIST_cnn.notebook w1)
        = pre ++ OpFit :: OpEvaluate :: post) /\
    (exists raw tok X Y m score loss acc rest pre post,
        In (Returned (reuters_load_data 1000 (Float.dec float64 2 1)) raw)
           (trace fw2 Reuters_MLP.notebook w2) /\
        In (Returned (sequences_to_matrix tok (test_X raw) "binary") X)
           (trace fw2 Reuters_MLP.notebook w2) /\
        (exists nb_classes,
            Reuters_MLP.count_classes (train_y raw) = Ok nb_classes /\
            to_categorical (test_y raw) nb_classes = Ok Y) /\
        evaluations (trace fw2 Reuters_MLP.notebook w2) = [(X, Y, score)] /\
        score = loss :: acc :: rest /\
        reported (trace fw2 Reuters_MLP.notebook w2)
        = [(Reuters_MLP.test_score_label, loss); ("Test accuracy:"%string, acc)] /\
        model_ops m (trace fw2 Reuters_MLP.notebook w2)
        = pre ++ OpFit :: OpEvaluate :: post).
Proof.
  intros W1 W2 fw1 fw2 w1 w2 H1 H2.
  apply completes_runs in H1. destruct H1 as (r1 & w1' & H1).
  apply completes_runs in H2. destruct H2 as (r2 & w2' & H2).
  apply mnist_runs_notebook in H1. destruct H1 as (a1 & G1 & ->).
  apply reuters_runs_notebook in H2. destruct H2 as (a2 & G2 & ->).
  split.
  - destruct G1 as (Hp & Hl & Ha & _).
    destruct Hp as (_ & (X2 & HX2 & EX) & _ & _ & _ & HY & _).
    destruct (py_getitem_pair _ _ _ Hl Ha) as (rest & Hscore).
    exists (MNIST_cnn.a_raw a1), X2, (MNIST_cnn.Y_test (MNIST_cnn.a_data a1)),
      (MNIST_cnn.a_model a1), (MNIST_cnn.a_score a1),
      (MNIST_cnn.a_loss a1), (MNIST_cnn.a_acc a1), rest,
      (map OpAdd (MNIST_cnn.stack MNIST_cnn.recorded) ++ [OpCompile]),
      [OpPredict; OpSave].
    split; [unfold MNIST_cnn.notebook_events; in_events |].
    split; [exact HX2 |]. split; [exact HY |].
    split; [rewrite <- EX; reflexivity |]. split; [exact Hscore |].
    split; [reflexivity |].
    unfold MNIST_cnn.notebook_events.
    rewrite !model_ops_app, mnist_model_ops_with_settings.
    rewrite <- app_assoc. reflexivity.
  - destruct G2 as (_ & _ & Hc & _ & HY & Hl & Ha).
    destruct (py_getitem_pair _ _ _ Hl Ha) as (rest & Hscore).
    exists (Reuters_MLP.a_raw a2), (Reuters_MLP.tokenizer_ (Reuters_MLP.a_data a2)),
      (Reuters_MLP.X_test (Reuters_MLP.a_data a2)),
      (Reuters_MLP.Y_test (Reuters_MLP.a_data a2)),
      (Reuters_MLP.a_model a2), (Reuters_MLP.a_score a2),
      (Reuters_MLP.a_loss a2), (Reuters_MLP.a_acc a2), rest,
      (map OpAdd (Reuters_MLP.stack Reuters_MLP.recorded (Reuters_MLP.a_data a2))
       ++ [OpCompile]),
      [OpSave].
    split; [unfold Reuters_MLP.notebook_events; in_events |].
    split; [unfold Reuters_MLP.notebook_events; in_events |].
    split; [eauto |].
    split; [reflexivity |]. split; [exact Hscore |].
    split; [reflexivity |].
    unfold Reuters_MLP.notebook_events.
    rewrite !model_ops_app, reuters_model_ops_with_settings.
    rewrite <- app_assoc. reflexivity.
Qed.

Lemma evaluation_reported_C4_witness :
    (exists raw X2 Y m score loss acc rest pre post,
        In (Returned mnist_load_data raw) (trace Demo.framework_small MNIST_cnn.notebook 0%nat) /\
        MNIST_cnn.reshape_images MNIST_cnn.recorded (test_X raw) = Ok X2 /\
        to_categorical (test_y raw) 10 = Ok Y /\
        evaluations (trace Demo.framework_small MNIST_cnn.notebook 0%nat)
        = [(idiv_float32 (astype_float32 X2) 255, Y, score)] /\
        score = loss :: acc :: rest /\
        reported (trace Demo.framework_small MNIST_cnn.notebook 0%nat)
        = [("Test score:"%string, loss); ("Test accuracy:"%string, acc)] /\
        model_ops m (trace Demo.framework_small MNIST_cnn.notebook 0%nat)
        = pre ++ OpFit :: OpEvaluate :: post) /\
    (exists raw tok X Y m score loss acc rest pre post,
        In (Returned (reuters_load_data 1000 (Float.dec float64 2 1)) raw)
           (trace Demo.framework_small Reuters_MLP.notebook 0%nat) /\
        In (Returned (sequences_to_matrix tok (test_X raw) "binary") X)
           (trace Demo.framework_small Reuters_MLP.notebook 0%nat) /\
        (exists nb_classes,
            Reuters_MLP.count_classes (train_y raw) = Ok nb_classes /\
            to_categorical (test_y raw) nb_classes = Ok Y) /\
        evaluations (trace Demo.framework_small Reuters_MLP.notebook 0%nat) = [(X, Y, score)] /\
        score = loss :: acc :: rest /\
        reported (trace Demo.framework_small Reuters_MLP.notebook 0%nat)
        = [(Reuters_MLP.test_score_label, loss); ("Test accuracy:"%string, acc)] /\
        model_ops m (trace Demo.framework_small Reuters_MLP.notebook 0%nat)
        = pre ++ OpFit :: OpEvaluate :: post).
Proof.
  apply (evaluation_reported_C4 nat nat Demo.framework_small Demo.framework_small
           0%nat 0%nat); vm_compute; reflexivity.
Defined.

(** ** The hyperparameter constants *)

Lemma spec_float_eqb_refl x : spec_float_eqb x x = true.
Proof.
  destruct x as [b | b | | b m e]; simpl; try reflexivity.
  - destruct b; reflexivity.
  - destruct b; reflexivity.
  - rewrite Pos.eqb_refl, Z.eqb_refl. destruct b; reflexivity.
Qed.

Lemma number_eqb_refl v : number_eqb v v = true.
Proof. destruct v; simpl; [apply Z.eqb_refl | apply spec_float_eqb_refl]. Qed.

Lemma passed_intro v e tr :
  In e tr -> In v (ev_numbers e) -> passed v tr = true.
Proof.
  intros He Hv. unfold passed. apply existsb_exists. exists e. split; [exact He |].
  apply existsb_exists. exists v. split; [exact Hv | apply number_eqb_refl].
Qed.

Lemma count_string_app x l1 l2 :
  count_string x (l1 ++ l2) = (count_string x l1 + count_string x l2)%nat.
Proof. induction l1 as [| x' l1 IH]; simpl; [reflexivity |]. rewrite IH. lia. Qed.

Lemma count_string_repeated x k block :
  count_string x block = 0%nat ->
  count_string x (concat (replicate k block)) = 0%nat.
Proof.
  intros H. induction k as [| k IH]; simpl; [reflexivity |].
  rewrite count_string_app, H, IH. reflexivity.
Qed.

(** C5, as stated, fails for the Reuters notebook's [nb_hidden]: it is only
    the bound of the loop that adds hidden blocks.  With [nb_hidden = 7] no
    call is given a 7, and with [nb_hidden = 0] the framework sees exactly
    the calls it sees with the notebook's [nb_hidden = 1]. *)
Lemma reuters_nb_hidden_not_passed_C5 :
  (completes Demo.framework_small
     (Reuters_MLP.with_settings (Demo.reuters_hidden 7)) 0%nat = true /\
   Reuters_MLP.setting (Demo.reuters_hidden 7) "nb_hidden" = Some (Int 7) /\
   passed (Int 7)
     (trace Demo.framework_small
        (Reuters_MLP.with_settings (Demo.reuters_hidden 7)) 0%nat) = false) /\
  (Demo.reuters_hidden 1 = Reuters_MLP.recorded /\
   trace Demo.framework_small (Reuters_MLP.with_settings (Demo.reuters_hidden 0)) 0%nat
   = trace Demo.framework_small (Reuters_MLP.with_settings (Demo.reuters_hidden 1)) 0%nat).
Proof.
  split; [split; [| split] | split]; vm_compute; reflexivity.
Qed.

Ltac passed_by e :=
  eexists; split; [reflexivity |];
  apply (passed_intro _ e); [in_events | simpl; tauto].

Lemma mnist_constants_passed s a x :
  In x MNIST_cnn.constants ->
  exists v, MNIST_cnn.setting s x = Some v /\
            passed v (MNIST_cnn.with_settings_events s a) = true.
Proof.
  pose (m := MNIST_cnn.a_model a). pose (d := MNIST_cnn.a_data a).
  pose (fit := Returned (model_fit m (MNIST_cnn.X_train d) (MNIST_cnn.Y_train d)
                           (MNIST_cnn.batch_size s) (MNIST_cnn.nb_epoch s) 1
                           (validation_data (MNIST_cnn.X_test d) (MNIST_cnn.Y_test d)))
                 (MNIST_cnn.a_history a)).
  pose (conv := Returned (model_add m
                   (Convolution2D (MNIST_cnn.nb_filters s) (MNIST_cnn.nb_conv s)
                      (MNIST_cnn.nb_conv s) (Some "valid"%string)
                      (Some [1; MNIST_cnn.img_rows s; MNIST_cnn.img_cols s]))) tt).
  unfold MNIST_cnn.with_settings_events, MNIST_cnn.train_and_show_events.
  unfold MNIST_cnn.constants, In.
  intros [<- | [<- | [<- | [<- | [<- | [<- | [<- | [<- | [<- | [<- | [<- | []]]]]]]]]]]].
  - passed_by fit.
  - passed_by (Returned (model_add m (Dense (MNIST_cnn.nb_classes s) None)) tt).
  - passed_by fit.
  - passed_by conv.
  - passed_by conv.
  - passed_by conv.
  - passed_by (Returned (model_add m
                 (MaxPooling2D (MNIST_cnn.nb_pool s, MNIST_cnn.nb_pool s))) tt).
  - passed_by conv.
  - passed_by (Returned (model_add m (Dropout (MNIST_cnn.conv_dropout s))) tt).
  - passed_by (Returned (model_add m (Dropout (MNIST_cnn.dens_dropout s))) tt).
  - passed_by (Returned (model_add m (Dense (MNIST_cnn.nb_hidden s) None)) tt).
Qed.

Lemma reuters_constants_passed s a x :
  In x Reuters_MLP.constants -> x <> "nb_hidden"%string ->
  exists v, Reuters_MLP.setting s x = Some v /\
            passed v (Reuters_MLP.with_settings_events s a) = true.
Proof.
  pose (m := Reuters_MLP.a_model a). pose (d := Reuters_MLP.a_data a).
  pose (fit := Returned (model_fit m (Reuters_MLP.X_train d) (Reuters_MLP.Y_train d)
                           (Reuters_MLP.batch_size s) (Reuters_MLP.nb_epoch s) 1
                           (validation_split (Float.dec float64 1 1)))
                 (Reuters_MLP.a_history a)).
  pose (dense := Returned (model_add m
                   (Dense (Reuters_MLP.nb_dense s) (Some [Reuters_MLP.max_words s]))) tt).
  unfold Reuters_MLP.with_settings_events, Reuters_MLP.train_events,
    Reuters_MLP.model_events.
  unfold Reuters_MLP.constants, In.
  intros [<- | [<- | [<- | [<- | [<- | [<- | []]]]]]] Hne.
  - passed_by dense.
  - passed_by fit.
  - passed_by fit.
  - passed_by dense.
  - congruence.
  - passed_by (Returned (model_add m (Dropout (Reuters_MLP.p_dropout s))) tt).
Qed.

Lemma mnist_constants_not_rebound s a x :
  In x MNIST_cnn.constants ->
  count_string x (bindings (MNIST_cnn.with_settings_events s a)) = 0%nat.
Proof.
  unfold MNIST_cnn.constants, In.
  intros [<- | [<- | [<- | [<- | [<- | [<- | [<- | [<- | [<- | [<- | [<- | []]]]]]]]]]]];
    reflexivity.
Qed.

Lemma reuters_constants_not_rebound s a x :
  In x Reuters_MLP.constants ->
  count_string x (bindings (Reuters_MLP.with_settings_events s a)) = 0%nat.
Proof.
  intros Hx.
  unfold Reuters_MLP.with_settings_events, Reuters_MLP.train_events,
    Reuters_MLP.model_events.
  rewrite !bindings_app, !count_string_app.
  rewrite (observe_repeated bindings) by (reflexivity || apply bindings_app).
  rewrite count_string_repeated.
  - unfold Reuters_MLP.constants, In in Hx.
    destruct Hx as [<- | [<- | [<- | [<- | [<- | [<- | []]]]]]]; reflexivity.
  - unfold Reuters_MLP.constants, In in Hx.
    destruct Hx as [<- | [<- | [<- | [<- | [<- | [<- | []]]]]]]; reflexivity.
Qed.

Lemma length_concat_replicate {A} (k : nat) (block : list A) :
  length (concat (replicate k block)) = (k * length block)%nat.
Proof.
  induction k as [| k IH]; simpl; [reflexivity |].
  rewrite length_app, IH. reflexivity.
Qed.

Lemma reuters_stack_length s d :
  length (Reuters_MLP.stack s d)
  = (5 + 3 * Z.to_nat (Reuters_MLP.nb_hidden s - 1))%nat.
Proof.
  unfold Reuters_MLP.stack. rewrite !length_app, length_concat_replicate.
  simpl. lia.
Qed.

(** C5, amended: whatever values the constants are given, in a completed run
    of the cells below the constants every constant of the MNIST notebook
    (the image dimensions included) and every constant of the Reuters
    notebook except [nb_hidden] is among the numbers given to some delegated
    call; the Reuters [nb_hidden] decides how many layers are added (five
    and three more for each pass of [range(nb_hidden-1)]); and no cell below
    the constants binds the name of a constant again. *)
Theorem constants_are_passed_C5 :
  forall (W1 W2 : Type) (fw1 : framework W1) (fw2 : framework W2) w1 w2
         (s1 : MNIST_cnn.settings) (s2 : Reuters_MLP.settings),
    completes fw1 (MNIST_cnn.with_settings s1) w1 = true ->
    completes fw2 (Reuters_MLP.with_settings s2) w2 = true ->
    (forall x, In x MNIST_cnn.constants ->
       (exists v, MNIST_cnn.setting s1 x = Some v /\
                  passed v (trace fw1 (MNIST_cnn.with_settings s1) w1) = true) /\
       count_string x (bindings (trace fw1 (MNIST_cnn.with_settings s1) w1)) = 0%nat) /\
    (forall x, In x Reuters_MLP.constants ->
       (x <> "nb_hidden"%string ->
        exists v, Reuters_MLP.setting s2 x = Some v /\
                  passed v (trace fw2 (Reuters_MLP.with_settings s2) w2) = true) /\
       count_string x (bindings (trace fw2 (Reuters_MLP.with_settings s2) w2)) = 0%nat) /\
    length (layers_added (trace fw2 (Reuters_MLP.with_settings s2) w2))
    = (5 + 3 * Z.to_nat (Reuters_MLP.nb_hidden s2 - 1))%nat.
Proof.
  intros W1 W2 fw1 fw2 w1 w2 s1 s2 H1 H2.
  apply completes_runs in H1. destruct H1 as (r1 & w1' & H1).
  apply completes_runs in H2. destruct H2 as (r2 & w2' & H2).
  apply mnist_runs_with_settings in H1. destruct H1 as (a1 & _ & ->).
  apply reuters_runs_with_settings in H2. destruct H2 as (a2 & _ & ->).
  split; [| split].
  - intros x Hx. split.
    + apply mnist_constants_passed. exact Hx.
    + apply mnist_constants_not_rebound. exact Hx.
  - intros x Hx. split.
    + apply reuters_constants_passed. exact Hx.
    + apply reuters_constants_not_rebound. exact Hx.
  - unfold Reuters_MLP.with_settings_events.
    rewrite layers_added_app, reuters_layers_added_train.
    replace (layers_added (Reuters_MLP.save_events (Reuters_MLP.a_model a2)))
      with (@nil layer) by reflexivity.
    rewrite app_nil_r. apply reuters_stack_length.
Qed.

Lemma constants_are_passed_C5_witness :
    (forall x, In x MNIST_cnn.constants ->
       (exists v, MNIST_cnn.setting MNIST_cnn.recorded x = Some v /\
                  passed v (trace Demo.framework_small (MNIST_cnn.with_settings MNIST_cnn.recorded) 0%nat) = true) /\
       count_string x (bindings (trace Demo.framework_small (MNIST_cnn.with_settings MNIST_cnn.recorded) 0%nat)) = 0%nat) /\
    (forall x, In x Reuters_MLP.constants ->
       (x <> "nb_hidden"%string ->
        exists v, Reuters_MLP.setting (Demo.reuters_hidden 3) x = Some v /\
                  passed v (trace Demo.framework_small (Reuters_MLP.with_settings (Demo.reuters_hidden 3)) 0%nat) = true) /\
       count_string x (bindings (trace Demo.framework_small (Reuters_MLP.with_settings (Demo.reuters_hidden 3)) 0%nat)) = 0%nat) /\
    length (layers_added (trace Demo.framework_small (Reuters_MLP.with_settings (Demo.reuters_hidden 3)) 0%nat))
    = (5 + 3 * Z.to_nat (Reuters_MLP.nb_hidden (Demo.reuters_hidden 3) - 1))%nat.
Proof.
  apply (constants_are_passed_C5 nat nat Demo.framework_small Demo.framework_small
           0%nat 0%nat MNIST_cnn.recorded (Demo.reuters_hidden 3));
    vm_compute; reflexivity.
Defined.

(** ** The two networks *)

Lemma hidden_blocks_repeated (k : nat) (n c : Z) (p : spec_float) :
  hidden_blocks
    (concat (replicate k [Dense n None; Activation "relu"; Dropout p])
     ++ [Dense c None; Activation "softmax"]) = k.
Proof.
  induction k as [| k IH]; [reflexivity |].
  cbn [replicate concat app hidden_blocks]. rewrite IH. reflexivity.
Qed.

Lemma reuters_hidden_blocks_stack s d :
  hidden_blocks (Reuters_MLP.stack s d)
  = S (Z.to_nat (Reuters_MLP.nb_hidden s - 1)).
Proof.
  unfold Reuters_MLP.stack. cbn [app hidden_blocks].
  rewrite hidden_blocks_repeated. reflexivity.
Qed.



(** C8: in a completed run of the Reuters cells the layers added are one
    hidden block [Dense(nb_dense) -> relu -> Dropout(p_dropout)], one more
    for each pass of the loop over [range(nb_hidden-1)], and the output
    layers.  The model has [nb_hidden] hidden blocks when [nb_hidden >= 1]
    and exactly one when [nb_hidden <= 1], zero and negative values
    included; it never has none. *)
Theorem reuters_hidden_blocks_C8 :
  forall (W : Type) (fw : framework W) (w : W) (s : Reuters_MLP.settings),
    completes fw (Reuters_MLP.train s) w = true ->
    (exists nb_classes,
        layers_added (trace fw (Reuters_MLP.train s) w)
        = [ Dense (Reuters_MLP.nb_dense s) (Some [Reuters_MLP.max_words s]);
            Activation "relu";
            Dropout (Reuters_MLP.p_dropout s) ]
          ++ concat (replicate (Z.to_nat (Reuters_MLP.nb_hidden s - 1))
                       [ Dense (Reuters_MLP.nb_dense s) None;
                         Activation "relu";
                         Dropout (Reuters_MLP.p_dropout s) ])
          ++ [ Dense nb_classes None; Activation "softmax" ]) /\
    hidden_blocks (layers_added (trace fw (Reuters_MLP.train s) w))
    = Z.to_nat (Z.max 1 (Reuters_MLP.nb_hidden s)) /\
    (1 <= Reuters_MLP.nb_hidden s ->
     Z.of_nat (hidden_blocks (layers_added (trace fw (Reuters_MLP.train s) w)))
     = Reuters_MLP.nb_hidden s) /\
    (Reuters_MLP.nb_hidden s <= 1 ->
     hidden_blocks (layers_added (trace fw (Reuters_MLP.train s) w)) = 1%nat) /\
    hidden_blocks (layers_added (trace fw (Reuters_MLP.train s) w)) <> 0%nat.
Proof.
  intros W fw w s H.
  apply completes_runs in H. destruct H as ([d m] & w' & H).
  apply reuters_runs_train in H. destruct H as (a & _ & _ & _ & ->).
  rewrite reuters_layers_added_train, reuters_hidden_blocks_stack.
  split; [exists (Reuters_MLP.nb_classes (Reuters_MLP.a_data a)); reflexivity |].
  repeat split; lia.
Qed.

Lemma reuters_hidden_blocks_C8_witness :
  hidden_blocks
    (layers_added
       (trace Demo.framework_small (Reuters_MLP.train (Demo.reuters_hidden 0)) 0%nat))
  <> 0%nat.
Proof.
  apply (reuters_hidden_blocks_C8 nat Demo.framework_small 0%nat
           (Demo.reuters_hidden 0)).
  vm_compute. reflexivity.
Defined.

(** ** One-hot labels and argmax *)

Lemma argmax_from_after_one b i (k : nat) :
  argmax_from (Float.one float64) b i (replicate k Float.zero) = b.
Proof.
  revert i. induction k as [| k IH]; intros i; [reflexivity |].
  cbn [replicate argmax_from].
  change (float_gt Float.zero (Float.one float64)) with false. cbv iota.
  apply IH.
Qed.

Lemma argmax_from_zeros_one b i (k m : nat) :
  argmax_from Float.zero b i
    (replicate k Float.zero ++ Float.one float64 :: replicate m Float.zero)
  = i + Z.of_nat k.
Proof.
  revert i. induction k as [| k IH]; intros i.
  - cbn [replicate app argmax_from].
    change (float_gt (Float.one float64) Float.zero) with true. cbv iota.
    rewrite argmax_from_after_one. lia.
  - cbn [replicate app argmax_from].
    change (float_gt Float.zero Float.zero) with false. cbv iota.
    rewrite IH. lia.
Qed.

Lemma one_hot_row_argmax (nb_classes c : Z) :
  0 <= c < nb_classes ->
  exists row, one_hot_row nb_classes c = Ok row /\ np_argmax row = Ok c.
Proof.
  intros Hc. unfold one_hot_row.
  destruct (Z.ltb_spec c 0) as [Hneg | _]; [lia |].
  destruct (Z.leb_spec 0 c) as [_ | Hneg]; [| lia].
  destruct (Z.ltb_spec c nb_classes) as [_ | Hge]; [| lia].
  simpl andb. cbv iota. eexists. split; [reflexivity |].
  rewrite insert_replicate_lt by lia.
  destruct (Z.to_nat c) as [| k] eqn:Ek.
  - cbn [replicate app np_argmax]. rewrite argmax_from_after_one. f_equal. lia.
  - cbn [replicate app np_argmax]. rewrite argmax_from_zeros_one. f_equal. lia.
Qed.

Lemma one_hot_rows_length nb_classes y rs :
  one_hot_rows nb_classes y = Ok rs -> length rs = length y.
Proof.
  revert rs. induction y as [| c y IH]; intros rs; simpl.
  - intros E. injection E as <-. reflexivity.
  - destruct (one_hot_row nb_classes c) as [r | e]; [| discriminate].
    destruct (one_hot_rows nb_classes y) as [rs' | e]; [| discriminate].
    intros E. injection E as <-. simpl. rewrite (IH rs' eq_refl). reflexivity.
Qed.

Lemma one_hot_rows_argmax nb_classes y :
  (forall l, In l y -> 0 <= l < nb_classes) ->
  exists rs,
    one_hot_rows nb_classes y = Ok rs /\
    forall k c, nth_error y k = Some c ->
                exists row, nth_error rs k = Some row /\ np_argmax row = Ok c.
Proof.
  induction y as [| c y IH]; intros Hy.
  - exists []. split; [reflexivity |]. intros [| k] c'; discriminate.
  - destruct (one_hot_row_argmax nb_classes c) as (r & Hr & Ha);
      [apply Hy; left; reflexivity |].
    destruct IH as (rs & Hrs & Hnth); [intros l Hl; apply Hy; right; exact Hl |].
    exists (r :: rs). split.
    + simpl. rewrite Hr, Hrs. reflexivity.
    + intros [| k] c' Hk; simpl in Hk.
      * injection Hk as <-. exists r. split; [reflexivity | exact Ha].
      * apply Hnth. exact Hk.
Qed.

Lemma to_categorical_length y nb_classes Y :
  to_categorical y nb_classes = Ok Y -> length (rows Y) = length y.
Proof.
  unfold to_categorical.
  destruct (if nb_classes =? 0
            then match np_max y with
                 | Ok m => Ok (wrap64 (m + 1))
                 | Err e => Err e
                 end
            else Ok nb_classes) as [n | e]; [| discriminate].
  destruct (n <? 0); [discriminate |].
  destruct (one_hot_rows n y) as [rs | e] eqn:E; [| discriminate].
  intros H. injection H as <-. simpl. eapply one_hot_rows_length. exact E.
Qed.

(** The position [l[i]] reads. *)
Lemma py_getitem_Ok {A} (l : list A) (i : Z) (a : A) :
  py_getitem l i = Ok a ->
  exists k : nat,
    (k < length l)%nat /\ nth_error l k = Some a /\
    Z.of_nat k = (if i <? 0 then i + Z.of_nat (length l) else i).
Proof.
  unfold py_getitem. cbv zeta.
  set (j := if i <? 0 then i + Z.of_nat (length l) else i).
  destruct (Z.leb_spec 0 j) as [Hj0 | ?]; [| discriminate].
  destruct (Z.ltb_spec j (Z.of_nat (length l))) as [Hjn | ?]; [| discriminate].
  simpl andb. cbv iota.
  destruct (nth_error l (Z.to_nat j)) as [a' |] eqn:E; [| discriminate].
  intros H. injection H as <-. exists (Z.to_nat j).
  split; [lia |]. split; [exact E | lia].
Qed.

Lemma py_getitem_at {A} (l : list A) (i : Z) (k : nat) (a : A) :
  nth_error l k = Some a ->
  Z.of_nat k = (if i <? 0 then i + Z.of_nat (length l) else i) ->
  py_getitem l i = Ok a.
Proof.
  intros Hk Hi. unfold py_getitem. cbv zeta. rewrite <- Hi.
  assert (k < length l)%nat by (apply nth_error_Some; congruence).
  destruct (Z.leb_spec 0 (Z.of_nat k)) as [_ | ?]; [| lia].
  destruct (Z.ltb_spec (Z.of_nat k) (Z.of_nat (length l))) as [_ | ?]; [| lia].
  simpl andb. cbv iota. rewrite Nat2Z.id, Hk. reflexivity.
Qed.

Lemma one_hot_round_trip (y : list Z) (nb_classes i c : Z) :
  (forall l, In l y -> 0 <= l < nb_classes) ->
  py_getitem y i = Ok c ->
  exists Y row,
    to_categorical y nb_classes = Ok Y /\
    py_getitem (rows Y) i = Ok row /\
    np_argmax row = Ok c.
Proof.
  intros Hy Hi.
  destruct (py_getitem_Ok _ _ _ Hi) as (k & Hlt & Hk & Hpos).
  assert (Hc : 0 <= c < nb_classes)
    by (apply Hy; eapply nth_error_In; exact Hk).
  destruct (one_hot_rows_argmax nb_classes y Hy) as (rs & Hrs & Hnth).
  destruct (Hnth k c Hk) as (row & Hrow & Harg).
  exists {| ncols := nb_classes; rows := rs |}, row.
  split; [| split; [| exact Harg]].
  - unfold to_categorical.
    destruct (Z.eqb_spec nb_classes 0) as [? | _]; [lia |].
    destruct (Z.ltb_spec nb_classes 0) as [? | _]; [lia |].
    rewrite Hrs. reflexivity.
  - simpl rows. apply (py_getitem_at rs i k row Hrow).
    rewrite (one_hot_rows_length _ _ _ Hrs). exact Hpos.
Qed.

(** C9: for a label vector [y] with entries in [0..nb_classes-1] and any
    index [i] that [y] has (negative indices count from the end),
    [np.argmax(to_categorical(y, nb_classes)[i])] is [y[i]].  Hence, for
    whatever values the constants have, in a completed run of the MNIST
    cells on test labels below [nb_classes] the "Actual digit" that
    [show_predictions(i)] puts in the title is the raw test label
    [y_test[i]]. *)
Theorem one_hot_argmax_C9 :
  (forall (y : list Z) (nb_classes i c : Z),
      (forall l, In l y -> 0 <= l < nb_classes) ->
      py_getitem y i = Ok c ->
      exists Y row,
        to_categorical y nb_classes = Ok Y /\
        py_getitem (rows Y) i = Ok row /\
        np_argmax row = Ok c) /\
  (forall (W : Type) (fw : framework W) (w : W) (s : MNIST_cnn.settings),
      completes fw (MNIST_cnn.train_and_show s) w = true ->
      exists raw n i idx actual ax,
        In (Returned mnist_load_data raw)
           (trace fw (MNIST_cnn.train_and_show s) w) /\
        In (Returned (np_random_randint n) i)
           (trace fw (MNIST_cnn.train_and_show s) w) /\
        In (Returned (ax_set_title ax
                        (PFormatInts MNIST_cnn.title_format [idx; actual])) tt)
           (trace fw (MNIST_cnn.train_and_show s) w) /\
        ((forall l, In l (test_y raw) -> 0 <= l < MNIST_cnn.nb_classes s) ->
         py_getitem (test_y raw) i = Ok actual)).
Proof.
  split; [exact one_hot_round_trip |].
  intros W fw w s H.
  apply completes_runs in H. destruct H as ([d m] & w' & H).
  apply mnist_runs_train_and_show in H. destruct H as (a & _ & _ & G & ->).
  destruct G as (Hp & _ & _ & Hs).
  destruct Hp as (_ & _ & _ & _ & _ & HY & _).
  destruct Hs as (_ & _ & (row & Hrow & Harg) & _).
  exists (MNIST_cnn.a_raw a), (MNIST_cnn.a_n_test a), (MNIST_cnn.a_sample a),
    (MNIST_cnn.a_idx a), (MNIST_cnn.a_actual a), (MNIST_cnn.a_ax a).
  unfold MNIST_cnn.train_and_show_events.
  split; [in_events |]. split; [in_events |]. split; [in_events |].
  intros Hy.
  destruct (py_getitem_Ok _ _ _ Hrow) as (k & Hlt & Hk & Hpos).
  rewrite (to_categorical_length _ _ _ HY) in Hlt, Hpos.
  destruct (nth_error (test_y (MNIST_cnn.a_raw a)) k) as [c |] eqn:Ec;
    [| apply nth_error_None in Ec; lia].
  assert (Hi : py_getitem (test_y (MNIST_cnn.a_raw a)) (MNIST_cnn.a_sample a) = Ok c)
    by (eapply py_getitem_at; eassumption).
  destruct (one_hot_round_trip _ _ _ _ Hy Hi) as (Y & row' & HY' & Hrow' & Harg').
  rewrite HY in HY'. injection HY' as <-.
  rewrite Hrow in Hrow'. injection Hrow' as <-.
  rewrite Harg in Harg'. injection Harg' as <-.
  exact Hi.
Qed.

Lemma one_hot_argmax_C9_witness :
  exists Y row,
    to_categorical [7; 2; 1] 10 = Ok Y /\
    py_getitem (rows Y) (-1) = Ok row /\
    np_argmax row = Ok 1.
Proof.
  apply (proj1 one_hot_argmax_C9 [7; 2; 1] 10 (-1) 1).
  - intros l Hl. simpl in Hl. lia.
  - vm_compute. reflexivity.
Defined.

(** ** The MNIST images *)

Lemma scaled_pixel_in_unit_interval (b : Byte.byte) :
  in_unit_interval (scaled_pixel b) = true.
Proof. destruct b; vm_compute; reflexivity. Qed.

Lemma scaled_pixel_nearest (b : Byte.byte) :
  nearest_float32 (uint8_to_Z b) 255 (scaled_pixel b) = true.
Proof. destruct b; vm_compute; reflexivity. Qed.

Lemma uint8_range (b : Byte.byte) : 0 <= uint8_to_Z b <= 255.
Proof. destruct b; vm_compute; split; discriminate. Qed.

Lemma prod_shape_inferred q new :
  prod_shape (map (fun d => if d <? 0 then q else d) new)
  = q ^ Z.of_nat (length (List.filter (fun d => d <? 0) new))
    * prod_shape (List.filter (Z.leb 0) new).
Proof.
  induction new as [| d new IH]; [reflexivity |].
  cbn [map List.filter]. rewrite (Z.leb_antisym d 0).
  destruct (d <? 0); cbn [negb length prod_shape fold_right].
  - fold (prod_shape (map (fun d => if d <? 0 then q else d) new)).
    rewrite IH, Nat2Z.inj_succ, Z.pow_succ_r by lia.
    unfold prod_shape. apply Z.mul_assoc.
  - fold (prod_shape (map (fun d => if d <? 0 then q else d) new)).
    fold (prod_shape (List.filter (Z.leb 0) new)).
    rewrite IH.
    generalize (q ^ Z.of_nat (length (List.filter (fun d => d <? 0) new))).
    intros z. ring.
Qed.

Lemma nothing_to_infer q new :
  List.filter (fun d => d <? 0) new = [] ->
  map (fun d => if d <? 0 then q else d) new = new.
Proof.
  induction new as [| d new IH]; [reflexivity |].
  cbn [map List.filter]. destruct (d <? 0); [discriminate |].
  intros H. rewrite (IH H). reflexivity.
Qed.

(** A successful [reshape] keeps the buffer and the size; the dimensions
    that are not negative are kept and the negative one, if any, is
    replaced by the inferred one. *)
Lemma reshape_Ok {A} (a b : ndarray A) new :
  reshape a new = Ok b ->
  buf b = buf a /\ size b = size a /\
  exists q,
    shape b = map (fun d => if d <? 0 then q else d) new /\
    (List.filter (fun d => d <? 0) new <> [] ->
     length (List.filter (fun d => d <? 0) new) = 1%nat /\
     prod_shape (List.filter (Z.leb 0) new) <> 0).
Proof.
  unfold reshape.
  destruct (List.filter (fun d => d <? 0) new) as [| d1 [| d2 l]] eqn:Eneg;
    [| | discriminate].
  - destruct (Z.eqb_spec (prod_shape (List.filter (Z.leb 0) new)) (size a))
      as [Hsize | ?]; [| discriminate].
    intros E. injection E as <-. cbn [buf shape].
    split; [reflexivity |].
    pose proof (prod_shape_inferred 0 new) as Hp.
    rewrite Eneg, (nothing_to_infer 0 new Eneg) in Hp. cbn [length] in Hp.
    change (0 ^ Z.of_nat 0) with 1 in Hp. rewrite Z.mul_1_l in Hp.
    split; [unfold size at 1; cbn [shape]; rewrite Hp; exact Hsize |].
    exists 0. rewrite (nothing_to_infer 0 new Eneg).
    split; [reflexivity | congruence].
  - destruct (Z.eqb_spec (prod_shape (List.filter (Z.leb 0) new)) 0)
      as [? | Hknown]; [discriminate |].
    destruct (Z.eqb_spec (size a mod prod_shape (List.filter (Z.leb 0) new)) 0)
      as [Hmod | ?]; [| discriminate].
    cbn [orb negb]. intros E. injection E as <-. cbn [buf shape].
    split; [reflexivity |].
    split.
    + unfold size at 1. cbn [shape].
      rewrite prod_shape_inferred, Eneg. cbn [length].
      change (Z.of_nat 1) with 1. rewrite Z.pow_1_r.
      rewrite (Z.div_mod (size a) _ Hknown) at 2. rewrite Hmod. lia.
    + eexists. split; [reflexivity |]. intros _. split; [reflexivity | exact Hknown].
Qed.

Lemma reshape_images_inv s X X1 :
  MNIST_cnn.reshape_images s X = Ok X1 ->
  buf X1 = buf X /\ size X1 = size X /\
  exists n rest q,
    shape X = n :: rest /\
    shape X1 = map (fun d => if d <? 0 then q else d)
                 [n; 1; MNIST_cnn.img_rows s; MNIST_cnn.img_cols s] /\
    (List.filter (fun d => d <? 0)
       [n; 1; MNIST_cnn.img_rows s; MNIST_cnn.img_cols s] <> [] ->
     length (List.filter (fun d => d <? 0)
               [n; 1; MNIST_cnn.img_rows s; MNIST_cnn.img_cols s]) = 1%nat /\
     prod_shape (List.filter (Z.leb 0)
                   [n; 1; MNIST_cnn.img_rows s; MNIST_cnn.img_cols s]) <> 0).
Proof.
  unfold MNIST_cnn.reshape_images, shape0.
  destruct (shape X) as [| n rest] eqn:Es; [discriminate |].
  rewrite py_getitem_nonneg by lia. cbn [Z.to_nat nth_error].
  intros H. apply reshape_Ok in H. destruct H as (Hbuf & Hsize & q & Hs & Hq).
  split; [exact Hbuf |]. split; [exact Hsize |].
  exists n, rest, q. split; [reflexivity |]. split; assumption.
Qed.

(** Images that already have [img_rows] rows and [img_cols] columns only
    gain the axis of length 1. *)
Lemma reshape_images_same_shape s X X1 n :
  MNIST_cnn.reshape_images s X = Ok X1 ->
  shape X = [n; MNIST_cnn.img_rows s; MNIST_cnn.img_cols s] ->
  shape X1 = [n; 1; MNIST_cnn.img_rows s; MNIST_cnn.img_cols s].
Proof.
  intros H Hs.
  destruct (reshape_images_inv _ _ _ H) as (_ & Hsize & n0 & rest & q & Hs0 & Hs1 & Hq).
  rewrite Hs in Hs0. injection Hs0 as <- <-.
  unfold size in Hsize. rewrite Hs1, Hs in Hsize. rewrite Hs1.
  revert Hsize Hq. cbn [map List.filter].
  rewrite !(Z.leb_antisym _ 0).
  change (1 <? 0) with false. cbn iota.
  destruct (Z.ltb_spec n 0) as [Hn | Hn];
    destruct (Z.ltb_spec (MNIST_cnn.img_rows s) 0) as [Hr | Hr];
    destruct (Z.ltb_spec (MNIST_cnn.img_cols s) 0) as [Hc | Hc];
    cbn [negb length prod_shape fold_right]; intros Hsize Hq;
    try reflexivity;
    (destruct Hq as (Hone & Hknown); [discriminate |]);
    try discriminate Hone;
    repeat f_equal.
  - apply (Z.mul_reg_r _ _ (MNIST_cnn.img_rows s * MNIST_cnn.img_cols s)); lia.
  - apply (Z.mul_reg_r _ _ (n * MNIST_cnn.img_cols s)); lia.
  - apply (Z.mul_reg_r _ _ (n * MNIST_cnn.img_rows s)); lia.
Qed.

Lemma preprocessed_images s X X1 X' :
  MNIST_cnn.img_rows s = 28 -> MNIST_cnn.img_cols s = 28 ->
  MNIST_cnn.reshape_images s X = Ok X1 ->
  X' = idiv_float32 (astype_float32 X1) 255 ->
  (forall o, buf X' o = scaled_pixel (buf X o) /\
             in_unit_interval (buf X' o) = true) /\
  (forall n, shape X = [n; 28; 28] ->
     shape X' = [n; 1; 28; 28] /\
     forall i r c p,
       item X [i; r; c] = Ok p ->
       item X' [i; 0; r; c] = Ok (scaled_pixel p)).
Proof.
  intros Hr Hc HX1 ->.
  destruct (reshape_images_inv s X X1 HX1) as (Hbuf & _).
  assert (Hentry : forall o,
             buf (idiv_float32 (astype_float32 X1) 255) o = scaled_pixel (buf X o))
    by (intros o; simpl; rewrite Hbuf; reflexivity).
  split.
  - intros o. rewrite Hentry. split; [reflexivity |].
    apply scaled_pixel_in_unit_interval.
  - intros n Hn.
    pose proof (reshape_images_same_shape s X X1 n HX1) as Hs1.
    rewrite Hr, Hc in Hs1. specialize (Hs1 Hn).
    split; [simpl; exact Hs1 |].
    intros i r c p. unfold item.
    change (shape (idiv_float32 (astype_float32 X1) 255)) with (shape X1).
    rewrite Hs1, Hn.
    destruct (in_bounds [n; 28; 28] [i; r; c]) eqn:Eb; [| discriminate].
    intros E. injection E as <-.
    replace (in_bounds [n; 1; 28; 28] [i; 0; r; c]) with true
      by (simpl in *; exact (eq_sym Eb)).
    rewrite Hentry. reflexivity.
Qed.

(** C10: in a completed run of the MNIST data cell with 28x28 images every
    entry of [X_train] and of [X_test] is the loaded uint8 pixel at the same
    place, an integer in 0..255, taken to float32 and divided by 255 in
    float32: it is the float32 number nearest to pixel / 255, and lies in
    [0, 1]; arrays loaded with shapes (60000, 28, 28) and (10000, 28, 28)
    leave the cell with shapes (60000, 1, 28, 28) and (10000, 1, 28, 28),
    the entry at [i, 0, r, c] being the scaled pixel at [i, r, c]. *)
Theorem mnist_preprocessing_C10 :
  forall (W : Type) (fw : framework W) (w : W) (s : MNIST_cnn.settings),
    MNIST_cnn.img_rows s = 28 ->
    MNIST_cnn.img_cols s = 28 ->
    completes fw (MNIST_cnn.cell_data s) w = true ->
    exists raw d w',
      In (Returned mnist_load_data raw) (trace fw (MNIST_cnn.cell_data s) w) /\
      outcome fw (MNIST_cnn.cell_data s) w = Ok (d, w') /\
      (forall o,
          0 <= uint8_to_Z (buf (train_X raw) o) <= 255 /\
          buf (MNIST_cnn.X_train d) o = scaled_pixel (buf (train_X raw) o) /\
          nearest_float32 (uint8_to_Z (buf (train_X raw) o)) 255
            (buf (MNIST_cnn.X_train d) o) = true /\
          in_unit_interval (buf (MNIST_cnn.X_train d) o) = true /\
          0 <= uint8_to_Z (buf (test_X raw) o) <= 255 /\
          buf (MNIST_cnn.X_test d) o = scaled_pixel (buf (test_X raw) o) /\
          nearest_float32 (uint8_to_Z (buf (test_X raw) o)) 255
            (buf (MNIST_cnn.X_test d) o) = true /\
          in_unit_interval (buf (MNIST_cnn.X_test d) o) = true) /\
      (shape (train_X raw) = [60000; 28; 28] ->
       shape (MNIST_cnn.X_train d) = [60000; 1; 28; 28] /\
       forall i r c p,
         item (train_X raw) [i; r; c] = Ok p ->
         item (MNIST_cnn.X_train d) [i; 0; r; c] = Ok (scaled_pixel p)) /\
      (shape (test_X raw) = [10000; 28; 28] ->
       shape (MNIST_cnn.X_test d) = [10000; 1; 28; 28] /\
       forall i r c p,
         item (test_X raw) [i; r; c] = Ok p ->
         item (MNIST_cnn.X_test d) [i; 0; r; c] = Ok (scaled_pixel p)).
Proof.
  intros W fw w s Hr Hc H.
  apply completes_runs in H. destruct H as (d & w' & H).
  destruct (runs_trace _ _ _ _ _ _ H) as (_ & Hout).
  apply mnist_runs_data in H. destruct H as (raw & n1 & n2 & Hp & ->).
  destruct Hp as ((X1 & HX1 & E1) & (X2 & HX2 & E2) & _).
  destruct (preprocessed_images s _ X1 _ Hr Hc HX1 E1) as (Htrain & Htrain').
  destruct (preprocessed_images s _ X2 _ Hr Hc HX2 E2) as (Htest & Htest').
  exists raw, d, w'.
  split; [unfold MNIST_cnn.data_events; in_events |].
  split; [exact Hout |].
  split; [| split].
  - intros o. destruct (Htrain o) as (Ha & ?). destruct (Htest o) as (Hb & ?).
    pose proof (scaled_pixel_nearest (buf (train_X raw) o)) as Hna.
    pose proof (scaled_pixel_nearest (buf (test_X raw) o)) as Hnb.
    rewrite <- Ha in Hna. rewrite <- Hb in Hnb.
    pose proof (uint8_range (buf (train_X raw) o)).
    pose proof (uint8_range (buf (test_X raw) o)).
    repeat split; (assumption || lia).
  - apply Htrain'.
  - apply Htest'.
Qed.

Lemma mnist_preprocessing_C10_witness :
  exists raw d w',
    In (Returned mnist_load_data raw)
       (trace Demo.framework_full (MNIST_cnn.cell_data MNIST_cnn.recorded) 0%nat) /\
    outcome Demo.framework_full (MNIST_cnn.cell_data MNIST_cnn.recorded) 0%nat
    = Ok (d, w') /\
    (forall o,
        0 <= uint8_to_Z (buf (train_X raw) o) <= 255 /\
        buf (MNIST_cnn.X_train d) o = scaled_pixel (buf (train_X raw) o) /\
        nearest_float32 (uint8_to_Z (buf (train_X raw) o)) 255
          (buf (MNIST_cnn.X_train d) o) = true /\
        in_unit_interval (buf (MNIST_cnn.X_train d) o) = true /\
        0 <= uint8_to_Z (buf (test_X raw) o) <= 255 /\
        buf (MNIST_cnn.X_test d) o = scaled_pixel (buf (test_X raw) o) /\
        nearest_float32 (uint8_to_Z (buf (test_X raw) o)) 255
          (buf (MNIST_cnn.X_test d) o) = true /\
        in_unit_interval (buf (MNIST_cnn.X_test d) o) = true) /\
    (shape (train_X raw) = [60000; 28; 28] ->
     shape (MNIST_cnn.X_train d) = [60000; 1; 28; 28] /\
     forall i r c p,
       item (train_X raw) [i; r; c] = Ok p ->
       item (MNIST_cnn.X_train d) [i; 0; r; c] = Ok (scaled_pixel p)) /\
    (shape (test_X raw) = [10000; 28; 28] ->
     shape (MNIST_cnn.X_test d) = [10000; 1; 28; 28] /\
     forall i r c p,
       item (test_X raw) [i; r; c] = Ok p ->
       item (MNIST_cnn.X_test d) [i; 0; r; c] = Ok (scaled_pixel p)).
Proof.
  apply (mnist_preprocessing_C10 nat Demo.framework_full 0%nat MNIST_cnn.recorded).
  - reflexivity.
  - reflexivity.
  - vm_compute. reflexivity.
Defined.

(** Arrays of the sizes of the MNIST files leave the data cell with the
    recorded shapes. *)
Example mnist_full_shapes :
  match outcome Demo.framework_full (MNIST_cnn.cell_data MNIST_cnn.recorded) 0%nat with
  | Ok (d, _) =>
      shape (MNIST_cnn.X_train d) = [60000; 1; 28; 28] /\
      shape (MNIST_cnn.X_test d) = [10000; 1; 28; 28]
  | Err _ => False
  end.
Proof. vm_compute. split; reflexivity. Qed.

(** ** What runs never do *)

Section Partial_runs.

Context {W : Type} (fw : framework W).

Lemma trace_bind {A B} (p : nb A) (f : A -> nb B) (w : W) :
  trace fw (bind p f) w =
  trace fw p w ++ match outcome fw p w with
                  | Ok (a, w') => trace fw (f a) w'
                  | Err _ => []
                  end.
Proof.
  unfold trace, outcome. rewrite run_bind.
  destruct (run fw p w) as [tr [[a w'] | e]]; simpl.
  - destruct (run fw (f a) w'); reflexivity.
  - rewrite app_nil_r. reflexivity.
Qed.

Lemma outcome_runs {R} (p : nb R) w r w' :
  outcome fw p w = Ok (r, w') -> runs_to fw p w (trace fw p w) r w'.
Proof.
  unfold outcome, trace, runs_to.
  destruct (run fw p w) as [tr out]; simpl. intros ->. reflexivity.
Qed.

Lemma never_trace (P : forall X, callE X -> bool) {R} (p : nb R) :
  never P p -> forall w, existsb (attempts P) (trace fw p w) = false.
Proof.
  unfold trace. induction 1 as [r | e | x k Hk IH | X c k Hc Hk IH]; intros w; simpl.
  - reflexivity.
  - reflexivity.
  - specialize (IH w). destruct (run fw k w) as [tr out]. exact IH.
  - destruct (fw X c w) as [[x w'] | e]; simpl.
    + specialize (IH x w'). destruct (run fw (k x) w') as [tr out]; simpl in *.
      rewrite Hc, IH. reflexivity.
    + rewrite Hc. reflexivity.
Qed.

End Partial_runs.

Lemma never_bind (P : forall X, callE X -> bool) {A B} (p : nb A) (f : A -> nb B) :
  never P p -> (forall a, never P (f a)) -> never P (bind p f).
Proof.
  intros Hp Hf. induction Hp; simpl.
  - apply Hf.
  - constructor.
  - constructor. assumption.
  - constructor; [assumption |]. intros x. auto.
Qed.

Lemma never_lift (P : forall X, callE X -> bool) {A} (r : result A) :
  never P (lift r).
Proof. destruct r; constructor. Qed.

Lemma never_call (P : forall X, callE X -> bool) {X} (c : callE X) :
  P X c = false -> never P (call c).
Proof. intros H. constructor; [exact H |]. intros x. constructor. Qed.

Lemma never_assign (P : forall X, callE X -> bool) {A} x (a : A) :
  never P (assign x a).
Proof. repeat constructor. Qed.

Lemma never_for_each (P : forall X, callE X -> bool) {A} x (xs : list A)
      (body : A -> nb unit) :
  (forall a, never P (body a)) -> never P (for_each x xs body).
Proof.
  intros Hb. induction xs as [| a xs IH]; simpl.
  - constructor.
  - constructor. apply never_bind; [apply Hb | intros _; exact IH].
Qed.

(** A program built from calls not selected by [P] never issues one. *)
Ltac never_by_structure :=
  repeat first
    [ apply never_bind; [| intros ?]
    | apply never_lift
    | apply never_assign
    | apply never_call; reflexivity
    | apply never_for_each; intros ?
    | constructor ].

Lemma mnist_train_and_show_never_saves s :
  never is_save_model (MNIST_cnn.train_and_show s).
Proof.
  unfold MNIST_cnn.train_and_show, MNIST_cnn.cell_data, MNIST_cnn.cell_model,
    MNIST_cnn.cell_fit, MNIST_cnn.cell_evaluate, MNIST_cnn.cell_plot_imports,
    MNIST_cnn.cell_show_predictions_def, MNIST_cnn.cell_show,
    MNIST_cnn.show_predictions.
  never_by_structure.
Qed.

Lemma reuters_train_never_saves s :
  never is_save_model (Reuters_MLP.train s).
Proof.
  unfold Reuters_MLP.train, Reuters_MLP.cell_data, Reuters_MLP.cell_model,
    Reuters_MLP.cell_fit, Reuters_MLP.cell_evaluate, Reuters_MLP.hidden_block.
  never_by_structure.
Qed.

Lemma mnist_setup_never_saves :
  never is_save_model MNIST_cnn.cell_imports /\
  never is_save_model MNIST_cnn.cell_constants.
Proof.
  unfold MNIST_cnn.cell_imports, MNIST_cnn.cell_constants.
  split; never_by_structure.
Qed.

Lemma reuters_setup_never_saves :
  never is_save_model Reuters_MLP.cell_imports /\
  never is_save_model Reuters_MLP.cell_constants.
Proof.
  unfold Reuters_MLP.cell_imports, Reuters_MLP.cell_constants.
  split; never_by_structure.
Qed.

Lemma attempted_after {W A B} (fw : framework W) (P : forall X, callE X -> bool)
      (p : nb A) (f : A -> nb B) (w : W) :
  never P p ->
  existsb (attempts P) (trace fw (bind p f) w) = true ->
  exists a w',
    runs_to fw p w (trace fw p w) a w' /\
    trace fw (bind p f) w = trace fw p w ++ trace fw (f a) w' /\
    existsb (attempts P) (trace fw (f a) w') = true.
Proof.
  intros Hp. rewrite trace_bind, existsb_app, (never_trace fw P p Hp w).
  destruct (outcome fw p w) as [[a w'] |] eqn:Hout; simpl; [| discriminate].
  intros H. exists a, w'. split; [apply outcome_runs; exact Hout |].
  split; [reflexivity | exact H].
Qed.

Lemma save_attempted {W} (fw : framework W) (m : model) (path : string) (w : W) :
  existsb (attempts is_save_model) (trace fw (call (save_model m path)) w) = true ->
  exists saved,
    trace fw (call (save_model m path)) w = [saved] /\
    (saved = Returned (save_model m path) tt \/
     exists e, saved = Raised (save_model m path) e).
Proof.
  unfold trace, call. cbn [run].
  destruct (fw _ (save_model m path) w) as [[[] w'] | e]; cbn [fst]; intros _.
  - eexists. split; [reflexivity | left; reflexivity].
  - eexists. split; [reflexivity | right; eexists; reflexivity].
Qed.

Lemma import_then_save_attempted {W} (fw : framework W) (m : model)
      (path : string) (w : W) :
  existsb (attempts is_save_model)
    (trace fw (bind (call (import_ "output_model" ["output_model"]))
                 (fun _ => call (save_model m path))) w) = true ->
  exists saved,
    trace fw (bind (call (import_ "output_model" ["output_model"]))
                (fun _ => call (save_model m path))) w
    = [Returned (import_ "output_model" ["output_model"]) tt; saved] /\
    (saved = Returned (save_model m path) tt \/
     exists e, saved = Raised (save_model m path) e).
Proof.
  intros H. apply attempted_after in H; [| apply never_call; reflexivity].
  destruct H as ([] & w' & Hi & -> & H).
  apply runs_call_inv in Hi. destruct Hi as (_ & ->).
  apply save_attempted in H. destruct H as (saved & -> & Hsaved).
  exists saved. split; [reflexivity | exact Hsaved].
Qed.

(** A run of either notebook, complete or not, attempts [save_model] only
    after every cell above it has completed.  The trace is then the
    imports, the constants, a whole run of the cells that load, build, fit
    and evaluate (and, for MNIST, show a prediction), the import of
    [output_model] and the call of [save_model], which is the last event
    whether it returned or raised; the model it is given is the one model
    the run created, and that model has had its layers added and has been
    compiled, fitted and evaluated. *)
Theorem saved_only_after_training :
  forall (W1 W2 : Type) (fw1 : framework W1) (fw2 : framework W2) w1 w2,
    existsb (attempts is_save_model) (trace fw1 MNIST_cnn.notebook w1) = true ->
    existsb (attempts is_save_model) (trace fw2 Reuters_MLP.notebook w2) = true ->
    (exists a saved,
        MNIST_cnn.glue MNIST_cnn.recorded a /\
        trace fw1 MNIST_cnn.notebook w1
        = MNIST_cnn.import_events ++ map Stored MNIST_cnn.constants
          ++ MNIST_cnn.train_and_show_events MNIST_cnn.recorded a
          ++ [Returned (import_ "output_model" ["output_model"]) tt; saved] /\
        (saved = Returned (save_model (MNIST_cnn.a_model a) "models/MNIST_cnn_model") tt \/
         exists e,
           saved = Raised (save_model (MNIST_cnn.a_model a) "models/MNIST_cnn_model") e) /\
        models_created (MNIST_cnn.train_and_show_events MNIST_cnn.recorded a)
        = [MNIST_cnn.a_model a] /\
        model_ops (MNIST_cnn.a_model a)
          (MNIST_cnn.train_and_show_events MNIST_cnn.recorded a)
        = map OpAdd (MNIST_cnn.stack MNIST_cnn.recorded)
          ++ [OpCompile; OpFit; OpEvaluate; OpPredict]) /\
    (exists a saved,
        Reuters_MLP.glue a /\
        trace fw2 Reuters_MLP.notebook w2
        = Reuters_MLP.import_events ++ map Stored Reuters_MLP.constants
          ++ Reuters_MLP.train_events Reuters_MLP.recorded a
          ++ [Returned (import_ "output_model" ["output_model"]) tt; saved] /\
        (saved = Returned (save_model (Reuters_MLP.a_model a) "models/Reuters_MLP_model") tt \/
         exists e,
           saved = Raised (save_model (Reuters_MLP.a_model a) "models/Reuters_MLP_model") e) /\
        models_created (Reuters_MLP.train_events Reuters_MLP.recorded a)
        = [Reuters_MLP.a_model a] /\
        model_ops (Reuters_MLP.a_model a)
          (Reuters_MLP.train_events Reuters_MLP.recorded a)
        = map OpAdd (Reuters_MLP.stack Reuters_MLP.recorded (Reuters_MLP.a_data a))
          ++ [OpCompile; OpFit; OpEvaluate]).
Proof.
  intros W1 W2 fw1 fw2 w1 w2 H1 H2. split.
  - unfold MNIST_cnn.notebook in *.
    apply attempted_after in H1; [| apply mnist_setup_never_saves].
    destruct H1 as (u & wa & Hi & -> & H1).
    apply mnist_runs_imports in Hi. rewrite Hi.
    apply attempted_after in H1; [| apply mnist_setup_never_saves].
    destruct H1 as (s & wb & Hc & -> & H1).
    apply mnist_runs_constants in Hc. destruct Hc as (-> & -> & ->).
    unfold MNIST_cnn.with_settings in *.
    apply attempted_after in H1; [| apply mnist_train_and_show_never_saves].
    destruct H1 as ([d m] & wc & Ht & -> & H1).
    apply mnist_runs_train_and_show in Ht. destruct Ht as (a & _ & <- & G & ->).
    unfold MNIST_cnn.cell_save in *. cbn [snd] in *.
    apply import_then_save_attempted in H1. destruct H1 as (saved & -> & Hsaved).
    exists a, saved. split; [exact G |]. split; [reflexivity |].
    split; [exact Hsaved |].
    split; [apply mnist_models_created_train_and_show |].
    apply mnist_model_ops_train_and_show.
  - unfold Reuters_MLP.notebook in *.
    apply attempted_after in H2; [| apply reuters_setup_never_saves].
    destruct H2 as (u & wa & Hi & -> & H2).
    apply reuters_runs_imports in Hi. rewrite Hi.
    apply attempted_after in H2; [| apply reuters_setup_never_saves].
    destruct H2 as (s & wb & Hc & -> & H2).
    apply reuters_runs_constants in Hc. destruct Hc as (-> & -> & ->).
    unfold Reuters_MLP.with_settings in *.
    apply attempted_after in H2; [| apply reuters_train_never_saves].
    destruct H2 as ([d m] & wc & Ht & -> & H2).
    apply reuters_runs_train in Ht. destruct Ht as (a & _ & <- & G & ->).
    unfold Reuters_MLP.cell_import_output_model, Reuters_MLP.cell_save in *.
    cbn [snd] in *.
    apply import_then_save_attempted in H2. destruct H2 as (saved & -> & Hsaved).
    exists a, saved. split; [exact G |]. split; [reflexivity |].
    split; [exact Hsaved |].
    split; [apply reuters_models_created_train |].
    apply reuters_model_ops_train.
Qed.

Lemma saved_only_after_training_witness :
  (exists a saved,
      MNIST_cnn.glue MNIST_cnn.recorded a /\
      trace Demo.framework_small MNIST_cnn.notebook 0%nat
      = MNIST_cnn.import_events ++ map Stored MNIST_cnn.constants
        ++ MNIST_cnn.train_and_show_events MNIST_cnn.recorded a
        ++ [Returned (import_ "output_model" ["output_model"]) tt; saved] /\
      (saved = Returned (save_model (MNIST_cnn.a_model a) "models/MNIST_cnn_model") tt \/
       exists e,
         saved = Raised (save_model (MNIST_cnn.a_model a) "models/MNIST_cnn_model") e) /\
      models_created (MNIST_cnn.train_and_show_events MNIST_cnn.recorded a)
      = [MNIST_cnn.a_model a] /\
      model_ops (MNIST_cnn.a_model a)
        (MNIST_cnn.train_and_show_events MNIST_cnn.recorded a)
      = map OpAdd (MNIST_cnn.stack MNIST_cnn.recorded)
        ++ [OpCompile; OpFit; OpEvaluate; OpPredict]) /\
  (exists a saved,
      Reuters_MLP.glue a /\
      trace Demo.framework_small Reuters_MLP.notebook 0%nat
      = Reuters_MLP.import_events ++ map Stored Reuters_MLP.constants
        ++ Reuters_MLP.train_events Reuters_MLP.recorded a
        ++ [Returned (import_ "output_model" ["output_model"]) tt; saved] /\
      (saved = Returned (save_model (Reuters_MLP.a_model a) "models/Reuters_MLP_model") tt \/
       exists e,
         saved = Raised (save_model (Reuters_MLP.a_model a) "models/Reuters_MLP_model") e) /\
      models_created (Reuters_MLP.train_events Reuters_MLP.recorded a)
      = [Reuters_MLP.a_model a] /\
      model_ops (Reuters_MLP.a_model a)
        (Reuters_MLP.train_events Reuters_MLP.recorded a)
      = map OpAdd (Reuters_MLP.stack Reuters_MLP.recorded (Reuters_MLP.a_data a))
        ++ [OpCompile; OpFit; OpEvaluate]).
Proof.
  apply (saved_only_after_training nat nat Demo.framework_small Demo.framework_small
           0%nat 0%nat); vm_compute; reflexivity.
Defined.

(** ** The sample [show_predictions] draws *)

Lemma slice_sample_valid {A} (X : ndarray A) (n h w i : Z) :
  shape X = [n; 1; h; w] -> 0 <= i < n ->
  exists X',
    slice_sample X i = Ok X' /\
    shape X' = [1; 1; h; w] /\
    forall o, 0 <= o < h * w -> buf X' o = buf X (i * (h * w) + o).
Proof.
  intros Hs Hi. unfold slice_sample. rewrite Hs.
  unfold py_slice_bounds, py_slice_clamp.
  destruct (Z.ltb_spec i 0) as [? | _]; [lia |].
  destruct (Z.ltb_spec (i + 1) 0) as [? | _]; [lia |].
  eexists. split; [reflexivity |]. split.
  - simpl shape. f_equal; lia.
  - intros o Ho. simpl buf.
    replace (Z.min 1 (Z.max 1 0)) with 1 by reflexivity.
    replace (1 * h * w) with (h * w) by lia.
    rewrite Z.div_small, Z.mod_small by lia.
    f_equal. rewrite Z.min_l by lia. lia.
Qed.

Lemma slice_sample_last_is_empty {A} (X X' : ndarray A) :
  slice_sample X (-1) = Ok X' -> exists c h w, shape X' = [0; c; h; w].
Proof.
  unfold slice_sample.
  destruct (shape X) as [| n [| c [| h [| w [| ? ?]]]]]; try discriminate.
  unfold py_slice_bounds, py_slice_clamp. simpl.
  intros E. injection E as <-. simpl.
  eexists _, _, _. do 1 f_equal. lia.
Qed.

Lemma first_plane_needs_a_sample {A} (X : ndarray A) c h w :
  shape X = [0; c; h; w] -> first_plane X = Err IndexError.
Proof. intros Hs. unfold first_plane. rewrite Hs. reflexivity. Qed.

(** [show_predictions(-1)] fails whatever the framework answers, and no
    image is drawn: [X_test[-1:0, :1]] is an empty batch, so the only batch
    [predict_proba] can be given is empty, and once [plt.subplots] has
    returned the exception is the [IndexError] of [X[0, 0]]. *)
Theorem show_predictions_minus_one_fails :
  forall (W : Type) (fw : framework W) (w : W) (d : MNIST_cnn.data) (m : model),
    exists e,
      outcome fw (MNIST_cnn.show_predictions d m (-1)) w = Err e /\
      existsb (attempts is_imshow)
        (trace fw (MNIST_cnn.show_predictions d m (-1)) w) = false /\
      (forall X, In X (predicted_batches
                         (trace fw (MNIST_cnn.show_predictions d m (-1)) w)) ->
                 exists c h w0, shape X = [0; c; h; w0]) /\
      (forall ax, In (Returned (plt_subplots 1 1) ax)
                     (trace fw (MNIST_cnn.show_predictions d m (-1)) w) ->
                  e = IndexError).
Proof.
  intros W fw w d m.
  unfold MNIST_cnn.show_predictions, trace, outcome.
  destruct (slice_sample (MNIST_cnn.X_test d) (-1)) as [X | e0] eqn:Hslice;
    cbn [lift bind run fst snd call];
    [| exists e0; repeat split; (reflexivity || intros ? []) ].
  pose proof (slice_sample_last_is_empty _ _ Hslice) as (c & h & w0 & Hshape).
  rewrite (first_plane_needs_a_sample X c h w0 Hshape).
  destruct (fw _ (model_predict_proba m X) w) as [[probs w1] | e1];
    [| exists e1; repeat split;
       [ intros ? []
       | intros ? [E | []]; discriminate E ] ].
  destruct (py_getitem probs 0) as [digit_probs | e2]; cbn [lift bind run fst snd];
    [| exists e2; repeat split;
       [ intros ? [<- | []]; eauto
       | intros ? [E | []]; discriminate E ] ].
  destruct (np_argmax digit_probs) as [idx | e3]; cbn [lift bind run fst snd];
    [| exists e3; repeat split;
       [ intros ? [<- | []]; eauto
       | intros ? [E | []]; discriminate E ] ].
  destruct (py_getitem (rows (MNIST_cnn.Y_test d)) (-1)) as [row | e4];
    cbn [lift bind run fst snd];
    [| exists e4; repeat split;
       [ intros ? [<- | []]; eauto
       | intros ? [E | []]; discriminate E ] ].
  destruct (np_argmax row) as [actual | e5]; cbn [lift bind run fst snd];
    [| exists e5; repeat split;
       [ intros ? [<- | []]; eauto
       | intros ? [E | []]; discriminate E ] ].
  destruct (fw _ (plt_subplots 1 1) w1) as [[ax w2] | e6];
    cbn [lift bind run fst snd].
  - exists IndexError. repeat split.
    intros ? [<- | []]; eauto.
  - exists e6. repeat split.
    + intros ? [<- | []]; eauto.
    + intros ? [E | [E | []]]; discriminate E.
Qed.

(** With the small framework the run ends in [IndexError], after the
    prediction and the subplot have been made. *)
Example show_predictions_minus_one_demo :
  match outcome Demo.framework_small (MNIST_cnn.train_and_show MNIST_cnn.recorded) 0%nat with
  | Ok (d, m, w) =>
      outcome Demo.framework_small (MNIST_cnn.show_predictions d m (-1)) w
      = Err IndexError /\
      length (trace Demo.framework_small (MNIST_cnn.show_predictions d m (-1)) w)
      = 2%nat
  | Err _ => False
  end.
Proof. vm_compute. repeat split; reflexivity. Qed.

Lemma in_bounds_3 n h w i r c :
  in_bounds [n; h; w] [i; r; c] = true ->
  0 <= i < n /\ 0 <= r < h /\ 0 <= c < w.
Proof.
  simpl. rewrite !andb_true_iff, !Z.leb_le, !Z.ltb_lt. lia.
Qed.

(** In a completed run of the MNIST cells [predict_proba] is given one batch
    and [imshow] one image.  When the test images were loaded with shape
    (n, img_rows, img_cols) and the sample index [i] that [randint] returned
    is in [0, n), the batch has shape (1, 1, img_rows, img_cols) and the
    image drawn is test image [i]: its entry at [r, c] is the loaded pixel
    at [i, r, c], scaled. *)
Theorem shown_image_is_the_sample :
  forall (W : Type) (fw : framework W) (w : W) (s : MNIST_cnn.settings),
    completes fw (MNIST_cnn.train_and_show s) w = true ->
    exists raw n i X img,
      In (Returned mnist_load_data raw) (trace fw (MNIST_cnn.train_and_show s) w) /\
      In (Returned (np_random_randint n) i) (trace fw (MNIST_cnn.train_and_show s) w) /\
      predicted_batches (trace fw (MNIST_cnn.train_and_show s) w) = [X] /\
      images_shown (trace fw (MNIST_cnn.train_and_show s) w) = [img] /\
      (forall n', shape (test_X raw) = [n'; MNIST_cnn.img_rows s; MNIST_cnn.img_cols s] ->
         n = n' /\
         (0 <= i < n ->
          shape X = [1; 1; MNIST_cnn.img_rows s; MNIST_cnn.img_cols s] /\
          shape img = [MNIST_cnn.img_rows s; MNIST_cnn.img_cols s] /\
          forall r c p,
            item (test_X raw) [i; r; c] = Ok p ->
            item img [r; c] = Ok (scaled_pixel p))).
Proof.
  intros W fw w s H.
  apply completes_runs in H. destruct H as ([d m] & w' & H).
  apply mnist_runs_train_and_show in H. destruct H as (a & _ & _ & G & ->).
  destruct G as (Hp & _ & _ & Hs).
  destruct Hp as (_ & (X2 & HX2 & EX) & _ & _ & _ & _ & _ & Hn).
  destruct Hs as (Hslice & _ & _ & Hplane).
  exists (MNIST_cnn.a_raw a), (MNIST_cnn.a_n_test a), (MNIST_cnn.a_sample a),
    (MNIST_cnn.a_X a), (MNIST_cnn.a_img a).
  unfold MNIST_cnn.train_and_show_events.
  split; [in_events |]. split; [in_events |].
  split; [reflexivity |]. split; [reflexivity |].
  intros n' Hraw.
  destruct (reshape_images_inv s _ X2 HX2) as (Hbuf & _).
  pose proof (reshape_images_same_shape s _ X2 n' HX2 Hraw) as Hs2.
  assert (Hshape : shape (MNIST_cnn.X_test (MNIST_cnn.a_data a))
                   = [n'; 1; MNIST_cnn.img_rows s; MNIST_cnn.img_cols s])
    by (rewrite EX; exact Hs2).
  assert (Hnn : MNIST_cnn.a_n_test a = n').
  { unfold shape0 in Hn. rewrite Hshape, py_getitem_nonneg in Hn by lia.
    simpl in Hn. congruence. }
  split; [exact Hnn |]. rewrite Hnn. intros Hi.
  destruct (slice_sample_valid _ _ _ _ _ Hshape Hi) as (X' & HX' & HsX & HbX).
  rewrite HX' in Hslice. injection Hslice as Hslice. subst X'.
  unfold first_plane in Hplane. rewrite HsX in Hplane. simpl in Hplane.
  injection Hplane as Himg.
  split; [exact HsX |]. split; [rewrite <- Himg; reflexivity |].
  intros r c p Hitem. unfold item in Hitem. rewrite Hraw in Hitem.
  destruct (in_bounds [n'; MNIST_cnn.img_rows s; MNIST_cnn.img_cols s]
              [MNIST_cnn.a_sample a; r; c]) eqn:Eb; [| discriminate].
  injection Hitem as <-.
  apply in_bounds_3 in Eb. destruct Eb as (_ & Hr & Hc).
  unfold item. rewrite <- Himg. simpl shape. simpl buf.
  replace (in_bounds [MNIST_cnn.img_rows s; MNIST_cnn.img_cols s] [r; c]) with true
    by (symmetry; simpl; rewrite !andb_true_iff, !Z.leb_le, !Z.ltb_lt; lia).
  f_equal.
  assert (Hrc : r * MNIST_cnn.img_cols s
                <= (MNIST_cnn.img_rows s - 1) * MNIST_cnn.img_cols s)
    by (apply Z.mul_le_mono_nonneg_r; lia).
  assert (0 <= r * MNIST_cnn.img_cols s) by (apply Z.mul_nonneg_nonneg; lia).
  rewrite HbX by lia.
  rewrite EX. simpl buf. unfold scaled_pixel. rewrite Hbuf.
  do 3 f_equal. f_equal. lia.
Qed.

Lemma shown_image_is_the_sample_witness :
    exists raw n i X img,
      In (Returned mnist_load_data raw) (trace Demo.framework_small (MNIST_cnn.train_and_show MNIST_cnn.recorded) 0%nat) /\
      In (Returned (np_random_randint n) i) (trace Demo.framework_small (MNIST_cnn.train_and_show MNIST_cnn.recorded) 0%nat) /\
      predicted_batches (trace Demo.framework_small (MNIST_cnn.train_and_show MNIST_cnn.recorded) 0%nat) = [X] /\
      images_shown (trace Demo.framework_small (MNIST_cnn.train_and_show MNIST_cnn.recorded) 0%nat) = [img] /\
      (forall n', shape (test_X raw) = [n'; MNIST_cnn.img_rows MNIST_cnn.recorded; MNIST_cnn.img_cols MNIST_cnn.recorded] ->
         n = n' /\
         (0 <= i < n ->
          shape X = [1; 1; MNIST_cnn.img_rows MNIST_cnn.recorded; MNIST_cnn.img_cols MNIST_cnn.recorded] /\
          shape img = [MNIST_cnn.img_rows MNIST_cnn.recorded; MNIST_cnn.img_cols MNIST_cnn.recorded] /\
          forall r c p,
            item (test_X raw) [i; r; c] = Ok p ->
            item img [r; c] = Ok (scaled_pixel p))).
Proof.
  apply (shown_image_is_the_sample nat Demo.framework_small 0%nat MNIST_cnn.recorded).
  vm_compute. reflexivity.
Defined.

(** ** Labels the one-hot encoding accepts *)

Lemma one_hot_row_Ok nb_classes c row :
  one_hot_row nb_classes c = Ok row ->
  - nb_classes <= c < nb_classes /\ length row = Z.to_nat nb_classes.
Proof.
  unfold one_hot_row.
  set (j := if c <? 0 then c + nb_classes else c).
  destruct (Z.leb_spec 0 j) as [Hj0 | ?]; [| discriminate].
  destruct (Z.ltb_spec j nb_classes) as [Hjn | ?]; [| discriminate].
  simpl andb. cbv iota. intros E. injection E as <-.
  split.
  - subst j. destruct (Z.ltb_spec c 0); lia.
  - rewrite length_insert, length_replicate. reflexivity.
Qed.

Lemma one_hot_rows_Ok nb_classes y rs :
  one_hot_rows nb_classes y = Ok rs ->
  Forall (fun c => - nb_classes <= c < nb_classes) y /\
  Forall (fun row => length row = Z.to_nat nb_classes) rs.
Proof.
  revert rs. induction y as [| c y IH]; intros rs; simpl.
  - intros E. injection E as <-. split; constructor.
  - destruct (one_hot_row nb_classes c) as [r | e] eqn:Er; [| discriminate].
    destruct (one_hot_rows nb_classes y) as [rs' | e]; [| discriminate].
    intros E. injection E as <-.
    destruct (one_hot_row_Ok _ _ _ Er) as (Hc & Hr).
    destruct (IH rs' eq_refl) as (Hy & Hrs).
    split; constructor; assumption.
Qed.

Lemma to_categorical_Ok y nb_classes Y :
  nb_classes <> 0 ->
  to_categorical y nb_classes = Ok Y ->
  0 < nb_classes /\ ncols Y = nb_classes /\
  one_hot_rows nb_classes y = Ok (rows Y).
Proof.
  intros Hn. unfold to_categorical.
  destruct (Z.eqb_spec nb_classes 0) as [? | _]; [contradiction |].
  destruct (Z.ltb_spec nb_classes 0) as [? | Hpos]; [discriminate |].
  destruct (one_hot_rows nb_classes y) as [rs | e]; [| discriminate].
  intros E. injection E as <-. simpl. repeat split; lia.
Qed.

Lemma counted_classes_positive y nb_classes Y :
  Reuters_MLP.count_classes y = Ok nb_classes ->
  to_categorical y nb_classes = Ok Y ->
  0 < nb_classes.
Proof.
  unfold Reuters_MLP.count_classes, to_categorical.
  destruct y as [| x y]; [discriminate |].
  destruct (np_max (x :: y)) as [m | e]; [| discriminate].
  intros E. injection E as E.
  rewrite E.
  replace (if nb_classes =? 0 then Ok nb_classes else Ok nb_classes)
    with (@Ok Z nb_classes) by (destruct (nb_classes =? 0); reflexivity).
  destruct (Z.ltb_spec nb_classes 0) as [? | Hpos]; [discriminate |].
  destruct (one_hot_rows nb_classes (x :: y)) as [rs | e] eqn:Ers; [| discriminate].
  intros _. apply one_hot_rows_Ok in Ers. destruct Ers as (Hy & _).
  inversion Hy; subst. lia.
Qed.

(** In a completed run of the Reuters data cell the number of classes is
    positive, it is [np.max(y_train)+1], the one-hot matrices have one row
    per label and that many columns, these are the shapes the cell prints,
    and every test label is a valid column index: a test label above the
    largest training label would have raised. *)
Theorem reuters_label_matrices :
  forall (W : Type) (fw : framework W) (w : W) (s : Reuters_MLP.settings),
    completes fw (Reuters_MLP.cell_data s) w = true ->
    exists raw d w' largest,
      In (Returned (reuters_load_data (Reuters_MLP.max_words s)
                      (Float.dec float64 2 1)) raw)
         (trace fw (Reuters_MLP.cell_data s) w) /\
      outcome fw (Reuters_MLP.cell_data s) w = Ok (d, w') /\
      np_max (train_y raw) = Ok largest /\
      Reuters_MLP.nb_classes d = wrap64 (largest + 1) /\
      0 < Reuters_MLP.nb_classes d /\
      matrix_shape (Reuters_MLP.Y_train d)
      = [Z.of_nat (length (train_y raw)); Reuters_MLP.nb_classes d] /\
      matrix_shape (Reuters_MLP.Y_test d)
      = [Z.of_nat (length (test_y raw)); Reuters_MLP.nb_classes d] /\
      In [PStr "Y_train shape:";
          PTuple [Z.of_nat (length (train_y raw)); Reuters_MLP.nb_classes d]]
         (printed (trace fw (Reuters_MLP.cell_data s) w)) /\
      In [PStr "Y_test shape:";
          PTuple [Z.of_nat (length (test_y raw)); Reuters_MLP.nb_classes d]]
         (printed (trace fw (Reuters_MLP.cell_data s) w)) /\
      Forall (fun l => - Reuters_MLP.nb_classes d <= l < Reuters_MLP.nb_classes d)
             (test_y raw).
Proof.
  intros W fw w s H.
  apply completes_runs in H. destruct H as (d & w' & H).
  destruct (runs_trace _ _ _ _ _ _ H) as (_ & Hout).
  apply reuters_runs_data in H.
  destruct H as (raw & _ & _ & Hc & HY1 & HY2 & ->).
  pose proof (counted_classes_positive _ _ _ Hc HY1) as Hpos.
  assert (Hne : Reuters_MLP.nb_classes d <> 0) by lia.
  destruct (to_categorical_Ok _ _ _ Hne HY1) as (_ & Hcols1 & Hrows1).
  destruct (to_categorical_Ok _ _ _ Hne HY2) as (_ & Hcols2 & Hrows2).
  assert (Hs1 : matrix_shape (Reuters_MLP.Y_train d)
                = [Z.of_nat (length (train_y raw)); Reuters_MLP.nb_classes d])
    by (unfold matrix_shape;
        rewrite Hcols1, (one_hot_rows_length _ _ _ Hrows1); reflexivity).
  assert (Hs2 : matrix_shape (Reuters_MLP.Y_test d)
                = [Z.of_nat (length (test_y raw)); Reuters_MLP.nb_classes d])
    by (unfold matrix_shape;
        rewrite Hcols2, (one_hot_rows_length _ _ _ Hrows2); reflexivity).
  unfold Reuters_MLP.count_classes in Hc.
  destruct (np_max (train_y raw)) as [largest | e] eqn:Hmax; [| discriminate].
  injection Hc as Hc.
  exists raw, d, w', largest.
  split; [unfold Reuters_MLP.data_events; in_events |].
  split; [exact Hout |]. split; [exact Hmax |]. split; [congruence |].
  split; [exact Hpos |]. split; [exact Hs1 |]. split; [exact Hs2 |].
  split; [| split].
  - rewrite <- Hs1. unfold Reuters_MLP.data_events. in_events.
  - rewrite <- Hs2. unfold Reuters_MLP.data_events. in_events.
  - apply (one_hot_rows_Ok _ _ _ Hrows2).
Qed.

Lemma reuters_label_matrices_witness :
    exists raw d w' largest,
      In (Returned (reuters_load_data (Reuters_MLP.max_words Reuters_MLP.recorded)
                      (Float.dec float64 2 1)) raw)
         (trace Demo.framework_small (Reuters_MLP.cell_data Reuters_MLP.recorded) 0%nat) /\
      outcome Demo.framework_small (Reuters_MLP.cell_data Reuters_MLP.recorded) 0%nat = Ok (d, w') /\
      np_max (train_y raw) = Ok largest /\
      Reuters_MLP.nb_classes d = wrap64 (largest + 1) /\
      0 < Reuters_MLP.nb_classes d /\
      matrix_shape (Reuters_MLP.Y_train d)
      = [Z.of_nat (length (train_y raw)); Reuters_MLP.nb_classes d] /\
      matrix_shape (Reuters_MLP.Y_test d)
      = [Z.of_nat (length (test_y raw)); Reuters_MLP.nb_classes d] /\
      In [PStr "Y_train shape:";
          PTuple [Z.of_nat (length (train_y raw)); Reuters_MLP.nb_classes d]]
         (printed (trace Demo.framework_small (Reuters_MLP.cell_data Reuters_MLP.recorded) 0%nat)) /\
      In [PStr "Y_test shape:";
          PTuple [Z.of_nat (length (test_y raw)); Reuters_MLP.nb_classes d]]
         (printed (trace Demo.framework_small (Reuters_MLP.cell_data Reuters_MLP.recorded) 0%nat)) /\
      Forall (fun l => - Reuters_MLP.nb_classes d <= l < Reuters_MLP.nb_classes d)
             (test_y raw).
Proof.
  apply (reuters_label_matrices nat Demo.framework_small 0%nat Reuters_MLP.recorded).
  vm_compute. reflexivity.
Defined.

(** ** An empty training set *)

Section Provenance.

Context {W : Type} (fw : framework W).

(** Every value in a trace was returned by the framework. *)
Lemma returned_by_framework {R} (p : nb R) (w : W) (e : ev) :
  In e (trace fw p w) ->
  match e with
  | Returned c x => exists w1 w2, fw _ c w1 = Ok (x, w2)
  | _ => True
  end.
Proof.
  unfold trace. revert w.
  induction p as [r | e0 | x k IH | X c k IH]; intros w; simpl.
  - intros [].
  - intros [].
  - specialize (IH w). destruct (run fw k w) as [tr out]; simpl in *.
    intros [<- | Hin]; [exact I | exact (IH Hin)].
  - destruct (fw X c w) as [[x w'] | e1] eqn:Hc; simpl.
    + specialize (IH x w'). destruct (run fw (k x) w') as [tr out]; simpl in *.
      intros [<- | Hin]; [eauto | exact (IH Hin)].
    + intros [<- | []]. exact I.
Qed.

Lemma not_attempted_step {A B} (P : forall X, callE X -> bool)
      (p : nb A) (f : A -> nb B) (w : W) :
  never P p ->
  (forall a w', runs_to fw p w (trace fw p w) a w' ->
                existsb (attempts P) (trace fw (f a) w') = false) ->
  existsb (attempts P) (trace fw (bind p f) w) = false.
Proof.
  intros Hp Hf. rewrite trace_bind, existsb_app, (never_trace fw P p Hp w).
  destruct (outcome fw p w) as [[a w'] |] eqn:Hout; simpl; [| reflexivity].
  apply Hf. apply outcome_runs. exact Hout.
Qed.

End Provenance.

(** When the Reuters loader returns no training labels the data cell cannot
    complete: [np.max(y_train)] raises on the empty vector, before the
    tokenizer is created. *)
Theorem reuters_needs_training_labels :
  forall (W : Type) (fw : framework W) (w : W) (s : Reuters_MLP.settings),
    (forall nb_words test_split w1 raw w2,
        fw _ (reuters_load_data nb_words test_split) w1 = Ok (raw, w2) ->
        train_y raw = []) ->
    completes fw (Reuters_MLP.cell_data s) w = false /\
    existsb (attempts is_Tokenizer) (trace fw (Reuters_MLP.cell_data s) w) = false.
Proof.
  intros W fw w s Hempty. split.
  - destruct (completes fw (Reuters_MLP.cell_data s) w) eqn:H; [| reflexivity].
    apply completes_runs in H. destruct H as (d & w' & H).
    pose proof (returned_by_framework fw (Reuters_MLP.cell_data s) w) as Hfrom.
    apply reuters_runs_data in H.
    destruct H as (raw & _ & _ & Hc & _ & _ & Htr).
    specialize (Hfrom (Returned (reuters_load_data (Reuters_MLP.max_words s)
                                   (Float.dec float64 2 1)) raw)).
    destruct Hfrom as (w1 & w2 & Hcall);
      [rewrite Htr; unfold Reuters_MLP.data_events; in_events |].
    rewrite (Hempty _ _ _ _ _ Hcall) in Hc. discriminate.
  - unfold Reuters_MLP.cell_data.
    apply not_attempted_step; [never_by_structure |]. intros u w1 _.
    apply not_attempted_step; [never_by_structure |]. intros d w2 Hload.
    apply runs_call_inv in Hload. destruct Hload as (Hload & _).
    apply Hempty in Hload.
    do 4 (apply not_attempted_step; [never_by_structure |];
          intros ? ? Hrun; apply runs_assign_inv in Hrun;
          destruct Hrun as (_ & -> & ->)).
    do 2 (apply not_attempted_step; [never_by_structure |]; intros ? ? _).
    rewrite Hload. reflexivity.
Qed.

Lemma reuters_needs_training_labels_witness :
  completes Demo.no_newswires (Reuters_MLP.cell_data Reuters_MLP.recorded) 0%nat = false /\
  existsb (attempts is_Tokenizer)
    (trace Demo.no_newswires (Reuters_MLP.cell_data Reuters_MLP.recorded) 0%nat) = false.
Proof.
  apply (reuters_needs_training_labels nat Demo.no_newswires 0%nat Reuters_MLP.recorded).
  intros nb_words test_split w1 raw w2 H. simpl in H.
  injection H as <- _. reflexivity.
Defined.

(** With the small framework the run stops with [ValueError] after the two
    counts have been printed. *)
Example reuters_no_newswires_demo :
  outcome Demo.no_newswires Reuters_MLP.notebook 0%nat = Err ValueError /\
  printed (trace Demo.no_newswires Reuters_MLP.notebook 0%nat)
  = [ [PStr "Loading data..."];
      [PInt 0; PStr "train sequences"];
      [PInt 0; PStr "test sequences"] ].
Proof. vm_compute. split; reflexivity. Qed.

(** ** The MNIST data cell *)

Lemma one_unknown_dimension s X X1 :
  MNIST_cnn.reshape_images s X = Ok X1 ->
  ~ (MNIST_cnn.img_rows s < 0 /\ MNIST_cnn.img_cols s < 0).
Proof.
  intros H (Hr & Hc).
  destruct (reshape_images_inv _ _ _ H) as (_ & _ & n & rest & q & _ & _ & Hq).
  revert Hq. cbn [List.filter].
  change (1 <? 0) with false. cbn iota.
  destruct (Z.ltb_spec (MNIST_cnn.img_rows s) 0); [| lia].
  destruct (Z.ltb_spec (MNIST_cnn.img_cols s) 0); [| lia].
  destruct (n <? 0); intros Hq; (destruct Hq as (Hone & _); [discriminate |]);
    discriminate Hone.
Qed.

Lemma reshaped_images s (X X1 : ndarray Byte.byte) n h c :
  MNIST_cnn.reshape_images s X = Ok X1 ->
  shape X = [n; h; c] -> 0 < n ->
  exists r c',
    shape X1 = [n; 1; r; c'] /\
    (0 <= MNIST_cnn.img_rows s -> r = MNIST_cnn.img_rows s) /\
    (0 <= MNIST_cnn.img_cols s -> c' = MNIST_cnn.img_cols s) /\
    r * c' = h * c.
Proof.
  intros H Hs Hn.
  destruct (reshape_images_inv _ _ _ H) as (_ & Hsize & n0 & rest & q & Hs0 & Hs1 & _).
  rewrite Hs in Hs0. injection Hs0 as <- <-.
  unfold size in Hsize. rewrite Hs1, Hs in Hsize.
  revert Hs1 Hsize. cbn [map].
  change (1 <? 0) with false. cbn iota.
  destruct (Z.ltb_spec n 0) as [? | _]; [lia |].
  intros Hs1 Hsize. cbn [prod_shape fold_right] in Hsize.
  eexists _, _. split; [exact Hs1 |].
  split; [destruct (Z.ltb_spec (MNIST_cnn.img_rows s) 0); [lia | reflexivity] |].
  split; [destruct (Z.ltb_spec (MNIST_cnn.img_cols s) 0); [lia | reflexivity] |].
  apply (Z.mul_reg_l _ _ n); lia.
Qed.

(** A completed run of the MNIST data cell reshaped both image arrays
    without changing their number of entries, and at most one of [img_rows]
    and [img_cols] is negative.  Images loaded with shape (n, h, w), n
    positive, leave the cell with shape (n, 1, r, c) where r * c = h * w, r
    is [img_rows] unless that is negative and c is [img_cols] unless that is
    negative: a negative setting is inferred, and images that cannot be cut
    this way make [reshape] raise. *)
Theorem mnist_images_fit_the_settings :
  forall (W : Type) (fw : framework W) (w : W) (s : MNIST_cnn.settings),
    completes fw (MNIST_cnn.cell_data s) w = true ->
    exists raw d w',
      In (Returned mnist_load_data raw) (trace fw (MNIST_cnn.cell_data s) w) /\
      outcome fw (MNIST_cnn.cell_data s) w = Ok (d, w') /\
      size (MNIST_cnn.X_train d) = size (train_X raw) /\
      size (MNIST_cnn.X_test d) = size (test_X raw) /\
      ~ (MNIST_cnn.img_rows s < 0 /\ MNIST_cnn.img_cols s < 0) /\
      (forall n h c, shape (train_X raw) = [n; h; c] -> 0 < n ->
         exists r c',
           shape (MNIST_cnn.X_train d) = [n; 1; r; c'] /\
           (0 <= MNIST_cnn.img_rows s -> r = MNIST_cnn.img_rows s) /\
           (0 <= MNIST_cnn.img_cols s -> c' = MNIST_cnn.img_cols s) /\
           r * c' = h * c) /\
      (forall n h c, shape (test_X raw) = [n; h; c] -> 0 < n ->
         exists r c',
           shape (MNIST_cnn.X_test d) = [n; 1; r; c'] /\
           (0 <= MNIST_cnn.img_rows s -> r = MNIST_cnn.img_rows s) /\
           (0 <= MNIST_cnn.img_cols s -> c' = MNIST_cnn.img_cols s) /\
           r * c' = h * c).
Proof.
  intros W fw w s H.
  apply completes_runs in H. destruct H as (d & w' & H).
  destruct (runs_trace _ _ _ _ _ _ H) as (_ & Hout).
  apply mnist_runs_data in H. destruct H as (raw & n_train & n_test & Hp & ->).
  destruct Hp as ((X1 & HX1 & E1) & (X2 & HX2 & E2) & _).
  destruct (reshape_images_inv _ _ _ HX1) as (_ & Hs1 & _).
  destruct (reshape_images_inv _ _ _ HX2) as (_ & Hs2 & _).
  exists raw, d, w'.
  split; [unfold MNIST_cnn.data_events; in_events |].
  split; [exact Hout |].
  split; [rewrite E1; exact Hs1 |]. split; [rewrite E2; exact Hs2 |].
  split; [exact (one_unknown_dimension _ _ _ HX1) |].
  split; intros n h c Hs Hn.
  - rewrite E1. exact (reshaped_images _ _ _ _ _ _ HX1 Hs Hn).
  - rewrite E2. exact (reshaped_images _ _ _ _ _ _ HX2 Hs Hn).
Qed.

Lemma mnist_images_fit_the_settings_witness :
    exists raw d w',
      In (Returned mnist_load_data raw)
         (trace Demo.framework_small (MNIST_cnn.cell_data MNIST_cnn.recorded) 0%nat) /\
      outcome Demo.framework_small (MNIST_cnn.cell_data MNIST_cnn.recorded) 0%nat
      = Ok (d, w') /\
      size (MNIST_cnn.X_train d) = size (train_X raw) /\
      size (MNIST_cnn.X_test d) = size (test_X raw) /\
      ~ (MNIST_cnn.img_rows MNIST_cnn.recorded < 0 /\
         MNIST_cnn.img_cols MNIST_cnn.recorded < 0) /\
      (forall n h c, shape (train_X raw) = [n; h; c] -> 0 < n ->
         exists r c',
           shape (MNIST_cnn.X_train d) = [n; 1; r; c'] /\
           (0 <= MNIST_cnn.img_rows MNIST_cnn.recorded ->
            r = MNIST_cnn.img_rows MNIST_cnn.recorded) /\
           (0 <= MNIST_cnn.img_cols MNIST_cnn.recorded ->
            c' = MNIST_cnn.img_cols MNIST_cnn.recorded) /\
           r * c' = h * c) /\
      (forall n h c, shape (test_X raw) = [n; h; c] -> 0 < n ->
         exists r c',
           shape (MNIST_cnn.X_test d) = [n; 1; r; c'] /\
           (0 <= MNIST_cnn.img_rows MNIST_cnn.recorded ->
            r = MNIST_cnn.img_rows MNIST_cnn.recorded) /\
           (0 <= MNIST_cnn.img_cols MNIST_cnn.recorded ->
            c' = MNIST_cnn.img_cols MNIST_cnn.recorded) /\
           r * c' = h * c).
Proof.
  apply (mnist_images_fit_the_settings nat Demo.framework_small 0%nat
           MNIST_cnn.recorded).
  vm_compute. reflexivity.
Defined.

(** With [img_rows = -1] the rows are inferred: 14x56 images leave the
    cell as 28 rows of 28 columns. *)
Example mnist_inferred_rows :
  let s := {| MNIST_cnn.batch_size := 128; MNIST_cnn.nb_classes := 10;
              MNIST_cnn.nb_epoch := 12; MNIST_cnn.img_rows := -1;
              MNIST_cnn.img_cols := 28; MNIST_cnn.nb_filters := 32;
              MNIST_cnn.nb_pool := 2; MNIST_cnn.nb_conv := 3;
              MNIST_cnn.conv_dropout := MNIST_cnn.conv_dropout MNIST_cnn.recorded;
              MNIST_cnn.dens_dropout := MNIST_cnn.dens_dropout MNIST_cnn.recorded;
              MNIST_cnn.nb_hidden := 128 |} in
  let X := {| shape := [5; 14; 56]; buf := fun _ => Byte.x00 |} in
  option_map shape
    (match MNIST_cnn.reshape_images s X with Ok X1 => Some X1 | Err _ => None end)
  = Some [5; 1; 28; 28].
Proof. vm_compute. reflexivity. Qed.

(** When [nb_classes] is not 0, a completed run of the MNIST data cell had
    [nb_classes] positive and every training and test label in
    [-nb_classes, nb_classes); both one-hot matrices have one row per label,
    each of [nb_classes] entries.  A label outside that range makes
    [to_categorical] raise. *)
Theorem mnist_labels_are_classes :
  forall (W : Type) (fw : framework W) (w : W) (s : MNIST_cnn.settings),
    MNIST_cnn.nb_classes s <> 0 ->
    completes fw (MNIST_cnn.cell_data s) w = true ->
    exists raw d w',
      In (Returned mnist_load_data raw) (trace fw (MNIST_cnn.cell_data s) w) /\
      outcome fw (MNIST_cnn.cell_data s) w = Ok (d, w') /\
      0 < MNIST_cnn.nb_classes s /\
      Forall (fun l => - MNIST_cnn.nb_classes s <= l < MNIST_cnn.nb_classes s)
             (train_y raw) /\
      Forall (fun l => - MNIST_cnn.nb_classes s <= l < MNIST_cnn.nb_classes s)
             (test_y raw) /\
      matrix_shape (MNIST_cnn.Y_train d)
      = [Z.of_nat (length (train_y raw)); MNIST_cnn.nb_classes s] /\
      matrix_shape (MNIST_cnn.Y_test d)
      = [Z.of_nat (length (test_y raw)); MNIST_cnn.nb_classes s] /\
      Forall (fun row => length row = Z.to_nat (MNIST_cnn.nb_classes s))
             (rows (MNIST_cnn.Y_train d) ++ rows (MNIST_cnn.Y_test d)).
Proof.
  intros W fw w s Hne H.
  apply completes_runs in H. destruct H as (d & w' & H).
  destruct (runs_trace _ _ _ _ _ _ H) as (_ & Hout).
  apply mnist_runs_data in H. destruct H as (raw & n_train & n_test & Hp & ->).
  destruct Hp as (_ & _ & _ & _ & HY1 & HY2 & _).
  destruct (to_categorical_Ok _ _ _ Hne HY1) as (Hpos & Hcols1 & Hrows1).
  destruct (to_categorical_Ok _ _ _ Hne HY2) as (_ & Hcols2 & Hrows2).
  destruct (one_hot_rows_Ok _ _ _ Hrows1) as (Hy1 & Hr1).
  destruct (one_hot_rows_Ok _ _ _ Hrows2) as (Hy2 & Hr2).
  exists raw, d, w'.
  split; [unfold MNIST_cnn.data_events; in_events |].
  split; [exact Hout |]. split; [exact Hpos |].
  split; [exact Hy1 |]. split; [exact Hy2 |].
  split; [unfold matrix_shape;
          rewrite Hcols1, (one_hot_rows_length _ _ _ Hrows1); reflexivity |].
  split; [unfold matrix_shape;
          rewrite Hcols2, (one_hot_rows_length _ _ _ Hrows2); reflexivity |].
  apply Forall_app. split; assumption.
Qed.

Lemma mnist_labels_are_classes_witness :
    exists raw d w',
      In (Returned mnist_load_data raw)
         (trace Demo.framework_small (MNIST_cnn.cell_data MNIST_cnn.recorded) 0%nat) /\
      outcome Demo.framework_small (MNIST_cnn.cell_data MNIST_cnn.recorded) 0%nat
      = Ok (d, w') /\
      0 < MNIST_cnn.nb_classes MNIST_cnn.recorded /\
      Forall (fun l => - MNIST_cnn.nb_classes MNIST_cnn.recorded <= l
                       < MNIST_cnn.nb_classes MNIST_cnn.recorded)
             (train_y raw) /\
      Forall (fun l => - MNIST_cnn.nb_classes MNIST_cnn.recorded <= l
                       < MNIST_cnn.nb_classes MNIST_cnn.recorded)
             (test_y raw) /\
      matrix_shape (MNIST_cnn.Y_train d)
      = [Z.of_nat (length (train_y raw)); MNIST_cnn.nb_classes MNIST_cnn.recorded] /\
      matrix_shape (MNIST_cnn.Y_test d)
      = [Z.of_nat (length (test_y raw)); MNIST_cnn.nb_classes MNIST_cnn.recorded] /\
      Forall (fun row => length row = Z.to_nat (MNIST_cnn.nb_classes MNIST_cnn.recorded))
             (rows (MNIST_cnn.Y_train d) ++ rows (MNIST_cnn.Y_test d)).
Proof.
  apply (mnist_labels_are_classes nat Demo.framework_small 0%nat MNIST_cnn.recorded).
  - vm_compute. discriminate.
  - vm_compute. reflexivity.
Defined.

(** ** Training, validation and test data *)




(** In a completed run of the MNIST cells the one [fit] call validates on
    the very arrays the one [evaluate] call is then given: the test images
    and one-hot test labels the data cell bound. *)
Theorem mnist_validates_on_the_test_set :
  forall (W : Type) (fw : framework W) (w : W) (s : MNIST_cnn.settings),
    completes fw (MNIST_cnn.train_and_show s) w = true ->
    exists d m w' score,
      outcome fw (MNIST_cnn.train_and_show s) w = Ok ((d, m), w') /\
      fit_validations (trace fw (MNIST_cnn.train_and_show s) w)
      = [validation_data (MNIST_cnn.X_test d) (MNIST_cnn.Y_test d)] /\
      evaluations (trace fw (MNIST_cnn.train_and_show s) w)
      = [(MNIST_cnn.X_test d, MNIST_cnn.Y_test d, score)].
Proof.
  intros W fw w s H.
  apply completes_runs in H. destruct H as ([d m] & w' & H).
  destruct (runs_trace _ _ _ _ _ _ H) as (_ & Hout).
  apply mnist_runs_train_and_show in H. destruct H as (a & <- & <- & _ & ->).
  exists (MNIST_cnn.a_data a), (MNIST_cnn.a_model a), w', (MNIST_cnn.a_score a).
  split; [exact Hout |]. split; reflexivity.
Qed.

Lemma mnist_validates_on_the_test_set_witness :
    exists d m w' score,
      outcome Demo.framework_small (MNIST_cnn.train_and_show MNIST_cnn.recorded) 0%nat
      = Ok ((d, m), w') /\
      fit_validations
        (trace Demo.framework_small (MNIST_cnn.train_and_show MNIST_cnn.recorded) 0%nat)
      = [validation_data (MNIST_cnn.X_test d) (MNIST_cnn.Y_test d)] /\
      evaluations
        (trace Demo.framework_small (MNIST_cnn.train_and_show MNIST_cnn.recorded) 0%nat)
      = [(MNIST_cnn.X_test d, MNIST_cnn.Y_test d, score)].
Proof.
  apply (mnist_validates_on_the_test_set nat Demo.framework_small 0%nat
           MNIST_cnn.recorded).
  vm_compute. reflexivity.
Defined.



(** ** The output layer and the label matrices *)

(** When [nb_classes] is not 0, a completed run of the MNIST cells added
    twelve layers whatever the other settings are, and the last [Dense]
    layer has as many units as the one-hot label matrices have columns. *)
Theorem mnist_output_layer_matches_labels :
  forall (W : Type) (fw : framework W) (w : W) (s : MNIST_cnn.settings),
    MNIST_cnn.nb_classes s <> 0 ->
    completes fw (MNIST_cnn.train_and_show s) w = true ->
    exists d m w' hidden,
      outcome fw (MNIST_cnn.train_and_show s) w = Ok ((d, m), w') /\
      layers_added (trace fw (MNIST_cnn.train_and_show s) w)
      = hidden ++ [Dense (ncols (MNIST_cnn.Y_train d)) None; Activation "softmax"] /\
      length hidden = 10%nat /\
      ncols (MNIST_cnn.Y_test d) = ncols (MNIST_cnn.Y_train d).
Proof.
  intros W fw w s Hne H.
  apply completes_runs in H. destruct H as ([d m] & w' & H).
  destruct (runs_trace _ _ _ _ _ _ H) as (_ & Hout).
  apply mnist_runs_train_and_show in H. destruct H as (a & <- & <- & G & ->).
  destruct G as ((_ & _ & _ & _ & HY1 & HY2 & _) & _).
  destruct (to_categorical_Ok _ _ _ Hne HY1) as (_ & Hcols1 & _).
  destruct (to_categorical_Ok _ _ _ Hne HY2) as (_ & Hcols2 & _).
  exists (MNIST_cnn.a_data a), (MNIST_cnn.a_model a), w',
    (firstn 10 (MNIST_cnn.stack s)).
  split; [exact Hout |].
  rewrite mnist_layers_added_train_and_show, Hcols1, Hcols2.
  repeat split; reflexivity.
Qed.

Lemma mnist_output_layer_matches_labels_witness :
    exists d m w' hidden,
      outcome Demo.framework_small (MNIST_cnn.train_and_show MNIST_cnn.recorded) 0%nat
      = Ok ((d, m), w') /\
      layers_added
        (trace Demo.framework_small (MNIST_cnn.train_and_show MNIST_cnn.recorded) 0%nat)
      = hidden ++ [Dense (ncols (MNIST_cnn.Y_train d)) None; Activation "softmax"] /\
      length hidden = 10%nat /\
      ncols (MNIST_cnn.Y_test d) = ncols (MNIST_cnn.Y_train d).
Proof.
  apply (mnist_output_layer_matches_labels nat Demo.framework_small 0%nat
           MNIST_cnn.recorded).
  - vm_compute. discriminate.
  - vm_compute. reflexivity.
Defined.

(** In a completed run of the Reuters cells the last [Dense] layer has as
    many units as the one-hot label matrices have columns, whatever the
    settings are: the number counted from the training labels. *)
Theorem reuters_output_layer_matches_labels :
  forall (W : Type) (fw : framework W) (w : W) (s : Reuters_MLP.settings),
    completes fw (Reuters_MLP.train s) w = true ->
    exists d m w' hidden,
      outcome fw (Reuters_MLP.train s) w = Ok ((d, m), w') /\
      layers_added (trace fw (Reuters_MLP.train s) w)
      = hidden ++ [Dense (ncols (Reuters_MLP.Y_train d)) None; Activation "softmax"] /\
      length hidden = (3 * (1 + Z.to_nat (Reuters_MLP.nb_hidden s - 1)))%nat /\
      ncols (Reuters_MLP.Y_test d) = ncols (Reuters_MLP.Y_train d).
Proof.
  intros W fw w s H.
  apply completes_runs in H. destruct H as ([d m] & w' & H).
  destruct (runs_trace _ _ _ _ _ _ H) as (_ & Hout).
  apply reuters_runs_train in H. destruct H as (a & <- & <- & G & ->).
  destruct G as (_ & _ & Hc & HY1 & HY2 & _).
  pose proof (counted_classes_positive _ _ _ Hc HY1) as Hpos.
  assert (Hne : Reuters_MLP.nb_classes (Reuters_MLP.a_data a) <> 0) by lia.
  destruct (to_categorical_Ok _ _ _ Hne HY1) as (_ & Hcols1 & _).
  destruct (to_categorical_Ok _ _ _ Hne HY2) as (_ & Hcols2 & _).
  exists (Reuters_MLP.a_data a), (Reuters_MLP.a_model a), w'.
  eexists.
  split; [exact Hout |].
  rewrite reuters_layers_added_train, Hcols1, Hcols2.
  unfold Reuters_MLP.stack. rewrite app_assoc.
  split; [reflexivity |]. split; [| reflexivity].
  rewrite length_app. simpl length.
  induction (Z.to_nat (Reuters_MLP.nb_hidden s - 1)) as [| k IH]; [reflexivity |].
  simpl concat. simpl length. simpl length in IH. lia.
Qed.

Lemma reuters_output_layer_matches_labels_witness :
    exists d m w' hidden,
      outcome Demo.framework_small (Reuters_MLP.train Reuters_MLP.recorded) 0%nat
      = Ok ((d, m), w') /\
      layers_added
        (trace Demo.framework_small (Reuters_MLP.train Reuters_MLP.recorded) 0%nat)
      = hidden ++ [Dense (ncols (Reuters_MLP.Y_train d)) None; Activation "softmax"] /\
      length hidden
      = (3 * (1 + Z.to_nat (Reuters_MLP.nb_hidden Reuters_MLP.recorded - 1)))%nat /\
      ncols (Reuters_MLP.Y_test d) = ncols (Reuters_MLP.Y_train d).
Proof.
  apply (reuters_output_layer_matches_labels nat Demo.framework_small 0%nat
           Reuters_MLP.recorded).
  vm_compute. reflexivity.
Defined.

(** ** The earlier revisions *)

(** The earlier revisions of the two notebooks never call [save_model],
    whatever the framework returns and wherever the run stops. *)
Theorem earlier_revisions_never_save :
  forall (W : Type) (fw : framework W) (w : W),
    existsb (attempts is_save_model) (trace fw MNIST_cnn.earlier_revision w) = false /\
    existsb (attempts is_save_model) (trace fw Reuters_MLP.earlier_revision w) = false.
Proof.
  intros W fw w. split; apply never_trace.
  - unfold MNIST_cnn.earlier_revision.
    apply never_bind; [apply mnist_setup_never_saves | intros _].
    apply never_bind; [apply mnist_setup_never_saves | intros s].
    apply never_bind; [apply mnist_train_and_show_never_saves | intros _].
    apply never_call. reflexivity.
  - unfold Reuters_MLP.earlier_revision.
    apply never_bind; [apply reuters_setup_never_saves | intros _].
    apply never_bind; [apply reuters_setup_never_saves | intros s].
    apply never_bind; [apply reuters_train_never_saves | intros _].
    constructor.
Qed.

(** ** Failures and the order of the steps *)

(** *** Squashed phases *)





Section Steps.

Context (constants : list string).




Context {W : Type} (fw : framework W).





End Steps.

(** *** The rules *)

















(** *** The exceptions of the cells' own steps *)













(** *** Steps in order *)

Section In_order.

Context (constants : list string) (steps : list phase).




End In_order.

(** *** The notebooks *)














(** When [fit] runs out of memory the MNIST run ends with that exception
    after the first four steps; when the Reuters loader returns no
    newswires the run ends with the [ValueError] of [np.max] although no
    delegated call raised. *)
Example failed_runs :
  (outcome Demo.fit_fails MNIST_cnn.notebook 0%nat
   = Err (FrameworkError "MemoryError") /\
   failures (trace Demo.fit_fails MNIST_cnn.notebook 0%nat)
   = [FrameworkError "MemoryError"] /\
   phases MNIST_cnn.constants (trace Demo.fit_fails MNIST_cnn.notebook 0%nat)
   = [Hyperparameters; LoadData; BuildModel; Fit]) /\
  (outcome Demo.no_newswires Reuters_MLP.notebook 0%nat = Err ValueError /\
   failures (trace Demo.no_newswires Reuters_MLP.notebook 0%nat) = [] /\
   phases Reuters_MLP.constants (trace Demo.no_newswires Reuters_MLP.notebook 0%nat)
   = [Hyperparameters; LoadData]).
Proof. vm_compute. repeat split; reflexivity. Qed.
